(** * Nettech barcode client: the camera screen's scan-confirmation logic
      and the product lookup, embedded from the TypeScript sources.

    - [Arith]      : the arithmetic of JavaScript numbers the frame filter uses
    - [Scanner]    : the data of [codeScanner.onCodeScanned] and the scan frame
    - [VariantA]   : src/screens/CameraScreen.tsx (multi-read confirmation)
    - [VariantB]   : the second CameraScreen (single-read debounce)
    - [JS], [Api]  : services/api, [findProductByBarcode]
    - [Dispatcher] : the end of [processBarcodeRequest]
    - [Machine]    : a screen among its callbacks, with the pending lookups
    - [Spec]       : the vocabulary of the stated properties

    Screen coordinates are JavaScript numbers.  The frame filter is written
    over an interface of their arithmetic, [Arith.Number], whose instance
    [Arith.DoubleNumber] is IEEE 754 binary64 as the kernel computes it; the
    instance [Arith.ExactNumber] is the same arithmetic without rounding.
    Numbers whose values are only compared or copied (the progress ratio, the
    scroll offsets, the numbers of a parsed payload) are rationals [Q];
    millisecond clock readings ([Date.now()]) are integers [Z]. *)

From Stdlib Require Import ZArith QArith List Ascii String Bool Lia Lqa DecimalString.
From Stdlib Require Floats.
Import ListNotations.
Open Scope Z_scope.

(* ===================================================================== *)
(** ** Effects shared by both camera screens *)
(* ===================================================================== *)

(** What a callback of the screen does to its collaborators. *)
Inductive effect : Type :=
| Lookup (barcode : string)          (* findProductByBarcode(barcode) is called *)
| Navigate (barcode : string)        (* navigation.navigate('ProductDetail', {barcode}) *)
| AlertNotFound (barcode : string)   (* Alert.alert('Ürün Bulunamadı', ...) *)
| AlertError.                        (* Alert.alert('Hata', ...) *)

(* ===================================================================== *)
(** ** The arithmetic of JavaScript numbers *)
(* ===================================================================== *)

Module Arith.

(** The operations on numbers that the frame filter uses.  [leb a b] is
    [a <= b], and [b >= a] as well: the two agree on every pair of doubles,
    NaN included. *)
Class Number (num : Type) : Type := {
  add : num -> num -> num;
  sub : num -> num -> num;
  mul : num -> num -> num;
  div : num -> num -> num;
  leb : num -> num -> bool;
  max : num -> num -> num;          (* Math.max *)
  min : num -> num -> num;          (* Math.min *)
  two : num;                        (* the literal 2 *)
  seven_tenths : num                (* the literal 0.7 *)
}.

(** IEEE 754 binary64, the numbers of the program. *)
Module Double.
Import PrimFloat.
Local Open Scope float_scope.

(** [Math.max(a, b)]: NaN if either is NaN; +0 is above -0. *)
Definition max (a b : float) : float :=
  if is_nan a || is_nan b then nan
  else if a <? b then b
  else if b <? a then a
  else if get_sign a then b else a.

(** [Math.min(a, b)]: NaN if either is NaN; -0 is below +0. *)
Definition min (a b : float) : float :=
  if is_nan a || is_nan b then nan
  else if a <? b then a
  else if b <? a then b
  else if get_sign a then a else b.

Definition two : float := 2.

(** The double the literal [0.7] denotes, the one nearest to 7/10. *)
Definition seven_tenths : float := 0x1.6666666666666p-1.

End Double.

#[global] Instance DoubleNumber : Number PrimFloat.float := {
  add := PrimFloat.add;
  sub := PrimFloat.sub;
  mul := PrimFloat.mul;
  div := PrimFloat.div;
  leb := PrimFloat.leb;
  max := Double.max;
  min := Double.min;
  two := Double.two;
  seven_tenths := Double.seven_tenths
}.

(** The same operations without rounding, on rationals: what the
    expressions of the program denote as formulas.  (A quotient by zero,
    which the doubles make infinite or NaN, is zero here.) *)
Module Exact.
Definition max (a b : Q) : Q := if Qle_bool a b then b else a.
Definition min (a b : Q) : Q := if Qle_bool a b then a else b.
End Exact.

#[global] Instance ExactNumber : Number Q := {
  add := Qplus;
  sub := Qminus;
  mul := Qmult;
  div := Qdiv;
  leb := Qle_bool;
  max := Exact.max;
  min := Exact.min;
  two := 2%Q;
  seven_tenths := (7 # 10)%Q
}.

End Arith.

Declare Scope num_scope.
Delimit Scope num_scope with num.
Infix "+" := Arith.add : num_scope.
Infix "-" := Arith.sub : num_scope.
Infix "*" := Arith.mul : num_scope.
Infix "/" := Arith.div : num_scope.
Infix "<=?" := Arith.leb : num_scope.

(* ===================================================================== *)
(** ** The frame filter *)
(* ===================================================================== *)

Module Scanner.

(** [code.frame] of the scanner library. *)
Record Frame (num : Type) : Type := mkFrame {
  x : num;
  y : num;
  width : num;
  height : num
}.
Arguments mkFrame {num} x y width height.
Arguments x {num} f.
Arguments y {num} f.
Arguments width {num} f.
Arguments height {num} f.

(** One detected code: [value] and [frame] are both optional in the
    scanner's type. *)
Record Code (num : Type) : Type := mkCode {
  value : option string;
  frame : option (Frame num)
}.
Arguments mkCode {num} value frame.
Arguments value {num} c.
Arguments frame {num} c.

(** [Dimensions.get('window')]. *)
Record Window (num : Type) : Type := mkWindow {
  SCREEN_WIDTH : num;
  SCREEN_HEIGHT : num
}.
Arguments mkWindow {num} SCREEN_WIDTH SCREEN_HEIGHT.
Arguments SCREEN_WIDTH {num} w.
Arguments SCREEN_HEIGHT {num} w.

(** [!code.value] is false exactly for a defined, non-empty string. *)
Definition truthy_value (v : option string) : bool :=
  match v with
  | Some s => negb (String.eqb s EmptyString)
  | None => false
  end.

Section ScanFrame.
Context {num : Type} {N : Arith.Number num}.
Local Open Scope num_scope.

Definition FRAME_SIZE (w : Window num) : num := SCREEN_WIDTH w * Arith.seven_tenths.
Definition SCAN_FRAME_LEFT (w : Window num) : num :=
  (SCREEN_WIDTH w - FRAME_SIZE w) / Arith.two.
Definition SCAN_FRAME_RIGHT (w : Window num) : num := SCAN_FRAME_LEFT w + FRAME_SIZE w.
Definition SCAN_FRAME_TOP (w : Window num) : num :=
  (SCREEN_HEIGHT w - FRAME_SIZE w) / Arith.two.
Definition SCAN_FRAME_BOTTOM (w : Window num) : num := SCAN_FRAME_TOP w + FRAME_SIZE w.

(** The containment test on a screen-space centre:
    [centerX >= SCAN_FRAME_LEFT && centerX <= SCAN_FRAME_RIGHT &&
     centerY >= SCAN_FRAME_TOP && centerY <= SCAN_FRAME_BOTTOM]. *)
Definition inside (w : Window num) (centerX centerY : num) : bool :=
  (SCAN_FRAME_LEFT w <=? centerX) &&
  (centerX <=? SCAN_FRAME_RIGHT w) &&
  (SCAN_FRAME_TOP w <=? centerY) &&
  (centerY <=? SCAN_FRAME_BOTTOM w).

(** The bounding-box centre, [x + width / 2] and [y + height / 2]. *)
Definition boxCenterX (f : Frame num) : num := x f + width f / Arith.two.
Definition boxCenterY (f : Frame num) : num := y f + height f / Arith.two.

End ScanFrame.

End Scanner.

(* ===================================================================== *)
(** ** Variant A: src/screens/CameraScreen.tsx *)
(* ===================================================================== *)

Module VariantA.
Import Scanner.

Definition SCAN_COOLDOWN : Z := 500.
Definition CONFIRM_COUNT : nat := 3.
Definition CONFIRM_TIMEOUT : Z := 2500.

(** The component's state cells: the three [useState] values and the
    three [useRef] cells.  A pending [setTimeout] is recorded by the
    clock reading at which its callback falls due. *)
Record state : Type := mkState {
  isProcessing : bool;
  isConfirming : bool;
  confirmProgress : Q;
  lastScanTime : Z;
  barcodeBuffer : list string;
  confirmTimeout : option Z
}.

(** The state at mount. *)
Definition initial : state :=
  mkState false false 0 0 [] None.

Definition setIsProcessing (b : bool) (st : state) : state :=
  mkState b (isConfirming st) (confirmProgress st) (lastScanTime st)
          (barcodeBuffer st) (confirmTimeout st).

(** [clearBarcodeBuffer]: empties the buffer, hides the progress display
    and cancels the pending timer. *)
Definition clearBarcodeBuffer (st : state) : state :=
  mkState (isProcessing st) false 0 (lastScanTime st) [] None.

(** [processBarcodeRequest], up to its first [await]: the flag is set, the
    buffer cleared and the lookup called. *)
Definition processBarcodeRequest (barcode : string) (st : state)
  : state * list effect :=
  (clearBarcodeBuffer (setIsProcessing true st), [Lookup barcode]).

(** [barcodeBuffer.current.slice(-n)]: the last [n] entries, or all of
    them when there are fewer. *)
Definition slice_last {A : Type} (n : nat) (l : list A) : list A :=
  skipn (List.length l - n) l.

(** [handleBarcodeScanned], called at clock reading [now]. *)
Definition handleBarcodeScanned (now : Z) (barcode : string) (st : state)
  : state * list effect :=
  if isProcessing st then (st, [])
  else if now - lastScanTime st <? SCAN_COOLDOWN then (st, [])
  else
    let buffer := barcodeBuffer st ++ [barcode] in
    let st1 := mkState (isProcessing st) (isConfirming st) (confirmProgress st)
                       now buffer (confirmTimeout st) in
    let recentBarcodes := slice_last CONFIRM_COUNT buffer in
    let allSame := forallb (fun b => String.eqb b barcode) recentBarcodes in
    let hasEnoughScans := (CONFIRM_COUNT <=? List.length recentBarcodes)%nat in
    if allSame && hasEnoughScans then processBarcodeRequest barcode st1
    else
      (mkState (isProcessing st1) true
               (inject_Z (Z.of_nat (List.length recentBarcodes))
                  / inject_Z (Z.of_nat CONFIRM_COUNT))
               (lastScanTime st1) (barcodeBuffer st1)
               (Some (now + CONFIRM_TIMEOUT)),
       []).

(** The test [allSame && hasEnoughScans] of [handleBarcodeScanned], as a
    function of the buffer before the push and of the value read. *)
Definition confirms (buffer : list string) (v : string) : bool :=
  forallb (fun b => String.eqb b v) (slice_last CONFIRM_COUNT (buffer ++ [v]))
  && (CONFIRM_COUNT <=? List.length (slice_last CONFIRM_COUNT (buffer ++ [v])))%nat.

Section FrameFilter.
Context {num : Type} {N : Arith.Number num}.

(** The predicate handed to [codes.find]. *)
Definition isValidCode (w : Window num) (code : Code num) : bool :=
  if negb (truthy_value (value code)) then false
  else match frame code with
       | None => false
       | Some f => inside w (boxCenterX f) (boxCenterY f)
       end.

(** [codes.find(...)], then [validCode?.value]. *)
Definition frameFilter (w : Window num) (codes : list (Code num)) : option string :=
  match find (isValidCode w) codes with
  | Some validCode =>
      if truthy_value (value validCode) then value validCode else None
  | None => None
  end.

(** [codeScanner.onCodeScanned]. *)
Definition onCodeScanned (w : Window num) (now : Z) (codes : list (Code num))
           (st : state) : state * list effect :=
  match frameFilter w codes with
  | Some v => handleBarcodeScanned now v st
  | None => (st, [])
  end.

End FrameFilter.

(** The callback armed by [setTimeout(..., CONFIRM_TIMEOUT)]; it runs only
    while its timer is pending. *)
Definition confirmTimeoutFired (st : state) : state * list effect :=
  match confirmTimeout st with
  | Some _ => (clearBarcodeBuffer st, [])
  | None => (st, [])
  end.

(** The [useFocusEffect] callback and the cleanup it returns. *)
Definition onFocus (st : state) : state :=
  clearBarcodeBuffer (setIsProcessing false st).
Definition onBlur (st : state) : state := clearBarcodeBuffer st.

(** The alert button's [onPress]. *)
Definition alertDismissed (st : state) : state := setIsProcessing false st.

(** *** Timed delivery of reads *)

(** The clock reaches [now]: a timer due by then has run its callback.  A
    timer due exactly at [now] runs before a read delivered at [now]. *)
Definition expire (now : Z) (st : state) : state * list effect :=
  match confirmTimeout st with
  | Some due => if due <=? now then confirmTimeoutFired st else (st, [])
  | None => (st, [])
  end.

(** One read delivered at [now]: due timers first, then the handler. *)
Definition deliver (read : Z * string) (st : state) : state * list effect :=
  let '(st1, effs1) := expire (fst read) st in
  let '(st2, effs2) := handleBarcodeScanned (fst read) (snd read) st1 in
  (st2, effs1 ++ effs2).

(** A sequence of reads; the result lists the effects of each read. *)
Fixpoint deliverAll (reads : list (Z * string)) (st : state)
  : state * list (list effect) :=
  match reads with
  | [] => (st, [])
  | r :: rest =>
      let '(st1, effs) := deliver r st in
      let '(st2, trace) := deliverAll rest st1 in
      (st2, effs :: trace)
  end.

(** The accumulator is IDLE: nothing buffered, nothing shown, no timer. *)
Definition idle (st : state) : Prop :=
  barcodeBuffer st = [] /\ isConfirming st = false /\
  confirmProgress st = 0%Q /\ confirmTimeout st = None.

End VariantA.


(* ===================================================================== *)
(** ** Variant B: the second camera screen (single-read debounce) *)
(* ===================================================================== *)

Module VariantB.
Import Scanner.

Definition SCAN_DEBOUNCE : Z := 1500.

(** [Platform.OS]. *)
Inductive PlatformOS : Type := ios | android.

(** The fields of the camera format that the filter reads. *)
Record Format (num : Type) : Type := mkFormat {
  videoWidth : num;
  videoHeight : num
}.
Arguments mkFormat {num} videoWidth videoHeight.
Arguments videoWidth {num} f.
Arguments videoHeight {num} f.

Record state : Type := mkState {
  isProcessing : bool;
  lastScanTime : Z
}.

Definition initial : state := mkState false 0.

Definition setIsProcessing (b : bool) (st : state) : state :=
  mkState b (lastScanTime st).

(** [processBarcodeRequest], up to its first [await]. *)
Definition processBarcodeRequest (barcode : string) (st : state)
  : state * list effect :=
  (setIsProcessing true st, [Lookup barcode]).

(** [handleBarcodeScanned], called at clock reading [now]. *)
Definition handleBarcodeScanned (now : Z) (barcode : string) (st : state)
  : state * list effect :=
  if isProcessing st then (st, [])
  else if now - lastScanTime st <? SCAN_DEBOUNCE then (st, [])
  else processBarcodeRequest barcode (mkState (isProcessing st) now).

Section FrameFilter.
Context {num : Type} {N : Arith.Number num}.
Local Open Scope num_scope.

(** The centre the containment test is applied to.  On iOS with a camera
    format the box arrives in the sensor's landscape space and is mapped to
    the screen first. *)
Definition screenCenter (w : Window num) (os : PlatformOS) (format : option (Format num))
           (f : Frame num) : num * num :=
  match os, format with
  | ios, Some fmt =>
      let camLong := Arith.max (videoWidth fmt) (videoHeight fmt) in
      let camShort := Arith.min (videoWidth fmt) (videoHeight fmt) in
      ((y f + height f / Arith.two) / camShort * SCREEN_WIDTH w,
       (x f + width f / Arith.two) / camLong * SCREEN_HEIGHT w)
  | _, _ => (x f + width f / Arith.two, y f + height f / Arith.two)
  end.

(** The predicate handed to [codes.find]. *)
Definition isValidCode (w : Window num) (os : PlatformOS) (format : option (Format num))
           (code : Code num) : bool :=
  if negb (truthy_value (value code)) then false
  else match frame code with
       | None => false
       | Some f =>
           let '(centerX, centerY) := screenCenter w os format f in
           inside w centerX centerY
       end.

(** [codes.find(...)], then [validCode?.value]. *)
Definition frameFilter (w : Window num) (os : PlatformOS) (format : option (Format num))
           (codes : list (Code num)) : option string :=
  match find (isValidCode w os format) codes with
  | Some validCode =>
      if truthy_value (value validCode) then value validCode else None
  | None => None
  end.

(** [codeScanner.onCodeScanned]. *)
Definition onCodeScanned (w : Window num) (os : PlatformOS) (format : option (Format num))
           (now : Z) (codes : list (Code num)) (st : state) : state * list effect :=
  match frameFilter w os format codes with
  | Some v => handleBarcodeScanned now v st
  | None => (st, [])
  end.

End FrameFilter.

(** The [useFocusEffect] callback and the cleanup it returns. *)
Definition onFocus (st : state) : state :=
  mkState false 0.
Definition onBlur (st : state) : state :=
  mkState (isProcessing st) 0.

(** The alert button's [onPress]. *)
Definition alertDismissed (st : state) : state := setIsProcessing false st.

End VariantB.

(* ===================================================================== *)
(** ** The fragment of JavaScript that services/api reads JSON with *)
(* ===================================================================== *)

Module JS.

(** A JavaScript value as [JSON.parse] and property reads produce it.  An
    object lists its own properties in enumeration order, each key once. *)
#[warnings="-register-all"] Inductive value : Type :=
| VUndefined
| VNull
| VBool (b : bool)
| VNumber (q : Q)
| VString (s : string)
| VArray (items : list value)
| VObject (props : list (string * value)).

(** What a [throw] carries: an [Error] instance with its [name] and
    [message], or anything else. *)
Inductive thrown : Type :=
| ErrorObject (name message : string)
| OtherThrown.

(** Computations that may throw. *)
Definition M (A : Type) : Type := (thrown + A)%type.
Definition ret {A : Type} (a : A) : M A := inr a.
Definition throw {A : Type} (e : thrown) : M A := inl e.
Definition bind {A B : Type} (c : M A) (k : A -> M B) : M B :=
  match c with
  | inl e => inl e
  | inr a => k a
  end.
(** [try { c } catch (e) { h e }]. *)
Definition try_catch {A : Type} (c : M A) (h : thrown -> M A) : M A :=
  match c with
  | inl e => h e
  | inr a => inr a
  end.

Fixpoint mapM {A B : Type} (f : A -> M B) (l : list A) : M (list B) :=
  match l with
  | [] => ret []
  | a :: rest =>
      bind (f a) (fun b => bind (mapM f rest) (fun bs => ret (b :: bs)))
  end.

Fixpoint lookup (prop : string) (props : list (string * value)) : value :=
  match props with
  | [] => VUndefined
  | (k, v) :: rest => if String.eqb k prop then v else lookup prop rest
  end.

(** The engine's TypeError text for a property read on null or undefined. *)
Definition typeErrorMessage (prop : string) (base : value) : string :=
  ("Cannot read property '" ++ prop ++ "' of " ++
   match base with VNull => "null" | _ => "undefined" end)%string.

Definition nullish (v : value) : bool :=
  match v with VUndefined | VNull => true | _ => false end.

(** The value of [base.prop] on a base that is not nullish, for the
    property names the lookup reads: none of them is defined on the
    prototypes of primitives or arrays. *)
Definition prop (base : value) (name : string) : value :=
  match base with
  | VObject props => lookup name props
  | _ => VUndefined
  end.

(** [base.prop]: a TypeError on null and undefined. *)
Definition get (base : value) (name : string) : M value :=
  if nullish base
  then throw (ErrorObject "TypeError" (typeErrorMessage name base))
  else ret (prop base name).

(** ToBoolean. *)
Definition truthy (v : value) : bool :=
  match v with
  | VUndefined | VNull => false
  | VBool b => b
  | VNumber q => negb (Qeq_bool q 0)
  | VString s => negb (String.eqb s EmptyString)
  | VArray _ | VObject _ => true
  end.

(** [a || b] on values that are already evaluated. *)
Definition or (a b : value) : value := if truthy a then a else b.

Definition isArray (v : value) : bool :=
  match v with VArray _ => true | _ => false end.

(** [typeof v === 'object']. *)
Definition typeofObject (v : value) : bool :=
  match v with VNull | VArray _ | VObject _ => true | _ => false end.

(** [Object.values] of an array or an object. *)
Definition objectValues (v : value) : list value :=
  match v with
  | VArray items => items
  | VObject props => map snd props
  | _ => []
  end.

(** The object has an own property of that name. *)
Definition hasOwn (name : string) (props : list (string * value)) : bool :=
  existsb (fun kv => String.eqb (fst kv) name) props.

(** The engine's TypeError text when an object has no primitive value. *)
Definition toPrimitiveErrorMessage : string :=
  "Cannot convert object to primitive value".

Section ToString.
(** Number::toString, the engine's printing of a double. *)
Variable numberToString : Q -> string.

(** [String(v)], which is also what a template literal applies.  An array
    is joined, its elements converted in turn.  A parsed object inherits
    [Object.prototype.toString] and prints as [object Object], unless it
    has a [toString] property of its own: a parsed value is never callable,
    and [valueOf] then yields the object itself (or is no function either), so
    the conversion throws a TypeError. *)
Fixpoint toString (v : value) : M string :=
  match v with
  | VUndefined => ret "undefined"
  | VNull => ret "null"
  | VBool true => ret "true"
  | VBool false => ret "false"
  | VNumber q => ret (numberToString q)
  | VString s => ret s
  | VArray items =>
      (fix join (l : list value) : M string :=
         match l with
         | [] => ret EmptyString
         | e :: rest =>
             bind (match e with
                   | VUndefined | VNull => ret EmptyString
                   | _ => toString e
                   end)
                  (fun first =>
                     match rest with
                     | [] => ret first
                     | _ :: _ => bind (join rest) (fun tail => ret (first ++ "," ++ tail))
                     end)
         end) items
  | VObject props =>
      if hasOwn "toString" props
      then throw (ErrorObject "TypeError" toPrimitiveErrorMessage)
      else ret "[object Object]"
  end%string.
End ToString.

End JS.

Declare Scope js_scope.
Notation "x <- c ;; k" := (JS.bind c (fun x => k))
  (at level 61, c at next level, right associativity) : js_scope.

(* ===================================================================== *)
(** ** services/api: [findProductByBarcode] *)
(* ===================================================================== *)

Module StoreStock.
Record t : Type := mk {
  store_id : JS.value;
  name : JS.value;
  stock : string
}.
End StoreStock.

Module Product.
(** The record [formatProduct] builds.  Fields copied from the payload
    keep whatever value the payload holds. *)
Record t : Type := mk {
  id : JS.value;
  category_id : JS.value;
  name : JS.value;
  barcode : JS.value;
  coverUrlThumb : string;
  totalStock : JS.value;
  storeStocks : list StoreStock.t;
  weight : JS.value;
  features : list JS.value;
  compatible_models : JS.value;
  sales_total : JS.value;
  price1 : JS.value;
  price1_cur : JS.value;
  price2 : JS.value;
  price2_cur : JS.value;
  price5 : JS.value;
  price5_cur : JS.value;
  price6 : JS.value;
  price6_cur : JS.value;
  price8 : JS.value;
  price8_cur : JS.value
}.
End Product.

Module Api.
Import JS.
Local Open Scope js_scope.
Local Open Scope string_scope.

(** [ApiResponse<Product>]. *)
Record ApiResponse : Type := mkApiResponse {
  success : bool;
  data : option Product.t;
  variations : option (list Product.t);
  error : option string
}.

(** What [fetch] resolves with: [response.ok], [response.status], and what
    [JSON.parse(responseText)] returns ([None] when it throws). *)
Record Response : Type := mkResponse {
  ok : bool;
  status : Z;
  json : option value
}.

(** One call of [fetch] as the network decides it: the time it takes to
    settle, in ms, and what it and the reading of the body then yield. *)
Record Fetch : Type := mkFetch {
  settlesAfter : Z;
  settlesWith : M Response
}.

Definition TIMEOUT_MS : Z := 30000.
Definition TIMEOUT_MESSAGE : string := "İstek zaman aşımına uğradı (10 saniye)".
Definition NOT_JSON_MESSAGE : string := "API yanıtı JSON formatında değil".
Definition NO_PRODUCT_MESSAGE : string := "API yanıtında product bilgisi bulunamadı".
Definition NOT_FOUND_MESSAGE : string := "Ürün bulunamadı".

(** [fetch(url, {signal})] raced against
    [setTimeout(() => controller.abort(), 30000)]. *)
Definition fetchWithAbort (f : Fetch) : M Response :=
  if (TIMEOUT_MS <=? settlesAfter f)%Z
  then throw (ErrorObject "AbortError" "Aborted")
  else settlesWith f.

Definition httpErrorMessage (status : Z) : string :=
  "HTTP error! status: " ++ NilZero.string_of_int (Z.to_int status).

Section Format.
Variable numberToString : Q -> string.

(** The callback of [storeStocks.map] and [shelf.map]. *)
Definition formatStoreStock (s : value) : M StoreStock.t :=
  store_id <- get s "store_id" ;;
  name <- get s "name" ;;
  name' <- (if truthy name then ret name
            else store_name <- get s "store_name" ;;
                 ret (or store_name (VString EmptyString))) ;;
  stock <- get s "stock" ;;
  stock' <- toString numberToString (or stock (VNumber 0)) ;;
  ret (StoreStock.mk (or store_id (VNumber 0)) name' stock').

(** [formatProduct]. *)
Definition formatProduct (product : value) : M Product.t :=
  storeStocks0 <- get product "storeStocks" ;;
  storeStocks <-
    (if truthy storeStocks0 && isArray storeStocks0
     then mapM formatStoreStock (objectValues storeStocks0)
     else shelf <- get product "shelf" ;;
          if truthy shelf && isArray shelf
          then mapM formatStoreStock (objectValues shelf)
          else ret []) ;;
  features0 <- get product "features" ;;
  let features :=
    if truthy features0 then
      if isArray features0 then objectValues features0
      else if typeofObject features0 then objectValues features0
      else []
    else [] in
  id <- get product "id" ;;
  category_id <- get product "category_id" ;;
  name <- get product "name" ;;
  barcode <- get product "barcode" ;;
  coverUrlThumb <- get product "coverUrlThumb" ;;
  cover <- (if truthy coverUrlThumb
            then path <- toString numberToString coverUrlThumb ;;
                 ret ("https://nettechservis.com" ++ path)
            else ret EmptyString) ;;
  totalStock <- get product "totalStock" ;;
  weight <- get product "weight" ;;
  compatible_models <- get product "compatible_models" ;;
  compatible_model_values <- get product "compatible_model_values" ;;
  sales_total <- get product "sales_total" ;;
  price1 <- get product "price1" ;;
  price1_cur <- get product "price1_cur" ;;
  price2 <- get product "price2" ;;
  price2_cur <- get product "price2_cur" ;;
  price5 <- get product "price5" ;;
  price5_cur <- get product "price5_cur" ;;
  price6 <- get product "price6" ;;
  price6_cur <- get product "price6_cur" ;;
  price8 <- get product "price8" ;;
  price8_cur <- get product "price8_cur" ;;
  ret (Product.mk id category_id name barcode
         cover
         (or totalStock (VNumber 0))
         storeStocks
         (or weight (VString "0"))
         features
         (or (or compatible_models compatible_model_values) (VArray []))
         (or sales_total (VNumber 0))
         price1 price1_cur price2 price2_cur price5 price5_cur
         price6 price6_cur price8 price8_cur).

(** The choice of [productsArray]. *)
Definition selectProducts (apiResponse : value) : M (list value) :=
  variations <- get apiResponse "variations" ;;
  if truthy variations && isArray variations
     && (0 <? List.length (objectValues variations))%nat
  then ret (objectValues variations)
  else
    success <- get apiResponse "success" ;;
    product <- (if truthy success then get apiResponse "product"
                else ret success) ;;
    if truthy product then ret [product]
    else throw (ErrorObject "Error" NO_PRODUCT_MESSAGE).

(** The body of the [try] block. *)
Definition tryBlock (f : Fetch) : M ApiResponse :=
  response <- fetchWithAbort f ;;
  _ <- (if negb (ok response)
        then throw (ErrorObject "Error" (httpErrorMessage (status response)))
        else ret tt) ;;
  apiResponse <- match json response with
                 | Some v => ret v
                 | None => throw (ErrorObject "Error" NOT_JSON_MESSAGE)
                 end ;;
  productsArray <- selectProducts apiResponse ;;
  formattedProducts <- mapM formatProduct productsArray ;;
  ret (mkApiResponse true (hd_error formattedProducts)
         (Some formattedProducts) None).

(** The [catch] block. *)
Definition catchBlock (e : thrown) : M ApiResponse :=
  match e with
  | ErrorObject name message =>
      if String.eqb name "AbortError"
      then ret (mkApiResponse false None None (Some TIMEOUT_MESSAGE))
      else ret (mkApiResponse false None None (Some message))
  | OtherThrown =>
      ret (mkApiResponse false None None (Some NOT_FOUND_MESSAGE))
  end.

(** [findProductByBarcode].  [token] is what
    [await tokenManager.getToken()] yields, ahead of the [try]. *)
Definition findProductByBarcode (barcode : string)
           (token : M (option string)) (f : Fetch) : M ApiResponse :=
  _ <- token ;;
  try_catch (tryBlock f) catchBlock.
End Format.

End Api.

(* ===================================================================== *)
(** ** The end of [processBarcodeRequest], on both screens *)
(* ===================================================================== *)

Module Dispatcher.
Import Api.

(** What [processBarcodeRequest] does once the lookup has settled. *)
Definition lookupSettled (barcode : string) (outcome : JS.M ApiResponse)
  : list effect :=
  match outcome with
  | inr response =>
      if success response
         && match data response with Some _ => true | None => false end
      then [Navigate barcode]
      else [AlertNotFound barcode]
  | inl _ => [AlertError]
  end.

(** The double-quote character. *)
Definition quote : string := String (Ascii.ascii_of_nat 34) EmptyString.

(** Title and message of the alert an effect shows. *)
Definition alertText (e : effect) : option (string * string) :=
  match e with
  | AlertNotFound barcode =>
      Some ("Ürün Bulunamadı",
            quote ++ barcode ++ quote ++
            " barkodlu ürün bulunamadı. Tekrar denemek için farklı bir barkod okutun.")%string
  | AlertError =>
      Some ("Hata",
            "Ürün bilgisi alınırken bir hata oluştu. Lütfen tekrar deneyin.")%string
  | _ => None
  end.

End Dispatcher.

(* ===================================================================== *)
(** ** One screen instance among its callbacks *)
(* ===================================================================== *)

Module Machine.

(** The callbacks a camera screen registers; both variants provide them. *)
Class Screen (S : Type) : Type := {
  processing : S -> bool;                          (* the isProcessing flag *)
  scanned : Z -> string -> S -> S * list effect;   (* handleBarcodeScanned *)
  timerFired : S -> S * list effect;               (* a pending timer's callback *)
  dismissed : S -> S;                              (* the alert button *)
  focused : S -> S;                                (* useFocusEffect callback *)
  blurred : S -> S                                 (* its cleanup *)
}.

#[global] Instance ScreenA : Screen VariantA.state := {
  processing := VariantA.isProcessing;
  scanned := VariantA.handleBarcodeScanned;
  timerFired := VariantA.confirmTimeoutFired;
  dismissed := VariantA.alertDismissed;
  focused := VariantA.onFocus;
  blurred := VariantA.onBlur
}.

#[global] Instance ScreenB : Screen VariantB.state := {
  processing := VariantB.isProcessing;
  scanned := VariantB.handleBarcodeScanned;
  timerFired := fun st => (st, []);
  dismissed := VariantB.alertDismissed;
  focused := VariantB.onFocus;
  blurred := VariantB.onBlur
}.

(** What the single UI thread can run next. *)
Inductive event : Type :=
| EvScan (now : Z) (barcode : string)
| EvTimer
| EvSettle (i : nat) (outcome : JS.M Api.ApiResponse)  (* i-th pending lookup settles *)
| EvDismiss
| EvFocus
| EvBlur.

(** The screen with its surroundings: the lookups called and not yet
    settled, and the alerts shown and not yet acknowledged. *)
Record world (S : Type) : Type := mkWorld {
  screen : S;
  inFlight : list string;
  openAlerts : nat
}.
Arguments mkWorld {S} _ _ _.
Arguments screen {S} _.
Arguments inFlight {S} _.
Arguments openAlerts {S} _.

Definition lookupsOf (effs : list effect) : list string :=
  flat_map (fun e => match e with Lookup b => [b] | _ => [] end) effs.

Definition alertsOf (effs : list effect) : nat :=
  List.length (filter (fun e => match e with
                                | AlertNotFound _ | AlertError => true
                                | _ => false
                                end) effs).

Fixpoint removeNth {A : Type} (i : nat) (l : list A) : list A :=
  match i, l with
  | _, [] => []
  | O, _ :: rest => rest
  | S j, a :: rest => a :: removeNth j rest
  end.

Section Run.
Context {S : Type} `{Screen S}.

Definition step (w : world S) (e : event) : world S * list effect :=
  match e with
  | EvScan now barcode =>
      let '(s, effs) := scanned now barcode (screen w) in
      (mkWorld s (inFlight w ++ lookupsOf effs) (openAlerts w), effs)
  | EvTimer =>
      let '(s, effs) := timerFired (screen w) in
      (mkWorld s (inFlight w) (openAlerts w), effs)
  | EvSettle i outcome =>
      match nth_error (inFlight w) i with
      | Some barcode =>
          let effs := Dispatcher.lookupSettled barcode outcome in
          (mkWorld (screen w) (removeNth i (inFlight w))
                   (openAlerts w + alertsOf effs), effs)
      | None => (w, [])
      end
  | EvDismiss =>
      match openAlerts w with
      | O => (w, [])
      | Datatypes.S n => (mkWorld (dismissed (screen w)) (inFlight w) n, [])
      end
  | EvFocus => (mkWorld (focused (screen w)) (inFlight w) (openAlerts w), [])
  | EvBlur => (mkWorld (blurred (screen w)) (inFlight w) (openAlerts w), [])
  end.

(** A run, with the log of what each event did. *)
Fixpoint run (trace : list event) (w : world S)
  : world S * list (event * list effect) :=
  match trace with
  | [] => (w, [])
  | e :: rest =>
      let '(w1, effs) := step w e in
      let '(w2, log) := run rest w1 in
      (w2, (e, effs) :: log)
  end.

(** Focus arrives only while no lookup is pending and no alert is open. *)
Fixpoint focusWhenQuiet (trace : list event) (w : world S) : bool :=
  match trace with
  | [] => true
  | e :: rest =>
      match e with
      | EvFocus =>
          match inFlight w, openAlerts w with
          | [], O => true
          | _, _ => false
          end
      | _ => true
      end && focusWhenQuiet rest (fst (step w e))
  end.
End Run.

Definition start {S : Type} (s : S) : world S := mkWorld s [] 0.

(** Pending lookups and open alerts together number at most one, and while
    there is one the processing flag is set. *)
Definition gated {S : Type} `{Screen S} (w : world S) : Prop :=
  (List.length (inFlight w) + openAlerts w <= 1)%nat /\
  ((List.length (inFlight w) + openAlerts w = 1)%nat ->
   processing (screen w) = true).

(** The first clock reading of a list, if any, is no earlier than [t]. *)
Definition startsFrom (t : Z) (times : list Z) : Prop :=
  match times with
  | t1 :: _ => t <= t1
  | [] => True
  end.

(** The clock readings of the scans of a log that called the lookup. *)
Definition acceptedTimes (log : list (event * list effect)) : list Z :=
  flat_map (fun entry =>
              match entry with
              | (EvScan now _, _ :: _) => [now]
              | _ => []
              end) log.

Definition isFocusOrBlur (e : event) : bool :=
  match e with EvFocus | EvBlur => true | _ => false end.

End Machine.

(* ===================================================================== *)
(** ** Vocabulary of the stated properties *)
(* ===================================================================== *)

Module Spec.
Import Scanner.

(** The progress ratio in the specification's words: the entries of the
    window that equal the value just read, over N. *)
Definition matchingProgress (window : list string) (v : string) : Q :=
  inject_Z (Z.of_nat (List.length (filter (fun b => String.eqb b v) window)))
  / inject_Z (Z.of_nat VariantA.CONFIRM_COUNT).

(** The reads of a sequence that pass the cooldown, [last] being the clock
    reading of the last read accepted before it. *)
Fixpoint passCooldown (last : Z) (reads : list (Z * string)) : list (Z * string) :=
  match reads with
  | [] => []
  | (t, v) :: rest =>
      if t - last <? VariantA.SCAN_COOLDOWN then passCooldown last rest
      else (t, v) :: passCooldown t rest
  end.

(** Some value occurs three times in a row. *)
Fixpoint hasTriple (l : list string) : bool :=
  match l with
  | a :: rest =>
      match rest with
      | b :: c :: _ => (String.eqb a b && String.eqb b c) || hasTriple rest
      | _ => false
      end
  | [] => false
  end.

(** The pending timer, if any, is the one the last accepted read armed. *)
Definition timerTracksLastRead (st : VariantA.state) : Prop :=
  match VariantA.confirmTimeout st with
  | Some due => due = VariantA.lastScanTime st + VariantA.CONFIRM_TIMEOUT
  | None => VariantA.idle st
  end.

Section Geometry.
Context {num : Type} {N : Arith.Number num}.
Local Open Scope num_scope.

(** A screen-space point lies in the scan-frame rectangle, borders
    included. *)
Definition inRect (w : Window num) (p : num * num) : Prop :=
  (SCAN_FRAME_LEFT w <=? fst p) = true /\ (fst p <=? SCAN_FRAME_RIGHT w) = true /\
  (SCAN_FRAME_TOP w <=? snd p) = true /\ (snd p <=? SCAN_FRAME_BOTTOM w) = true.

(** The bounding-box centre as a point: (x + width/2, y + height/2). *)
Definition boxCenter (f : Frame num) : num * num :=
  (x f + width f / Arith.two, y f + height f / Arith.two).

(** The centre on iOS with a camera format, mapped from the sensor's
    landscape space:
    ((y + height/2) / camShort * SCREEN_WIDTH,
     (x + width/2) / camLong * SCREEN_HEIGHT). *)
Definition sensorCenter (w : Window num) (fmt : VariantB.Format num) (f : Frame num)
  : num * num :=
  let camLong := Arith.max (VariantB.videoWidth fmt) (VariantB.videoHeight fmt) in
  let camShort := Arith.min (VariantB.videoWidth fmt) (VariantB.videoHeight fmt) in
  ((y f + height f / Arith.two) / camShort * SCREEN_WIDTH w,
   (x f + width f / Arith.two) / camLong * SCREEN_HEIGHT w).

(** A candidate is accepted with value [v]: it has that non-empty value, it
    has a bounding box, and the centre [center] assigns to the box lies in
    the rectangle. *)
Definition accepts (center : Frame num -> num * num) (w : Window num)
           (c : Code num) (v : string) : Prop :=
  value c = Some v /\ v <> EmptyString /\
  exists f, frame c = Some f /\ inRect w (center f).

Definition acceptable (center : Frame num -> num * num) (w : Window num)
           (c : Code num) : Prop :=
  exists v, accepts center w c v.

(** What a frame filter yields for a list of candidates: the value of the
    first acceptable candidate, nothing when there is none. *)
Definition firstAccepted (center : Frame num -> num * num) (w : Window num)
           (codes : list (Code num)) (result : option string) : Prop :=
  match result with
  | Some v =>
      exists l1 c l2, codes = l1 ++ c :: l2 /\ accepts center w c v /\
                      Forall (fun c' => ~ acceptable center w c') l1
  | None => Forall (fun c => ~ acceptable center w c) codes
  end.

End Geometry.

(** The array [formatProduct] maps its store-stock callback over. *)
Definition stockEntries (product : JS.value) : list JS.value :=
  let storeStocks := JS.prop product "storeStocks" in
  let shelf := JS.prop product "shelf" in
  if JS.truthy storeStocks && JS.isArray storeStocks then JS.objectValues storeStocks
  else if JS.truthy shelf && JS.isArray shelf then JS.objectValues shelf
  else [].

(** [String(v)] does not throw: [v] holds no object with a [toString]
    property of its own, at any depth of arrays. *)
Fixpoint printable (v : JS.value) : bool :=
  match v with
  | JS.VArray items =>
      (fix all (l : list JS.value) : bool :=
         match l with
         | [] => true
         | e :: rest => printable e && all rest
         end) items
  | JS.VObject props => negb (JS.hasOwn "toString" props)
  | _ => true
  end.

(** A payload entry that is not null, whose store-stock entries are not
    null either, and whose texts can be built: its [coverUrlThumb] and the
    [stock] of each store-stock entry are printable. *)
Definition formattable (product : JS.value) : Prop :=
  JS.nullish product = false /\
  printable (JS.prop product "coverUrlThumb") = true /\
  Forall (fun s => JS.nullish s = false /\ printable (JS.prop s "stock") = true)
         (stockEntries product).

(** The payload carries a non-empty [variations] array. *)
Definition hasVariations (apiResponse : JS.value) : bool :=
  match JS.prop apiResponse "variations" with
  | JS.VArray (_ :: _) => true
  | _ => false
  end.

(** The payload carries a truthy [success] and a truthy [product]. *)
Definition hasProduct (apiResponse : JS.value) : bool :=
  JS.truthy (JS.prop apiResponse "success")
  && JS.truthy (JS.prop apiResponse "product").

(** A number printer for the examples: the decimal numeral of the integer
    part, which is how Number::toString prints an integer. *)
Definition printInteger (q : Q) : string :=
  NilZero.string_of_int (Z.to_int (Qnum q / Zpos (Qden q))).

(** Payloads for the examples: a catalogue entry, a body with two
    variations, and a body with nothing in it. *)
Definition sampleVariation : JS.value :=
  JS.VObject [("id", JS.VNumber 7); ("name", JS.VString "Kablo");
              ("storeStocks",
               JS.VArray [JS.VObject [("store_id", JS.VNumber 1);
                                      ("stock", JS.VNumber 4)]])]%string.
Definition sampleFound : JS.value :=
  JS.VObject [("variations"%string, JS.VArray [sampleVariation; JS.VObject []])].
Definition sampleEmpty : JS.value := JS.VObject [].
Definition answered (body : JS.value) : Api.Response :=
  Api.mkResponse true 200 (Some body).

(** Consecutive clock readings lie at least [gap] apart. *)
Fixpoint spacedBy (gap : Z) (times : list Z) : Prop :=
  match times with
  | t1 :: rest =>
      match rest with
      | t2 :: _ => t1 + gap <= t2 /\ spacedBy gap rest
      | [] => True
      end
  | [] => True
  end.

End Spec.

(* ===================================================================== *)
(** ** services/api: the other endpoints *)
(* ===================================================================== *)

Module Reply.
(** [ApiResponse<T>] for the endpoints that carry no [variations]. *)
Record t (T : Type) : Type := mk {
  success : bool;
  data : option T;
  error : option string
}.
Arguments mk {T} _ _ _.
Arguments success {T} _.
Arguments data {T} _.
Arguments error {T} _.
End Reply.

Module Catalog.
Import JS Api.
Local Open Scope js_scope.
Local Open Scope string_scope.

Definition TIMEOUT_MESSAGE_MODELS : string := "İstek zaman aşımına uğradı".
Definition SEARCH_FAILED_MESSAGE : string := "Ürün araması başarısız".
Definition BRANDS_FAILED_MESSAGE : string := "Marka listesi alınamadı".
Definition CATEGORIES_FAILED_MESSAGE : string := "Kategori listesi alınamadı".
Definition MODELS_FAILED_MESSAGE : string := "Model listesi alınamadı".
Definition SERVICE_NOT_JSON_MESSAGE : string := "Service response JSON değil".
Definition SERVICE_NO_VARIATIONS_MESSAGE : string := "Service response variations bulunamadı".
Definition SERVICE_FAILED_MESSAGE : string := "Product ID gönderilemedi".
Definition FEEDBACK_FAILED_MESSAGE : string := "Feedback gönderilemedi".
Definition NO_SESSION_MESSAGE : string := "Oturum bulunamadı".

(** The steps every endpoint with a timeout shares: the raced [fetch], the
    status check and [JSON.parse], whose failure throws [notJson]. *)
Definition fetchJson (notJson : string) (f : Fetch) : M value :=
  response <- fetchWithAbort f ;;
  _ <- (if negb (ok response)
        then throw (ErrorObject "Error" (httpErrorMessage (status response)))
        else ret tt) ;;
  match json response with
  | Some v => ret v
  | None => throw (ErrorObject "Error" notJson)
  end.

(** The [catch] block of an endpoint, with its timeout text and the text it
    uses for a thrown value that is no [Error]. *)
Definition catchWith {T : Type} (timeoutText fallback : string) (e : thrown)
  : M (Reply.t T) :=
  match e with
  | ErrorObject name message =>
      if String.eqb name "AbortError"
      then ret (Reply.mk false None (Some timeoutText))
      else ret (Reply.mk false None (Some message))
  | OtherThrown => ret (Reply.mk false None (Some fallback))
  end.

(** [v && Array.isArray(v)], then the array. *)
Definition arrayOf (v : value) : option (list value) :=
  match v with
  | VArray items => if truthy v then Some items else None
  | _ => None
  end.

Section Formatting.
Variable numberToString : Q -> string.

(** The fields every formatter copies in the same way, once the store
    stocks, the features and the compatible models are chosen. *)
Definition productFields (product : value) (storeStocks : list StoreStock.t)
           (features : list value) (compatible_models : value) : M Product.t :=
  id <- get product "id" ;;
  category_id <- get product "category_id" ;;
  name <- get product "name" ;;
  barcode <- get product "barcode" ;;
  coverUrlThumb <- get product "coverUrlThumb" ;;
  cover <- (if truthy coverUrlThumb
            then path <- toString numberToString coverUrlThumb ;;
                 ret ("https://nettechservis.com" ++ path)
            else ret EmptyString) ;;
  totalStock <- get product "totalStock" ;;
  weight <- get product "weight" ;;
  sales_total <- get product "sales_total" ;;
  price1 <- get product "price1" ;;
  price1_cur <- get product "price1_cur" ;;
  price2 <- get product "price2" ;;
  price2_cur <- get product "price2_cur" ;;
  price5 <- get product "price5" ;;
  price5_cur <- get product "price5_cur" ;;
  price6 <- get product "price6" ;;
  price6_cur <- get product "price6_cur" ;;
  price8 <- get product "price8" ;;
  price8_cur <- get product "price8_cur" ;;
  ret (Product.mk id category_id name barcode
         cover
         (or totalStock (VNumber 0))
         storeStocks
         (or weight (VString "0"))
         features
         compatible_models
         (or sales_total (VNumber 0))
         price1 price1_cur price2 price2_cur price5 price5_cur
         price6 price6_cur price8 price8_cur).

(** The callback of [dataArray.forEach] in [searchProducts]. *)
Definition formatSearchProduct (product : value) : M Product.t :=
  storeStocks0 <- get product "storeStocks" ;;
  storeStocks <-
    (if truthy storeStocks0 && isArray storeStocks0
     then mapM (formatStoreStock numberToString) (objectValues storeStocks0)
     else shelf <- get product "shelf" ;;
          if truthy shelf && isArray shelf
          then mapM (formatStoreStock numberToString) (objectValues shelf)
          else ret []) ;;
  features0 <- get product "features" ;;
  let features :=
    if truthy features0 && isArray features0 then objectValues features0 else [] in
  compatible_models <- get product "compatible_models" ;;
  compatible_model_values <- get product "compatible_model_values" ;;
  productFields product storeStocks features
    (or (or compatible_models compatible_model_values) (VArray [])).

(** The [try] block of [searchProducts] from the response on. *)
Definition searchTryBlock (f : Fetch) : M (Reply.t (list Product.t)) :=
  apiResponse <- fetchJson NOT_JSON_MESSAGE f ;;
  data <- get apiResponse "data" ;;
  dataArray <- (if truthy data then ret data else get apiResponse "variations") ;;
  products <- (if truthy dataArray && isArray dataArray
               then mapM formatSearchProduct (objectValues dataArray)
               else ret []) ;;
  ret (Reply.mk true (Some products) None).

(** [searchProducts], as far as its answer goes. *)
Definition searchProducts (token : M (option string)) (f : Fetch)
  : M (Reply.t (list Product.t)) :=
  _ <- token ;;
  try_catch (searchTryBlock f) (catchWith TIMEOUT_MESSAGE SEARCH_FAILED_MESSAGE).

(** [formatProduct] of [sendProductIdToService]. *)
Definition formatServiceProduct (product : value) : M Product.t :=
  storeStocks0 <- get product "storeStocks" ;;
  storeStocks <-
    (if truthy storeStocks0 && isArray storeStocks0
     then mapM (formatStoreStock numberToString) (objectValues storeStocks0)
     else ret []) ;;
  features0 <- get product "features" ;;
  let features :=
    if truthy features0 then
      if isArray features0 then objectValues features0
      else if typeofObject features0 then objectValues features0
      else []
    else [] in
  compatible_models <- get product "compatible_models" ;;
  productFields product storeStocks features (or compatible_models (VArray [])).

(** The [try] block of [sendProductIdToService]. *)
Definition serviceTryBlock (f : Fetch) : M ApiResponse :=
  apiResponse <- fetchJson SERVICE_NOT_JSON_MESSAGE f ;;
  variations <- get apiResponse "variations" ;;
  if truthy variations && isArray variations
     && (0 <? List.length (objectValues variations))%nat
  then
    formattedProducts <- mapM formatServiceProduct (objectValues variations) ;;
    ret (mkApiResponse true (hd_error formattedProducts)
           (Some formattedProducts) None)
  else throw (ErrorObject "Error" SERVICE_NO_VARIATIONS_MESSAGE).

(** The [catch] block of [sendProductIdToService]. *)
Definition serviceCatchBlock (e : thrown) : M ApiResponse :=
  match e with
  | ErrorObject name message =>
      if String.eqb name "AbortError"
      then ret (mkApiResponse false None None (Some TIMEOUT_MESSAGE))
      else ret (mkApiResponse false None None (Some message))
  | OtherThrown =>
      ret (mkApiResponse false None None (Some SERVICE_FAILED_MESSAGE))
  end.

(** [sendProductIdToService]. *)
Definition sendProductIdToService (token : M (option string)) (f : Fetch)
  : M ApiResponse :=
  _ <- token ;;
  try_catch (serviceTryBlock f) serviceCatchBlock.

End Formatting.

(** The request body of [searchProducts].  An argument left out or passed
    as [undefined] is [None]. *)
Record SearchArgs : Type := mkSearchArgs {
  query : string;
  page : option Q;
  categoryId : option Q;
  stockOption : option string;
  brandId : option Q;
  modelId : option Q;
  byStoreStock : option bool;
  storeStockLimit : option Q
}.

(** [if (id) { filters[key] = id }]. *)
Definition optionalId (key : string) (id : option Q) : list (string * value) :=
  match id with
  | Some n => if truthy (VNumber n) then [(key, VNumber n)] else []
  | None => []
  end.

Definition searchRequestBody (a : SearchArgs) : value :=
  VObject
    ([("page", VNumber (match page a with Some p => p | None => 1%Q end));
      ("search", VString (query a));
      ("orderingBy", VString "id");
      ("orderDirection", VString "desc");
      ("itemsPerPage", VNumber 50);
      ("filters",
       VObject ([("stockStatus", VArray [VString "active:1"]);
                 ("search_compatibles", VBool true);
                 ("by_store_stock",
                  VBool (match byStoreStock a with Some b => b | None => false end));
                 ("store_stock_limit",
                  VNumber (match storeStockLimit a with
                           | Some n => n
                           | None => 1%Q
                           end))]
                ++ optionalId "category_id" (categoryId a)
                ++ optionalId "brand_id" (brandId a)
                ++ optionalId "model" (modelId a)))]
     ++ match stockOption a with
        | Some s => [("stock_option", VString s)]
        | None => []
        end).

(** The list chosen by [getBrands] ([key] = "brands") and by [getCategories]
    ([key] = "categories"): [data], then [key], then the body itself, then
    [result]. *)
Definition selectList (key : string) (apiResponse : value) : M (list value) :=
  data <- get apiResponse "data" ;;
  match arrayOf data with
  | Some items => ret items
  | None =>
      named <- get apiResponse key ;;
      match arrayOf named with
      | Some items => ret items
      | None =>
          match apiResponse with
          | VArray items => ret items
          | _ =>
              result <- get apiResponse "result" ;;
              match arrayOf result with
              | Some items => ret items
              | None => ret []
              end
          end
      end
  end.

(** The list chosen by [getDeviceModels]: [data], then the body itself, then
    [models]. *)
Definition selectModels (apiResponse : value) : M (list value) :=
  data <- get apiResponse "data" ;;
  match arrayOf data with
  | Some items => ret items
  | None =>
      match apiResponse with
      | VArray items => ret items
      | _ =>
          models <- get apiResponse "models" ;;
          match arrayOf models with
          | Some items => ret items
          | None => ret []
          end
      end
  end.

(** [Object.keys(apiResponse)] in the debug log of [getBrands] and
    [getCategories]: a TypeError on null, with the engine's text. *)
Definition objectKeysCheck (keysMessage : string) (apiResponse : value) : M unit :=
  if nullish apiResponse then throw (ErrorObject "TypeError" keysMessage)
  else ret tt.

(** [getBrands] and [getCategories]. *)
Definition getList (key fallback keysMessage : string)
           (token : M (option string)) (f : Fetch) : M (Reply.t (list value)) :=
  _ <- token ;;
  try_catch
    (apiResponse <- fetchJson NOT_JSON_MESSAGE f ;;
     _ <- objectKeysCheck keysMessage apiResponse ;;
     items <- selectList key apiResponse ;;
     ret (Reply.mk true (Some items) None))
    (catchWith TIMEOUT_MESSAGE fallback).

Definition getBrands := getList "brands" BRANDS_FAILED_MESSAGE.
Definition getCategories := getList "categories" CATEGORIES_FAILED_MESSAGE.

(** [getDeviceModels]. *)
Definition getDeviceModels (token : M (option string)) (f : Fetch)
  : M (Reply.t (list value)) :=
  _ <- token ;;
  try_catch
    (apiResponse <- fetchJson NOT_JSON_MESSAGE f ;;
     items <- selectModels apiResponse ;;
     ret (Reply.mk true (Some items) None))
    (catchWith TIMEOUT_MESSAGE_MODELS MODELS_FAILED_MESSAGE).

(** [sendFeedback]: the token is read inside the [try]; there is no abort
    timer and the body of the answer is not read.  [fetched] is what [fetch]
    settles with if it is called. *)
Definition sendFeedback (token : M (option string)) (fetched : M Response)
  : M (Reply.t unit) :=
  try_catch
    (tok <- token ;;
     if truthy (match tok with Some s => VString s | None => VNull end)
     then
       response <- fetched ;;
       if negb (ok response)
       then throw (ErrorObject "Error" FEEDBACK_FAILED_MESSAGE)
       else ret (Reply.mk true None None)
     else ret (Reply.mk false None (Some NO_SESSION_MESSAGE)))
    (fun e => match e with
              | ErrorObject _ message => ret (Reply.mk false None (Some message))
              | OtherThrown => ret (Reply.mk false None (Some FEEDBACK_FAILED_MESSAGE))
              end).

(** Whether [sendFeedback] calls [fetch] at all. *)
Definition feedbackFetches (token : M (option string)) : bool :=
  match token with
  | inr (Some s) => negb (String.eqb s EmptyString)
  | _ => false
  end.

(** A formatted record with its features replaced. *)
Definition withFeatures (features : list value) (p : Product.t) : Product.t :=
  Product.mk (Product.id p) (Product.category_id p) (Product.name p)
    (Product.barcode p) (Product.coverUrlThumb p) (Product.totalStock p)
    (Product.storeStocks p) (Product.weight p) features
    (Product.compatible_models p) (Product.sales_total p)
    (Product.price1 p) (Product.price1_cur p) (Product.price2 p)
    (Product.price2_cur p) (Product.price5 p) (Product.price5_cur p)
    (Product.price6 p) (Product.price6_cur p) (Product.price8 p)
    (Product.price8_cur p).

(** The features [searchProducts] keeps: those given as an array. *)
Definition searchFeatures (product : value) : list value :=
  match prop product "features" with
  | VArray items => items
  | _ => []
  end.


End Catalog.

(* ===================================================================== *)
(** ** Inputs for the examples *)
(* ===================================================================== *)

Module Samples.

(** A body whose truthy [data] is no array, beside a [variations] array. *)
Definition hiddenVariations : JS.value :=
  JS.VObject [("data", JS.VString "none");
              ("variations", JS.VArray [Spec.sampleVariation])]%string.

(** A body with a [data] array of two entries. *)
Definition dataList : JS.value :=
  JS.VObject [("data"%string, JS.VArray [Spec.sampleVariation; JS.VObject []])].

(** The older payload shape: a success flag and one product. *)
Definition oldFormat : JS.value :=
  JS.VObject [("success", JS.VBool true); ("variations", JS.VArray []);
              ("product", Spec.sampleVariation)]%string.

(** A body whose [data] array holds a null entry. *)
Definition nullEntry : JS.value :=
  JS.VObject [("data"%string, JS.VArray [JS.VNull])].

(** A fetch that settles after 120 ms with an OK answer carrying [body]. *)
Definition quick (body : JS.value) : Api.Fetch :=
  Api.mkFetch 120 (inr (Spec.answered body)).

End Samples.

(* ===================================================================== *)
(** ** Windows, formats and boxes for the examples *)
(* ===================================================================== *)

Module FrameSamples.
Import PrimFloat.
Local Open Scope float_scope.

(** A 400x800 window, whose scan frame is [60, 340] x [260, 540], and a
    360x800 window, whose scan frame starts at 54.000000000000014. *)
Definition window400 : Scanner.Window float := Scanner.mkWindow 400 800.
Definition window360 : Scanner.Window float := Scanner.mkWindow 360 800.

(** A 1920x1080 camera format. *)
Definition format1080 : VariantB.Format float := VariantB.mkFormat 1920 1080.

(** Boxes with centre (200, 400), (960, 540) and (54, 400). *)
Definition boxOnWindow : Scanner.Frame float := Scanner.mkFrame 150 350 100 100.
Definition boxOnSensor : Scanner.Frame float := Scanner.mkFrame 910 490 100 100.
Definition boxOnBorder : Scanner.Frame float := Scanner.mkFrame 4 350 100 100.

Definition code (f : Scanner.Frame float) : Scanner.Code float :=
  Scanner.mkCode (Some "8690000000017"%string) (Some f).

(** A 100x100 box centred on the window. *)
Definition centredOn (w : Scanner.Window float) : Scanner.Frame float :=
  Scanner.mkFrame (Scanner.SCREEN_WIDTH w / 2 - 50) (Scanner.SCREEN_HEIGHT w / 2 - 50)
                  100 100.

(** [p] holds of the [n] numbers first, first + 1, first + 2, ... *)
Fixpoint forNumbers (n : nat) (first : float) (p : float -> bool) : bool :=
  match n with
  | O => true
  | S n' => p first && forNumbers n' (first + 1) p
  end.

(** Every window of whole width from 1 to [widths] and whole height from 1
    to [heights] passes [p]. *)
Definition forWindows (widths heights : nat) (p : Scanner.Window float -> bool) : bool :=
  forNumbers widths 1 (fun W =>
    forNumbers heights 1 (fun H => p (Scanner.mkWindow W H))).

End FrameSamples.

(* ===================================================================== *)
(** ** JavaScript strings where their length matters *)
(* ===================================================================== *)

Module JSString.

(** A string as its UTF-16 code units, which is what [length] counts. *)
Definition t : Type := list N.

(** WhiteSpace and LineTerminator code points, as [trim] strips them. *)
Definition isWhiteSpace (u : N) : bool :=
  ((9 <=? u) && (u <=? 13) || (u =? 32) || (u =? 160) || (u =? 5760)
   || (8192 <=? u) && (u <=? 8202) || (u =? 8232) || (u =? 8233)
   || (u =? 8239) || (u =? 8287) || (u =? 12288) || (u =? 65279))%N.

Fixpoint trimStart (s : t) : t :=
  match s with
  | u :: rest => if isWhiteSpace u then trimStart rest else s
  | [] => []
  end.

Definition trimEnd (s : t) : t := rev (trimStart (rev s)).

Definition trim (s : t) : t := trimEnd (trimStart s).

Fixpoint eqb (a b : t) : bool :=
  match a, b with
  | [], [] => true
  | u :: a', v :: b' => (u =? v)%N && eqb a' b'
  | _, _ => false
  end.

End JSString.

(* ===================================================================== *)
(** ** Variant of src/screens/ProductListScreen.tsx with the stock tabs *)
(* ===================================================================== *)

Module ProductList.

(** What a callback of the list screen does to its collaborators. *)
Inductive effect : Type :=
| Request (query : JSString.t) (page : Z) (stockOption : string)  (* searchProducts *)
| HideTabBar
| ShowTabBar.

(** The page size the screen assumes ([filteredProducts.length === 50]). *)
Definition PAGE_SIZE : nat := 50.
Definition SEARCH_DEBOUNCE : Z := 500.

(** The state cells of the component.  The pending debounce timer is
    recorded with the clock reading at which it falls due and the query and
    stock option its callback has captured. *)
Record state : Type := mkState {
  products : list Product.t;
  isLoading : bool;
  searchQuery : JSString.t;
  isSearching : bool;
  stockOption : string;
  currentPage : Z;
  hasMore : bool;
  isLoadingMore : bool;
  searchTimer : option (Z * JSString.t * string);
  lastScrollY : Q
}.

Definition setProducts (v : list Product.t) (st : state) : state :=
  mkState v (isLoading st) (searchQuery st) (isSearching st) (stockOption st)
          (currentPage st) (hasMore st) (isLoadingMore st) (searchTimer st)
          (lastScrollY st).
Definition setIsLoading (v : bool) (st : state) : state :=
  mkState (products st) v (searchQuery st) (isSearching st) (stockOption st)
          (currentPage st) (hasMore st) (isLoadingMore st) (searchTimer st)
          (lastScrollY st).
Definition setSearchQuery (v : JSString.t) (st : state) : state :=
  mkState (products st) (isLoading st) v (isSearching st) (stockOption st)
          (currentPage st) (hasMore st) (isLoadingMore st) (searchTimer st)
          (lastScrollY st).
Definition setIsSearching (v : bool) (st : state) : state :=
  mkState (products st) (isLoading st) (searchQuery st) v (stockOption st)
          (currentPage st) (hasMore st) (isLoadingMore st) (searchTimer st)
          (lastScrollY st).
Definition setStockOption (v : string) (st : state) : state :=
  mkState (products st) (isLoading st) (searchQuery st) (isSearching st) v
          (currentPage st) (hasMore st) (isLoadingMore st) (searchTimer st)
          (lastScrollY st).
Definition setCurrentPage (v : Z) (st : state) : state :=
  mkState (products st) (isLoading st) (searchQuery st) (isSearching st)
          (stockOption st) v (hasMore st) (isLoadingMore st) (searchTimer st)
          (lastScrollY st).
Definition setHasMore (v : bool) (st : state) : state :=
  mkState (products st) (isLoading st) (searchQuery st) (isSearching st)
          (stockOption st) (currentPage st) v (isLoadingMore st) (searchTimer st)
          (lastScrollY st).
Definition setIsLoadingMore (v : bool) (st : state) : state :=
  mkState (products st) (isLoading st) (searchQuery st) (isSearching st)
          (stockOption st) (currentPage st) (hasMore st) v (searchTimer st)
          (lastScrollY st).
Definition setSearchTimer (v : option (Z * JSString.t * string)) (st : state) : state :=
  mkState (products st) (isLoading st) (searchQuery st) (isSearching st)
          (stockOption st) (currentPage st) (hasMore st) (isLoadingMore st) v
          (lastScrollY st).
Definition setLastScrollY (v : Q) (st : state) : state :=
  mkState (products st) (isLoading st) (searchQuery st) (isSearching st)
          (stockOption st) (currentPage st) (hasMore st) (isLoadingMore st)
          (searchTimer st) v.

(** The state of the first render; [initialSearchQuery || '']. *)
Definition initial (initialSearchQuery : option JSString.t) : state :=
  mkState [] true
          (match initialSearchQuery with
           | Some (u :: q) => u :: q
           | _ => []
           end)
          false EmptyString 1 true false None 0.

(** [getTitle]. *)
Definition getTitle (categoryName brandName : option string) : string :=
  let truthy (s : option string) :=
    match s with Some n => negb (String.eqb n EmptyString) | None => false end in
  let text (s : option string) :=
    match s with Some n => n | None => EmptyString end in
  if truthy categoryName && truthy brandName
  then (text categoryName ++ " - " ++ text brandName)%string
  else if truthy categoryName then text categoryName
  else if truthy brandName then text brandName
  else "Ürün Listesi"%string.

(** [loadProducts] up to its [await]. *)
Definition loadProductsStart (query : JSString.t) (page : Z) (option : string)
           (st : state) : state * list effect :=
  ((if page =? 1 then setIsLoading true st else st), [Request query page option]).

(** [loadProducts] from the answer on: the [try] body or the [catch] body,
    then the [finally]. *)
Definition loadProductsSettled (page : Z)
           (outcome : JS.M (Reply.t (list Product.t))) (st : state) : state :=
  let failed (s : state) :=
    setHasMore false (if page =? 1 then setProducts [] s else s) in
  let st1 :=
    match outcome with
    | inr response =>
        match Reply.success response, Reply.data response with
        | true, Some filteredProducts =>
            setHasMore (List.length filteredProducts =? PAGE_SIZE)%nat
              (if page =? 1 then setProducts filteredProducts st
               else setProducts (products st ++ filteredProducts) st)
        | _, _ => failed st
        end
    | inl _ => failed st
    end in
  if page =? 1 then setIsLoading false st1 else st1.

(** [loadMoreProducts], the [onEndReached] callback. *)
Definition loadMoreProducts (st : state) : state * list effect :=
  if negb (isLoadingMore st) && hasMore st && negb (isLoading st)
  then
    let nextPage := currentPage st + 1 in
    loadProductsStart (searchQuery st) nextPage (stockOption st)
      (setCurrentPage nextPage (setIsLoadingMore true st))
  else (st, []).

(** The settlement of the request [loadMoreProducts] made, with the
    [finally] it chains. *)
Definition loadMoreSettled (page : Z) (outcome : JS.M (Reply.t (list Product.t)))
           (st : state) : state :=
  setIsLoadingMore false (loadProductsSettled page outcome st).

(** The callback of the debounce timer, with the query and the stock option
    it captured. *)
Definition searchTimerFired (st : state) : state * list effect :=
  match searchTimer st with
  | Some (_, query, option) =>
      let st1 := setHasMore true (setCurrentPage 1 (setSearchTimer None st)) in
      let '(st2, effs) := loadProductsStart query 1 option st1 in
      (setIsSearching false st2, effs)
  | None => (st, [])
  end.

(** The search effect, run at [now] after [searchQuery] or [stockOption]
    changed: the cleanup of its previous run, then its body. *)
Definition searchEffect (now : Z) (st : state) : state * list effect :=
  let st0 := setSearchTimer None st in
  if (List.length (JSString.trim (searchQuery st0)) <? 2)%nat
  then loadProductsStart [] 1 (stockOption st0)
         (setHasMore true (setCurrentPage 1 st0))
  else
    (setSearchTimer (Some (now + SEARCH_DEBOUNCE, searchQuery st0, stockOption st0))
       (setIsSearching true st0),
     []).

(** [onChangeText] of the search box at [now]: [setSearchQuery], and the
    effect if the text differs from the one held. *)
Definition onChangeText (now : Z) (text : JSString.t) (st : state)
  : state * list effect :=
  if JSString.eqb text (searchQuery st) then (st, [])
  else searchEffect now (setSearchQuery text st).

(** [handleStockOptionChange] at [now], followed by the search effect when
    the option differs from the one held. *)
Definition handleStockOptionChange (now : Z) (option : string) (st : state)
  : state * list effect :=
  let changed := negb (String.eqb option (stockOption st)) in
  let '(st1, effs1) :=
    loadProductsStart (searchQuery st) 1 option
      (setHasMore true (setCurrentPage 1 (setStockOption option st))) in
  if changed
  then let '(st2, effs2) := searchEffect now st1 in (st2, effs1 ++ effs2)
  else (st1, effs1).

(** The clock reaches [now]: a debounce timer due by then has run. *)
Definition expire (now : Z) (st : state) : state * list effect :=
  match searchTimer st with
  | Some (due, _, _) => if due <=? now then searchTimerFired st else (st, [])
  | None => (st, [])
  end.

(** A change of the search text delivered at [now]. *)
Definition typed (change : Z * JSString.t) (st : state) : state * list effect :=
  let '(st1, effs1) := expire (fst change) st in
  let '(st2, effs2) := onChangeText (fst change) (snd change) st1 in
  (st2, effs1 ++ effs2).

Fixpoint typedAll (changes : list (Z * JSString.t)) (st : state)
  : state * list effect :=
  match changes with
  | [] => (st, [])
  | c :: rest =>
      let '(st1, effs1) := typed c st in
      let '(st2, effs2) := typedAll rest st1 in
      (st2, effs1 ++ effs2)
  end.

(** [handleScroll] on an offset [y]. *)
Definition handleScroll (currentScrollY : Q) (st : state) : state * list effect :=
  let scrollDiff := (currentScrollY - lastScrollY st)%Q in
  let absDiff := if Qle_bool 0 scrollDiff then scrollDiff else (- scrollDiff)%Q in
  let effs :=
    if negb (Qle_bool absDiff 5)
    then if negb (Qle_bool scrollDiff 0) && negb (Qle_bool currentScrollY 50)
         then [HideTabBar]
         else if negb (Qle_bool 0 scrollDiff) then [ShowTabBar] else []
    else [] in
  (setLastScrollY currentScrollY st, effs).

Fixpoint scrollAll (offsets : list Q) (st : state) : state * list effect :=
  match offsets with
  | [] => (st, [])
  | y :: rest =>
      let '(st1, effs1) := handleScroll y st in
      let '(st2, effs2) := scrollAll rest st1 in
      (st2, effs1 ++ effs2)
  end.

(** One round of the infinite scroll: the end of the list is reached and
    the page requested settles with [outcome]. *)
Definition morePage (outcome : JS.M (Reply.t (list Product.t))) (st : state)
  : state * list effect :=
  let '(st1, effs) := loadMoreProducts st in
  match effs with
  | Request _ page _ :: _ => (loadMoreSettled page outcome st1, effs)
  | _ => (st1, effs)
  end.

Fixpoint morePages (outcomes : list (JS.M (Reply.t (list Product.t)))) (st : state)
  : state * list effect :=
  match outcomes with
  | [] => (st, [])
  | o :: rest =>
      let '(st1, effs1) := morePage o st in
      let '(st2, effs2) := morePages rest st1 in
      (st2, effs1 ++ effs2)
  end.

End ProductList.

Module ListSpec.
Import ProductList.

(** The first two effects of the first render, at [now]: the initial load,
    then the search effect. *)
Definition mount (now : Z) (initialSearchQuery : option JSString.t)
  : state * list effect :=
  let '(st1, effs1) :=
    loadProductsStart (match initialSearchQuery with Some q => q | None => [] end)
      1 EmptyString (initial initialSearchQuery) in
  let '(st2, effs2) := searchEffect now st1 in
  (st2, effs1 ++ effs2).

(** A burst of changes of the search text after a change to [prev] at
    [last]: each comes less than SEARCH_DEBOUNCE after the one before, differs
    from it, and keeps at least two characters once trimmed. *)
Fixpoint burst (last : Z) (prev : JSString.t) (changes : list (Z * JSString.t)) : Prop :=
  match changes with
  | [] => True
  | (t, q) :: rest =>
      t - last < SEARCH_DEBOUNCE /\
      JSString.eqb q prev = false /\
      (2 <= List.length (JSString.trim q))%nat /\
      burst t q rest
  end.

(** Every offset lies within 5 of the one before, [from] being the offset
    held at the start. *)
Fixpoint smallSteps (from : Q) (offsets : list Q) : Prop :=
  match offsets with
  | [] => True
  | y :: rest => (-5 <= y - from /\ y - from <= 5)%Q /\ smallSteps y rest
  end.

(** A successful answer carrying the page [d]. *)
Definition page (d : list Product.t) : JS.M (Reply.t (list Product.t)) :=
  inr (Reply.mk true (Some d) None).

(** The page an answer carries, if it is a success with data. *)
Definition pageOf (outcome : JS.M (Reply.t (list Product.t))) : option (list Product.t) :=
  match outcome with
  | inr response =>
      if Reply.success response then Reply.data response else None
  | inl _ => None
  end.

(** The requests for the [n] pages after [from]. *)
Fixpoint requests (query : JSString.t) (option : string) (from : Z) (n : nat)
  : list effect :=
  match n with
  | O => []
  | S m => Request query (from + 1) option :: requests query option (from + 1) m
  end.

End ListSpec.

Module ListSamples.

(** A formatted record with nothing in it. *)
Definition product : Product.t :=
  Product.mk JS.VUndefined JS.VUndefined JS.VUndefined JS.VUndefined EmptyString
    (JS.VNumber 0) [] (JS.VString "0") [] (JS.VArray []) (JS.VNumber 0)
    JS.VUndefined JS.VUndefined JS.VUndefined JS.VUndefined JS.VUndefined
    JS.VUndefined JS.VUndefined JS.VUndefined JS.VUndefined JS.VUndefined.

(** The list after its first page has arrived full. *)
Definition loaded : ProductList.state :=
  ProductList.mkState (repeat product 50) false [] false EmptyString 1 true false None 0.

(** The texts "ka", "kab" and "k" as code units. *)
Definition ka : JSString.t := [107; 97]%N.
Definition kab : JSString.t := [107; 97; 98]%N.
Definition k : JSString.t := [107]%N.

End ListSamples.

(* ===================================================================== *)
(** ** The filter sheet of the second product list screen: the stock limit *)
(* ===================================================================== *)

Module StockLimit.
Local Open Scope string_scope.

Definition isDigit (c : Ascii.ascii) : bool :=
  (48 <=? Ascii.nat_of_ascii c)%nat && (Ascii.nat_of_ascii c <=? 57)%nat.

(** [text.replace(/[^0-9]/g, '')].  On the UTF-8 bytes of the text this
    keeps the same characters as on its code units: no byte of a character
    beyond ASCII is a digit. *)
Fixpoint keepDigits (text : string) : string :=
  match text with
  | EmptyString => EmptyString
  | String c rest =>
      if isDigit c then String c (keepDigits rest) else keepDigits rest
  end.

(** [onChangeText] of the limit box: what is stored in
    [selectedStoreStockLimit]. *)
Definition onChangeLimitText (text : string) : string :=
  let numeric := keepDigits text in
  if String.eqb numeric EmptyString then "1" else numeric.

(** The digits a numeral starts with, read as a number; [None] when it
    starts with none. *)
Fixpoint leadingDigits (acc : option Z) (s : string) : option Z :=
  match s with
  | String c rest =>
      if isDigit c
      then leadingDigits
             (Some (10 * match acc with Some n => n | None => 0 end
                    + Z.of_nat (Ascii.nat_of_ascii c - 48)))
             rest
      else acc
  | EmptyString => acc
  end.

Definition isAsciiSpace (c : Ascii.ascii) : bool :=
  let n := Ascii.nat_of_ascii c in
  ((9 <=? n) && (n <=? 13) || (n =? 32))%nat.

Fixpoint skipSpaces (s : string) : string :=
  match s with
  | String c rest => if isAsciiSpace c then skipSpaces rest else s
  | EmptyString => EmptyString
  end.

(** What [parseInt] returns: NaN, or the double for the integer the numeral
    spells.  Up to 2^53 every integer is a double, and the result is the
    integer itself.  Beyond, the result is the double the engine makes of the
    numeral (the nearest one; an approximation of its choosing past twenty
    digits; Infinity past the range), which the model names by the integer
    spelt without giving its value. *)
Inductive number : Type :=
| NaN
| Int (n : Z)
| Rounded (spelt : Z).

Definition MAX_EXACT : Z := 2 ^ 53.

Definition toNumber (n : Z) : number :=
  if (Z.abs n <=? MAX_EXACT)%Z then Int n else Rounded n.

(** [parseInt(s, 10)]: leading white space, a sign, then digits.  The white
    space beyond ASCII, which the sanitised text cannot hold, is left out. *)
Definition parseInt10 (s : string) : number :=
  match skipSpaces s with
  | String c rest =>
      if Ascii.eqb c "-"%char
      then match leadingDigits None rest with Some n => toNumber (- n) | None => NaN end
      else if Ascii.eqb c "+"%char
      then match leadingDigits None rest with Some n => toNumber n | None => NaN end
      else match leadingDigits None (String c rest) with
           | Some n => toNumber n
           | None => NaN
           end
  | EmptyString => NaN
  end.

(** [parseInt(selectedStoreStockLimit, 10) || 1], the limit applied: NaN
    and zero are falsy. *)
Definition appliedLimit (selectedStoreStockLimit : string) : number :=
  match parseInt10 selectedStoreStockLimit with
  | NaN => Int 1
  | Int n => if (n =? 0)%Z then Int 1 else Int n
  | Rounded spelt => Rounded spelt
  end.

End StockLimit.

(* ===================================================================== *)
(** ** The dashboard screen: messages from the web view *)
(* ===================================================================== *)

Module Dashboard.
Import JS.
Local Open Scope js_scope.
Local Open Scope string_scope.

(** The call [handleWebViewMessage] makes to [setAuthToken], if any, for the
    message that [JSON.parse(event.nativeEvent.data)] yields ([None] when it
    throws). *)
Definition authCall (parsed : option value) : M (option (value * value)) :=
  data <- match parsed with
          | Some v => ret v
          | None => throw (ErrorObject "SyntaxError" "JSON Parse error")
          end ;;
  type <- get data "type" ;;
  match type with
  | VString t =>
      if String.eqb t "AUTH_TOKEN"
      then
        token <- get data "token" ;;
        if truthy token
        then user <- get data "user" ;;
             if truthy user then ret (Some (token, user)) else ret None
        else ret None
      else ret None
  | _ => ret None
  end.

(** [handleWebViewMessage]: [setAuthToken] settles with [stored] if it is
    called; whatever is thrown is swallowed. *)
Definition handleWebViewMessage (parsed : option value) (stored : M unit) : M unit :=
  try_catch
    (call <- authCall parsed ;;
     match call with
     | Some _ => stored
     | None => ret tt
     end)
    (fun _ => ret tt).

(** The call that reaches [setAuthToken]. *)
Definition setAuthTokenCalledWith (parsed : option value) : option (value * value) :=
  match authCall parsed with
  | inr call => call
  | inl _ => None
  end.

End Dashboard.

Module LimitSpec.

(** Every character of the text is a decimal digit. *)
Fixpoint allDigits (s : string) : bool :=
  match s with
  | EmptyString => true
  | String c rest => StockLimit.isDigit c && allDigits rest
  end.

End LimitSpec.

(* ===================================================================== *)
(** * Properties *)
(* ===================================================================== *)

(** ** The accumulator of variant A *)

Section AccumulatorFacts.
Import VariantA.

Lemma slice_last_length {A : Type} (n : nat) (l : list A) :
  List.length (slice_last n l) = Nat.min (List.length l) n.
Proof.
  unfold slice_last. rewrite length_skipn. lia.
Qed.

Lemma slice_last_short {A : Type} (n : nat) (l : list A) :
  (List.length l <= n)%nat -> slice_last n l = l.
Proof.
  intros Hle. unfold slice_last.
  replace (List.length l - n)%nat with 0%nat by lia. reflexivity.
Qed.

(** A read while a lookup is being processed changes nothing. *)
Lemma handleA_processing now v st :
  isProcessing st = true -> handleBarcodeScanned now v st = (st, []).
Proof.
  intros Hp. unfold handleBarcodeScanned. rewrite Hp. reflexivity.
Qed.

(** A read inside the cooldown changes nothing. *)
Lemma handleA_cooldown now v st :
  now - lastScanTime st < SCAN_COOLDOWN -> handleBarcodeScanned now v st = (st, []).
Proof.
  intros Hc. unfold handleBarcodeScanned.
  destruct (isProcessing st); [reflexivity|].
  destruct (Z.ltb_spec (now - lastScanTime st) SCAN_COOLDOWN); [reflexivity | lia].
Qed.

(** An accepted read: pushed, then confirmed or shown as progress. *)
Lemma handleA_accepted now v st :
  isProcessing st = false ->
  SCAN_COOLDOWN <= now - lastScanTime st ->
  handleBarcodeScanned now v st =
    if confirms (barcodeBuffer st) v
    then (mkState true false 0 now [] None, [Lookup v])
    else (mkState false true
            (inject_Z (Z.of_nat (List.length
                                   (slice_last CONFIRM_COUNT (barcodeBuffer st ++ [v]))))
             / inject_Z (Z.of_nat CONFIRM_COUNT))
            now (barcodeBuffer st ++ [v]) (Some (now + CONFIRM_TIMEOUT)),
          []).
Proof.
  intros Hp Hc. unfold handleBarcodeScanned, confirms. rewrite Hp.
  destruct (Z.ltb_spec (now - lastScanTime st) SCAN_COOLDOWN); [lia|].
  cbv zeta.
  destruct (forallb _ _ && _); reflexivity.
Qed.

(** A timer that is not yet due leaves the state alone. *)
Lemma expire_pending now st due :
  confirmTimeout st = Some due -> now < due -> expire now st = (st, []).
Proof.
  intros Ht Hlt. unfold expire. rewrite Ht.
  destruct (Z.leb_spec due now); [lia | reflexivity].
Qed.

(** Whatever the timer does, an empty buffer stays empty and the flag and
    the last read time are kept. *)
Lemma expire_keeps now st :
  snd (expire now st) = [] /\
  isProcessing (fst (expire now st)) = isProcessing st /\
  lastScanTime (fst (expire now st)) = lastScanTime st /\
  (barcodeBuffer st = [] -> barcodeBuffer (fst (expire now st)) = []).
Proof.
  unfold expire, confirmTimeoutFired.
  destruct (confirmTimeout st) as [due|]; [|auto].
  destruct (due <=? now); simpl; auto.
Qed.

End AccumulatorFacts.

(** Side conditions on concrete clock readings. *)
Ltac clock :=
  first [ reflexivity
        | discriminate
        | unfold VariantA.SCAN_COOLDOWN, VariantA.CONFIRM_TIMEOUT,
            VariantB.SCAN_DEBOUNCE;
          cbn [VariantA.lastScanTime VariantA.initial
               VariantB.lastScanTime VariantB.initial]; lia ].

(** One accepted read after another: the timer set by the previous read is
    not due yet, the cooldown has passed. *)
Ltac next_read due :=
  rewrite (expire_pending _ _ due)
    by (cbn; first [reflexivity
                   | unfold VariantA.SCAN_COOLDOWN, VariantA.CONFIRM_TIMEOUT in *; lia]);
  rewrite handleA_accepted
    by (cbn; first [reflexivity
                   | unfold VariantA.SCAN_COOLDOWN, VariantA.CONFIRM_TIMEOUT in *; lia]);
  unfold VariantA.confirms at 1;
  cbn [app VariantA.slice_last List.length Nat.sub skipn forallb
       VariantA.CONFIRM_COUNT Nat.leb VariantA.barcodeBuffer].

(** The first read into an empty buffer. *)
Lemma first_read (st : VariantA.state) (v : string) (t : Z) :
  VariantA.barcodeBuffer st = [] ->
  VariantA.isProcessing st = false ->
  VariantA.SCAN_COOLDOWN <= t - VariantA.lastScanTime st ->
  VariantA.deliver (t, v) st =
    (VariantA.mkState false true (1 / 3) t [v] (Some (t + VariantA.CONFIRM_TIMEOUT)), []).
Proof.
  intros Hbuf Hproc Hcool. unfold VariantA.deliver. cbn [fst snd].
  destruct (expire_keeps t st) as (He & Hp & Hl & Hb).
  destruct (VariantA.expire t st) as [st1 effs1]. cbn [fst snd] in *.
  subst effs1. specialize (Hb Hbuf).
  rewrite handleA_accepted by (rewrite ?Hp, ?Hl; assumption).
  rewrite Hb. unfold VariantA.confirms.
  cbn [app VariantA.slice_last List.length Nat.sub skipn forallb
       VariantA.CONFIRM_COUNT Nat.leb].
  rewrite andb_false_r. reflexivity.
Qed.

(** C1, the claim at a concrete input.  The mounted screen reads "A" at
    1000, which calls nothing, then loses focus and regains it: the buffer is
    empty and no lookup is in flight, but the time of the last accepted read is
    still 1000.  Three reads of "A" follow at 1300, 1900 and 2500, 600 ms
    apart.  The first falls inside the cooldown and is dropped, the other two
    are buffered, and no lookup is called. *)
Lemma C1_first_read_in_cooldown_counterexample :
  let before :=
    fst (Machine.run [Machine.EvScan 1000 "A"; Machine.EvBlur; Machine.EvFocus]
           (Machine.start VariantA.initial)) in
  Machine.screen before = VariantA.mkState false false 0 1000 [] None /\
  Machine.inFlight before = [] /\
  VariantA.deliverAll [(1300, "A"); (1900, "A"); (2500, "A")]%string
    (Machine.screen before) =
    (VariantA.mkState false true (2 # 3) 2500 ["A"; "A"]%string (Some 5000),
     [[]; []; []]).
Proof.
  cbv zeta. repeat split.
Qed.

(** C1, amended. Three reads of one value, each at least SCAN_COOLDOWN after the
    previous accepted read and less than CONFIRM_TIMEOUT after it, delivered
    to an accumulator with an empty buffer and no lookup being processed:
    the first two reads call nothing, the third calls the lookup with the
    value, once, and leaves the buffer empty, the timer cancelled and the
    processing flag set. *)
Theorem C1_three_identical_reads_confirm_once :
  forall (st : VariantA.state) (v : string) (t1 t2 t3 : Z),
    VariantA.barcodeBuffer st = [] ->
    VariantA.isProcessing st = false ->
    VariantA.SCAN_COOLDOWN <= t1 - VariantA.lastScanTime st ->
    VariantA.SCAN_COOLDOWN <= t2 - t1 < VariantA.CONFIRM_TIMEOUT ->
    VariantA.SCAN_COOLDOWN <= t3 - t2 < VariantA.CONFIRM_TIMEOUT ->
    VariantA.deliverAll [(t1, v); (t2, v); (t3, v)] st =
      (VariantA.mkState true false 0 t3 [] None, [[]; []; [Lookup v]]).
Proof.
  intros st v t1 t2 t3 Hbuf Hproc H1 H2 H3.
  cbn [VariantA.deliverAll]. rewrite first_read by assumption.
  unfold VariantA.deliver. cbn [fst snd].
  next_read (t1 + VariantA.CONFIRM_TIMEOUT). rewrite andb_false_r.
  next_read (t2 + VariantA.CONFIRM_TIMEOUT).
  rewrite String.eqb_refl. reflexivity.
Qed.

Lemma C1_three_identical_reads_confirm_once_witness :
  VariantA.deliverAll [(1000, "A"); (1600, "A"); (2200, "A")]%string VariantA.initial =
    (VariantA.mkState true false 0 2200 [] None, [[]; []; [Lookup "A"]]).
Proof.
  apply (C1_three_identical_reads_confirm_once VariantA.initial "A" 1000 1600 2200);
    clock.
Defined.

(** C2. The reads A, B, A, A, A with A different from B, 600 ms apart, into
    an empty buffer with no lookup being processed: reads one to four call
    nothing and the fifth calls the lookup with A. *)
Theorem C2_sliding_window_confirms_on_fifth_read :
  forall (st : VariantA.state) (A B : string) (t : Z),
    A <> B ->
    VariantA.barcodeBuffer st = [] ->
    VariantA.isProcessing st = false ->
    VariantA.SCAN_COOLDOWN <= t - VariantA.lastScanTime st ->
    VariantA.deliverAll
      [(t, A); (t + 600, B); (t + 1200, A); (t + 1800, A); (t + 2400, A)] st =
      (VariantA.mkState true false 0 (t + 2400) [] None,
       [[]; []; []; []; [Lookup A]]).
Proof.
  intros st A B t Hne Hbuf Hproc Hcool.
  assert (HAB : String.eqb A B = false) by (apply String.eqb_neq; exact Hne).
  assert (HBA : String.eqb B A = false) by (apply String.eqb_neq; congruence).
  cbn [VariantA.deliverAll]. rewrite first_read by assumption.
  unfold VariantA.deliver. cbn [fst snd].
  next_read (t + VariantA.CONFIRM_TIMEOUT). rewrite andb_false_r.
  next_read (t + 600 + VariantA.CONFIRM_TIMEOUT).
  rewrite HBA, String.eqb_refl. cbn [andb].
  next_read (t + 1200 + VariantA.CONFIRM_TIMEOUT).
  rewrite HBA, String.eqb_refl. cbn [andb].
  next_read (t + 1800 + VariantA.CONFIRM_TIMEOUT).
  rewrite String.eqb_refl. reflexivity.
Qed.

Lemma C2_sliding_window_confirms_on_fifth_read_witness :
  VariantA.deliverAll
    [(1000, "A"); (1600, "B"); (2200, "A"); (2800, "A"); (3400, "A")]%string
    VariantA.initial =
    (VariantA.mkState true false 0 3400 [] None, [[]; []; []; []; [Lookup "A"]]).
Proof.
  apply (C2_sliding_window_confirms_on_fifth_read VariantA.initial "A" "B" 1000);
    clock.
Defined.

(** C5, the claim at a concrete input: after the reads A then B the second
    read is unconfirmed, the window is [A; B], one entry matches B, and the
    ratio shown is 2/3, not 1/3. *)
Lemma C5_progress_counts_matching_entries_counterexample :
  let run := VariantA.deliverAll [(1000, "A"); (1600, "B")]%string VariantA.initial in
  snd run = [[]; []] /\
  VariantA.slice_last VariantA.CONFIRM_COUNT (VariantA.barcodeBuffer (fst run))
    = ["A"; "B"]%string /\
  (Spec.matchingProgress ["A"; "B"]%string "B" == 1 # 3)%Q /\
  (VariantA.confirmProgress (fst run) == 2 # 3)%Q /\
  ~ (VariantA.confirmProgress (fst run)
     == Spec.matchingProgress
          (VariantA.slice_last VariantA.CONFIRM_COUNT (VariantA.barcodeBuffer (fst run)))
          "B")%Q.
Proof.
  cbv zeta. repeat split; try reflexivity.
  vm_compute. discriminate.
Qed.

(** C5, amended. After every unconfirmed read (accepted, no lookup called)
    the ratio shown is the number of entries in the last-N window, that is
    min(buffer length, N), over N, whether or not the entries match the value
    read; the progress display is switched on. *)
Theorem C5_progress_is_window_length_over_N :
  forall (st : VariantA.state) (now : Z) (v : string),
    VariantA.isProcessing st = false ->
    VariantA.SCAN_COOLDOWN <= now - VariantA.lastScanTime st ->
    snd (VariantA.handleBarcodeScanned now v st) = [] ->
    let st' := fst (VariantA.handleBarcodeScanned now v st) in
    VariantA.barcodeBuffer st' = VariantA.barcodeBuffer st ++ [v] /\
    VariantA.isConfirming st' = true /\
    VariantA.confirmProgress st' =
      (inject_Z (Z.of_nat (Nat.min (List.length (VariantA.barcodeBuffer st'))
                                   VariantA.CONFIRM_COUNT))
       / inject_Z (Z.of_nat VariantA.CONFIRM_COUNT))%Q.
Proof.
  intros st now v Hproc Hcool Hsilent. cbv zeta.
  rewrite handleA_accepted in * by assumption.
  destruct (VariantA.confirms (VariantA.barcodeBuffer st) v).
  - discriminate Hsilent.
  - cbn [fst VariantA.barcodeBuffer VariantA.isConfirming VariantA.confirmProgress].
    rewrite slice_last_length. auto.
Qed.

Lemma C5_progress_is_window_length_over_N_witness :
  let st := VariantA.mkState false true (1 / 3) 1000 ["A"%string]
              (Some 3500) in
  let st' := fst (VariantA.handleBarcodeScanned 1600 "B" st) in
  VariantA.barcodeBuffer st' = ["A"; "B"]%string /\
  VariantA.isConfirming st' = true /\
  VariantA.confirmProgress st' = (inject_Z 2 / inject_Z 3)%Q.
Proof.
  apply (C5_progress_is_window_length_over_N
           (VariantA.mkState false true (1 / 3) 1000 ["A"%string] (Some 3500))
           1600 "B"); clock.
Defined.

(** ** Runs of reads without three identical values in a row *)

Lemma hasTriple_tail (a : string) (l : list string) :
  Spec.hasTriple (a :: l) = false -> Spec.hasTriple l = false.
Proof.
  destruct l as [|b [|c l]]; try reflexivity.
  cbn [Spec.hasTriple]. intros H. apply orb_false_elim in H. apply H.
Qed.

Lemma hasTriple_suffix (l1 l2 : list string) :
  Spec.hasTriple (l1 ++ l2) = false -> Spec.hasTriple l2 = false.
Proof.
  induction l1 as [|a l1 IH]; cbn [app]; intros H; [exact H|].
  apply IH. exact (hasTriple_tail _ _ H).
Qed.

Lemma hasTriple_found (l1 l2 : list string) (v : string) :
  Spec.hasTriple (l1 ++ v :: v :: v :: l2) = true.
Proof.
  induction l1 as [|a l1 IH].
  - cbn [app Spec.hasTriple]. rewrite String.eqb_refl. reflexivity.
  - cbn [app]. remember (l1 ++ v :: v :: v :: l2) as rest eqn:Er.
    destruct rest as [|b [|c rest]].
    + destruct l1; discriminate Er.
    + destruct l1 as [|? [|? ?]]; discriminate Er.
    + cbn [Spec.hasTriple] in *. rewrite IH. apply orb_true_r.
Qed.

(** The window of the code, read off the reversed buffer. *)
Lemma slice_last_rev {A : Type} (n : nat) (l : list A) :
  VariantA.slice_last n l = rev (firstn n (rev l)).
Proof.
  unfold VariantA.slice_last. rewrite firstn_rev, rev_involutive. reflexivity.
Qed.

(** The test fires only on a buffer that ends with two copies of the value
    read. *)
Lemma confirms_ends_with_pair (buffer : list string) (v : string) :
  VariantA.confirms buffer v = true -> exists pre, buffer = pre ++ [v; v].
Proof.
  unfold VariantA.confirms. rewrite slice_last_rev, rev_app_distr.
  cbn [rev app VariantA.CONFIRM_COUNT firstn].
  intros H. apply andb_prop in H. destruct H as [Hall Hlen].
  destruct (rev buffer) as [|a [|b r]] eqn:Er.
  - discriminate Hlen.
  - discriminate Hlen.
  - cbn [firstn rev app forallb] in Hall.
    apply andb_prop in Hall. destruct Hall as [Hb Hall].
    apply andb_prop in Hall. destruct Hall as [Ha _].
    apply String.eqb_eq in Ha, Hb. subst a b.
    exists (rev r).
    rewrite <- (rev_involutive buffer), Er. cbn [rev].
    rewrite <- app_assoc. reflexivity.
Qed.

Lemma no_triple_no_confirm (buffer rest : list string) (v : string) :
  Spec.hasTriple (buffer ++ v :: rest) = false -> VariantA.confirms buffer v = false.
Proof.
  intros H. destruct (VariantA.confirms buffer v) eqn:E; [|reflexivity].
  apply confirms_ends_with_pair in E. destruct E as [pre ->].
  rewrite <- app_assoc in H. cbn [app] in H.
  rewrite hasTriple_found in H. discriminate H.
Qed.

Lemma clear_idle (st : VariantA.state) :
  VariantA.idle (VariantA.clearBarcodeBuffer st).
Proof. repeat split. Qed.

Lemma expire_tracks now st :
  Spec.timerTracksLastRead st -> Spec.timerTracksLastRead (fst (VariantA.expire now st)).
Proof.
  unfold Spec.timerTracksLastRead, VariantA.expire, VariantA.confirmTimeoutFired.
  destruct (VariantA.confirmTimeout st) as [due|] eqn:Et.
  - destruct (due <=? now); cbn [fst].
    + intros _. apply clear_idle.
    + rewrite Et. auto.
  - cbn [fst]. rewrite Et. auto.
Qed.

Lemma expire_buffer now st :
  VariantA.barcodeBuffer (fst (VariantA.expire now st)) = VariantA.barcodeBuffer st \/
  VariantA.barcodeBuffer (fst (VariantA.expire now st)) = [].
Proof.
  unfold VariantA.expire, VariantA.confirmTimeoutFired.
  destruct (VariantA.confirmTimeout st) as [due|]; [|auto].
  destruct (due <=? now); cbn; auto.
Qed.

(** The run as a whole calls nothing and keeps the timer on the last
    accepted read. *)
Lemma quiet_run (reads : list (Z * string)) :
  forall st : VariantA.state,
    VariantA.isProcessing st = false ->
    Spec.timerTracksLastRead st ->
    Spec.hasTriple (VariantA.barcodeBuffer st
                    ++ map snd (Spec.passCooldown (VariantA.lastScanTime st) reads))
      = false ->
    List.concat (snd (VariantA.deliverAll reads st)) = [] /\
    VariantA.isProcessing (fst (VariantA.deliverAll reads st)) = false /\
    Spec.timerTracksLastRead (fst (VariantA.deliverAll reads st)).
Proof.
  induction reads as [|[t v] reads IH]; intros st Hproc Htrack Hno.
  - cbn. auto.
  - cbn [VariantA.deliverAll]. unfold VariantA.deliver. cbn [fst snd].
    destruct (expire_keeps t st) as (He & Hp & Hl & _).
    pose proof (expire_tracks t st Htrack) as Htrack1.
    pose proof (expire_buffer t st) as Hbuf1.
    destruct (VariantA.expire t st) as [st1 effs1]. cbn [fst snd] in *.
    subst effs1. rewrite Hproc in Hp.
    assert (Hno1 : Spec.hasTriple
                     (VariantA.barcodeBuffer st1
                      ++ map snd (Spec.passCooldown (VariantA.lastScanTime st1)
                                    ((t, v) :: reads))) = false).
    { rewrite Hl. destruct Hbuf1 as [-> | ->]; [exact Hno|].
      exact (hasTriple_suffix _ _ Hno). }
    clear Hno Hbuf1 Htrack. cbn [Spec.passCooldown] in Hno1.
    destruct (Z.ltb_spec (t - VariantA.lastScanTime st1) VariantA.SCAN_COOLDOWN)
      as [Hcool | Hcool].
    + rewrite handleA_cooldown by assumption.
      specialize (IH st1 Hp Htrack1 Hno1).
      destruct (VariantA.deliverAll reads st1) as [st2 trace].
      cbn [fst snd concat app] in *. exact IH.
    + rewrite handleA_accepted by assumption.
      cbn [map snd] in Hno1.
      rewrite (no_triple_no_confirm _ _ _ Hno1).
      match goal with
      | |- context [VariantA.deliverAll reads ?s] => specialize (IH s)
      end.
      cbn [VariantA.isProcessing VariantA.barcodeBuffer VariantA.lastScanTime] in IH.
      rewrite <- app_assoc in IH.
      specialize (IH eq_refl eq_refl Hno1).
      destruct (VariantA.deliverAll reads _) as [st2 trace].
      cbn [fst snd concat app] in *. exact IH.
Qed.

(** C7. A run of reads, from the idle accumulator with no lookup being
    processed, in which the reads that pass the cooldown never show one value
    three times in a row: no read calls the lookup or anything else, and once
    the clock is CONFIRM_TIMEOUT past the last accepted read the pending timer
    has emptied the buffer and switched the progress display off, with no
    effect on any collaborator. *)
Theorem C7_changing_values_never_confirm_and_time_out :
  forall (st : VariantA.state) (reads : list (Z * string)),
    VariantA.idle st ->
    VariantA.isProcessing st = false ->
    Spec.hasTriple (map snd (Spec.passCooldown (VariantA.lastScanTime st) reads))
      = false ->
    let st' := fst (VariantA.deliverAll reads st) in
    List.concat (snd (VariantA.deliverAll reads st)) = [] /\
    VariantA.isProcessing st' = false /\
    forall now : Z,
      VariantA.lastScanTime st' + VariantA.CONFIRM_TIMEOUT <= now ->
      VariantA.idle (fst (VariantA.expire now st')) /\
      snd (VariantA.expire now st') = [].
Proof.
  intros st reads Hidle Hproc Hno. cbv zeta.
  destruct (quiet_run reads st Hproc) as (Hq & Hp & Ht).
  - unfold Spec.timerTracksLastRead.
    destruct Hidle as (Hb & Hc & Hg & Ht). rewrite Ht. repeat split; assumption.
  - destruct Hidle as (Hb & _). rewrite Hb. exact Hno.
  - split; [exact Hq|]. split; [exact Hp|].
    intros now Hnow. revert Ht.
    unfold Spec.timerTracksLastRead, VariantA.expire, VariantA.confirmTimeoutFired.
    destruct (VariantA.confirmTimeout (fst (VariantA.deliverAll reads st)))
      as [due|] eqn:Et.
    + intros ->. destruct (Z.leb_spec
                             (VariantA.lastScanTime (fst (VariantA.deliverAll reads st))
                              + VariantA.CONFIRM_TIMEOUT) now); [|lia].
      cbn [fst snd]. split; [apply clear_idle | reflexivity].
    + intros Hidle'. cbn [fst snd]. split; [exact Hidle' | reflexivity].
Qed.

Lemma C7_changing_values_never_confirm_and_time_out_witness :
  let reads := [(1000, "A"); (1600, "A"); (2200, "B"); (2300, "B"); (2800, "A")]%string in
  let st' := fst (VariantA.deliverAll reads VariantA.initial) in
  List.concat (snd (VariantA.deliverAll reads VariantA.initial)) = [] /\
  VariantA.isProcessing st' = false /\
  forall now : Z,
    VariantA.lastScanTime st' + VariantA.CONFIRM_TIMEOUT <= now ->
    VariantA.idle (fst (VariantA.expire now st')) /\
    snd (VariantA.expire now st') = [].
Proof.
  apply (C7_changing_values_never_confirm_and_time_out VariantA.initial
           [(1000, "A"); (1600, "A"); (2200, "B"); (2300, "B"); (2800, "A")]%string).
  - repeat split.
  - reflexivity.
  - reflexivity.
Defined.

(** ** Focus and blur *)

(** C8. Blur, in any state of variant A, empties the buffer and cancels the
    pending timer, whose callback can then no longer run; focus, in any
    state, resets the processing flag and leaves the accumulator idle, also
    right after a blur; in variant B focus resets the processing flag and the
    last-scan timestamp. *)
Theorem C8_blur_clears_and_focus_restarts_idle :
  forall (a : VariantA.state) (b : VariantB.state),
    (VariantA.barcodeBuffer (VariantA.onBlur a) = [] /\
     VariantA.confirmTimeout (VariantA.onBlur a) = None /\
     VariantA.idle (VariantA.onBlur a) /\
     VariantA.confirmTimeoutFired (VariantA.onBlur a) = (VariantA.onBlur a, [])) /\
    (VariantA.isProcessing (VariantA.onFocus a) = false /\
     VariantA.idle (VariantA.onFocus a) /\
     VariantA.isProcessing (VariantA.onFocus (VariantA.onBlur a)) = false /\
     VariantA.idle (VariantA.onFocus (VariantA.onBlur a))) /\
    (VariantB.isProcessing (VariantB.onFocus b) = false /\
     VariantB.lastScanTime (VariantB.onFocus b) = 0).
Proof.
  intros a b. repeat split.
Qed.

(** ** The frame filter *)

Lemma truthy_value_spec (v : option string) :
  Scanner.truthy_value v = true <-> exists s, v = Some s /\ s <> EmptyString.
Proof.
  destruct v as [s|]; cbn.
  - rewrite negb_true_iff, String.eqb_neq. split.
    + intros Hs. exists s. auto.
    + intros (s' & Heq & Hs). congruence.
  - split; [discriminate | intros (s & Heq & _); discriminate].
Qed.

(** [find] returns the first element its predicate holds of. *)
Lemma find_first {A : Type} (p : A -> bool) (l : list A) :
  match find p l with
  | Some a => exists l1 l2, l = l1 ++ a :: l2 /\ p a = true /\
                            Forall (fun b => p b = false) l1
  | None => Forall (fun b => p b = false) l
  end.
Proof.
  induction l as [|b l IH]; cbn [find].
  - constructor.
  - destruct (p b) eqn:Hb.
    + exists [], l. repeat split; [exact Hb | constructor].
    + destruct (find p l) as [a|].
      * destruct IH as (l1 & l2 & -> & Ha & Hl1).
        exists (b :: l1), l2. repeat split; [exact Ha|].
        constructor; assumption.
      * constructor; assumption.
Qed.

Section FrameFilterFacts.
Context {num : Type} {N : Arith.Number num}.

Lemma inside_spec (w : Scanner.Window num) (cx cy : num) :
  Scanner.inside w cx cy = true <-> Spec.inRect w (cx, cy).
Proof.
  unfold Scanner.inside, Spec.inRect. cbn [fst snd].
  rewrite !andb_true_iff. tauto.
Qed.

(** A predicate that tests the value, the box and the centre decides
    acceptability with that centre. *)
Lemma isValidCode_spec (center : Scanner.Frame num -> num * num)
      (w : Scanner.Window num) (c : Scanner.Code num) :
  (if negb (Scanner.truthy_value (Scanner.value c)) then false
   else match Scanner.frame c with
        | None => false
        | Some f => Scanner.inside w (fst (center f)) (snd (center f))
        end) = true <-> Spec.acceptable center w c.
Proof.
  unfold Spec.acceptable, Spec.accepts.
  destruct (Scanner.truthy_value (Scanner.value c)) eqn:Ev; cbn [negb].
  - apply truthy_value_spec in Ev. destruct Ev as (s & Hs & Hne).
    destruct (Scanner.frame c) as [f|].
    + rewrite inside_spec. rewrite <- surjective_pairing. split.
      * intros Hin. exists s. repeat split; auto. exists f. auto.
      * intros (v & _ & _ & f' & Hf & Hin). injection Hf as <-. exact Hin.
    + split; [discriminate|].
      intros (v & _ & _ & f' & Hf & _). discriminate Hf.
  - split; [discriminate|].
    intros (v & Hv & Hne & _).
    assert (Scanner.truthy_value (Scanner.value c) = true) as Ht
        by (apply truthy_value_spec; eauto).
    congruence.
Qed.

(** The predicate of variant A decides acceptability with the box centre. *)
Lemma isValidCodeA_spec (w : Scanner.Window num) (c : Scanner.Code num) :
  VariantA.isValidCode w c = true <-> Spec.acceptable Spec.boxCenter w c.
Proof.
  apply (isValidCode_spec Spec.boxCenter).
Qed.

(** The predicate of variant B decides acceptability with the box centre
    off iOS and without a camera format, and with the centre mapped from
    sensor space on iOS with a camera format. *)
Lemma isValidCodeB_spec (w : Scanner.Window num) (os : VariantB.PlatformOS)
      (format : option (VariantB.Format num)) (c : Scanner.Code num) :
  VariantB.isValidCode w os format c = true <->
  Spec.acceptable
    match os, format with
    | VariantB.ios, Some fmt => Spec.sensorCenter w fmt
    | _, _ => Spec.boxCenter
    end w c.
Proof.
  rewrite <- isValidCode_spec. unfold VariantB.isValidCode.
  destruct (negb _); [reflexivity|].
  destruct (Scanner.frame c) as [f|]; [|reflexivity].
  destruct os, format as [fmt|]; reflexivity.
Qed.

Lemma filter_first_accepted (center : Scanner.Frame num -> num * num)
      (w : Scanner.Window num) (p : Scanner.Code num -> bool)
      (codes : list (Scanner.Code num)) :
  (forall c, p c = true <-> Spec.acceptable center w c) ->
  Spec.firstAccepted center w codes
    match find p codes with
    | Some validCode =>
        if Scanner.truthy_value (Scanner.value validCode)
        then Scanner.value validCode else None
    | None => None
    end.
Proof.
  intros Hp.
  assert (Hrej : forall l, Forall (fun b => p b = false) l ->
                           Forall (fun c => ~ Spec.acceptable center w c) l).
  { intros l. apply Forall_impl. intros c Hc Hacc.
    apply Hp in Hacc. congruence. }
  pose proof (find_first p codes) as Hfind.
  destruct (find p codes) as [a|].
  - destruct Hfind as (l1 & l2 & -> & Ha & Hl1).
    apply Hp in Ha. destruct Ha as (v & Hacc).
    pose proof Hacc as (Hv & Hne & _).
    assert (Ht : Scanner.truthy_value (Scanner.value a) = true)
      by (apply truthy_value_spec; eauto).
    rewrite Ht, Hv. cbn. exists l1, a, l2. auto.
  - cbn. auto.
Qed.

End FrameFilterFacts.

(** The scan frame is computed in doubles.  In a 360x800 window
    SCREEN_WIDTH * 0.7 rounds to 251.99999999999997 and the left edge to
    54.000000000000014, so a code whose centre is (54, 400) is rejected; in
    exact arithmetic the edge is 54 and the same code is accepted. *)
Lemma border_centre_is_rounded_out :
  VariantA.isValidCode FrameSamples.window360
    (FrameSamples.code FrameSamples.boxOnBorder) = false /\
  VariantB.isValidCode FrameSamples.window360 VariantB.android None
    (FrameSamples.code FrameSamples.boxOnBorder) = false /\
  VariantA.isValidCode (Scanner.mkWindow 360 800)%Q
    (Scanner.mkCode (Some "8690000000017"%string)
       (Some (Scanner.mkFrame 4 350 100 100)%Q)) = true.
Proof.
  repeat split.
Qed.

(** C3, the claim at concrete inputs: variant B on iOS with a 1920x1080
    format, in a 400x800 window, whose scan frame is [60, 340] x [260, 540].
    A lone candidate whose bounding-box centre (200, 400) lies inside the
    frame is not accepted, and a lone candidate whose bounding-box centre
    (960, 540) lies outside it is accepted: the test is applied to the centre
    mapped from sensor space. *)
Lemma C3_frame_filter_box_center_counterexample :
  let w := FrameSamples.window400 in
  let format := FrameSamples.format1080 in
  let c1 := FrameSamples.code FrameSamples.boxOnWindow in
  let c2 := FrameSamples.code FrameSamples.boxOnSensor in
  (Spec.accepts Spec.boxCenter w c1 "8690000000017"%string /\
   VariantB.frameFilter w VariantB.ios (Some format) [c1] = None) /\
  (~ Spec.acceptable Spec.boxCenter w c2 /\
   VariantB.frameFilter w VariantB.ios (Some format) [c2]
     = Some "8690000000017"%string).
Proof.
  cbv zeta. split; split; try reflexivity.
  - split; [reflexivity|]. split; [discriminate|].
    eexists. split; [reflexivity|]. repeat split.
  - intros Hacc. apply isValidCodeA_spec in Hacc. discriminate Hacc.
Qed.

(** C3, amended. For every window, platform, camera format and list of
    detected codes, in the arithmetic of doubles as in any other, each filter
    yields at most one value: nothing when no candidate is acceptable, and
    otherwise the value of the first candidate in list order that has a
    non-empty value, has a bounding box, and whose screen-space centre lies
    in the scan-frame rectangle; every candidate before it fails one of the
    three.  The screen-space centre is the bounding-box centre
    (x + width/2, y + height/2) in variant A and, off iOS or without a camera
    format, in variant B; on iOS with a camera format variant B uses
    ((y + height/2) / camShort * SCREEN_WIDTH,
     (x + width/2) / camLong * SCREEN_HEIGHT). *)
Theorem C3_frame_filter_first_inside :
  forall (num : Type) (N : Arith.Number num) (w : Scanner.Window num)
         (os : VariantB.PlatformOS) (format : option (VariantB.Format num))
         (codes : list (Scanner.Code num)),
    Spec.firstAccepted Spec.boxCenter w codes (VariantA.frameFilter w codes) /\
    Spec.firstAccepted
      match os, format with
      | VariantB.ios, Some fmt => Spec.sensorCenter w fmt
      | _, _ => Spec.boxCenter
      end w codes (VariantB.frameFilter w os format codes).
Proof.
  intros num N w os format codes. split.
  - apply filter_first_accepted. apply isValidCodeA_spec.
  - apply filter_first_accepted. apply isValidCodeB_spec.
Qed.

(** ** The processing flag as the gate of the lookup *)

Section Gate.
Import Machine.
Context {S : Type} `{Screen S}.

(** What the invariant needs of a screen. *)
Hypothesis scanned_gate :
  forall now b s, processing s = true -> scanned now b s = (s, []).
Hypothesis scanned_calls :
  forall now b s,
    snd (scanned now b s) = [] \/
    (snd (scanned now b s) = [Lookup b] /\ processing (fst (scanned now b s)) = true).
Hypothesis timer_keeps :
  forall s, processing (fst (timerFired s)) = processing s /\ snd (timerFired s) = [].
Hypothesis blur_keeps :
  forall s, processing (blurred s) = processing s.

Lemma length_removeNth {A : Type} (i : nat) (l : list A) (a : A) :
  nth_error l i = Some a -> List.length l = Datatypes.S (List.length (removeNth i l)).
Proof.
  revert i. induction l as [|b l IH]; intros [|i] Hn; try discriminate Hn.
  - reflexivity.
  - cbn [removeNth List.length]. f_equal. apply IH. exact Hn.
Qed.

Lemma alertsOf_settled (barcode : string) (outcome : JS.M Api.ApiResponse) :
  (alertsOf (Dispatcher.lookupSettled barcode outcome) <= 1)%nat.
Proof.
  unfold Dispatcher.lookupSettled.
  destruct outcome as [e|r]; [cbn; lia|].
  destruct (Api.success r && _); cbn; lia.
Qed.

Lemma step_gated (w : world S) (e : event) :
  gated w ->
  (e = EvFocus -> inFlight w = [] /\ openAlerts w = 0%nat) ->
  gated (fst (step w e)).
Proof.
  intros [Hle Hflag] Hfocus. unfold gated.
  destruct e as [now b | | i outcome | | |]; cbn [step].
  - destruct (processing (screen w)) eqn:Ep.
    + rewrite scanned_gate by exact Ep. cbn. rewrite app_nil_r. auto.
    + assert (Hz : (List.length (inFlight w) + openAlerts w = 0)%nat).
      { destruct (Nat.eq_dec (List.length (inFlight w) + openAlerts w) 1) as [E|E].
        - apply Hflag in E. congruence.
        - lia. }
      destruct (scanned_calls now b (screen w)) as [Hs | [Hs Hp]];
        destruct (scanned now b (screen w)) as [s effs];
        cbn [fst snd] in *; subst effs; cbn [lookupsOf flat_map app inFlight openAlerts screen];
        rewrite ?length_app; cbn [List.length]; split; intros; try lia; auto.
  - destruct (timer_keeps (screen w)) as [Hp He].
    destruct (timerFired (screen w)) as [s effs]. cbn in *.
    rewrite Hp. auto.
  - destruct (nth_error (inFlight w) i) as [barcode|] eqn:En; [|cbn; auto].
    cbn [fst inFlight openAlerts screen].
    pose proof (length_removeNth _ _ _ En) as Hlen.
    pose proof (alertsOf_settled barcode outcome) as Ha.
    split; [lia|]. intros _. apply Hflag. lia.
  - destruct (openAlerts w) as [|n] eqn:Eo; cbn [fst]; [rewrite Eo; auto|].
    cbn [inFlight openAlerts screen]. split; [lia|]. intros; lia.
  - destruct (Hfocus eq_refl) as [Hi Ho]. cbn. rewrite Hi, Ho. cbn.
    split; [lia | discriminate].
  - cbn. rewrite blur_keeps. auto.
Qed.

Lemma run_gated (trace : list event) :
  forall w : world S,
    gated w -> focusWhenQuiet trace w = true -> gated (fst (run trace w)).
Proof.
  induction trace as [|e trace IH]; intros w Hg Hq; [exact Hg|].
  cbn [run focusWhenQuiet] in *. apply andb_prop in Hq. destruct Hq as [Hq1 Hq2].
  pose proof (step_gated w e Hg) as Hstep.
  destruct (step w e) as [w1 effs]. cbn [fst] in *.
  specialize (IH w1).
  destruct (run trace w1) as [w2 log]. cbn [fst] in *.
  apply IH; [|exact Hq2]. apply Hstep. intros ->.
  destruct (inFlight w); [|discriminate Hq1].
  destruct (openAlerts w); [auto | discriminate Hq1].
Qed.

End Gate.

Lemma handleA_calls now b st :
  snd (VariantA.handleBarcodeScanned now b st) = [] \/
  (snd (VariantA.handleBarcodeScanned now b st) = [Lookup b] /\
   VariantA.isProcessing (fst (VariantA.handleBarcodeScanned now b st)) = true).
Proof.
  unfold VariantA.handleBarcodeScanned.
  destruct (VariantA.isProcessing st); [auto|].
  destruct (now - VariantA.lastScanTime st <? VariantA.SCAN_COOLDOWN); [auto|].
  cbv zeta. destruct (forallb _ _ && _); cbn; auto.
Qed.

Lemma timerA_keeps st :
  VariantA.isProcessing (fst (VariantA.confirmTimeoutFired st)) = VariantA.isProcessing st /\
  snd (VariantA.confirmTimeoutFired st) = [].
Proof.
  unfold VariantA.confirmTimeoutFired.
  destruct (VariantA.confirmTimeout st); auto.
Qed.

Lemma handleB_processing now b st :
  VariantB.isProcessing st = true -> VariantB.handleBarcodeScanned now b st = (st, []).
Proof.
  intros Hp. unfold VariantB.handleBarcodeScanned. rewrite Hp. reflexivity.
Qed.

Lemma handleB_debounce now b st :
  now - VariantB.lastScanTime st < VariantB.SCAN_DEBOUNCE ->
  VariantB.handleBarcodeScanned now b st = (st, []).
Proof.
  intros Hd. unfold VariantB.handleBarcodeScanned.
  destruct (VariantB.isProcessing st); [reflexivity|].
  destruct (Z.ltb_spec (now - VariantB.lastScanTime st) VariantB.SCAN_DEBOUNCE);
    [reflexivity | lia].
Qed.

Lemma handleB_accepted now b st :
  VariantB.isProcessing st = false ->
  VariantB.SCAN_DEBOUNCE <= now - VariantB.lastScanTime st ->
  VariantB.handleBarcodeScanned now b st = (VariantB.mkState true now, [Lookup b]).
Proof.
  intros Hp Hd. unfold VariantB.handleBarcodeScanned. rewrite Hp.
  destruct (Z.ltb_spec (now - VariantB.lastScanTime st) VariantB.SCAN_DEBOUNCE);
    [lia | reflexivity].
Qed.

Lemma handleB_calls now b st :
  snd (VariantB.handleBarcodeScanned now b st) = [] \/
  (snd (VariantB.handleBarcodeScanned now b st) = [Lookup b] /\
   VariantB.isProcessing (fst (VariantB.handleBarcodeScanned now b st)) = true).
Proof.
  unfold VariantB.handleBarcodeScanned.
  destruct (VariantB.isProcessing st); [auto|].
  destruct (now - VariantB.lastScanTime st <? VariantB.SCAN_DEBOUNCE); cbn; auto.
Qed.

Lemma start_gated {S : Type} `{Machine.Screen S} (s : S) :
  Machine.gated (Machine.start s).
Proof.
  split; cbn; [lia | discriminate].
Qed.

(** C9, the claim at a concrete input, once per variant: a lookup is called,
    the screen blurs and regains focus before the lookup settles, the flag is
    reset, and the next confirmed scan calls a second lookup while the first
    is still pending. *)
Lemma C9_single_lookup_in_flight_counterexample :
  Machine.inFlight
    (fst (Machine.run
            [Machine.EvScan 1000 "A"; Machine.EvScan 1600 "A"; Machine.EvScan 2200 "A";
             Machine.EvBlur; Machine.EvFocus;
             Machine.EvScan 3000 "B"; Machine.EvScan 3600 "B"; Machine.EvScan 4200 "B"]%string
            (Machine.start VariantA.initial)))
    = ["A"; "B"]%string /\
  Machine.inFlight
    (fst (Machine.run
            [Machine.EvScan 2000 "A"; Machine.EvBlur; Machine.EvFocus;
             Machine.EvScan 2100 "B"]%string
            (Machine.start VariantB.initial)))
    = ["A"; "B"]%string.
Proof.
  split; reflexivity.
Qed.

(** C9, amended. On both screens a scan-ingestion callback that finds the
    processing flag set returns without changing any state and without calling
    anything; and in every state reached from the mounted screen by a run in
    which focus never arrives while a lookup is pending or an alert is open,
    at most one lookup is in flight, and while one is in flight the flag is
    set, so that no scan touches the buffer. *)
Theorem C9_flag_gates_scans_and_lookups :
  forall (num : Type) (N : Arith.Number num)
         (a : VariantA.state) (b : VariantB.state) (now : Z) (v : string)
         (w : Scanner.Window num) (os : VariantB.PlatformOS)
         (format : option (VariantB.Format num)) (codes : list (Scanner.Code num))
         (trace : list Machine.event),
    (VariantA.isProcessing a = true ->
     VariantA.handleBarcodeScanned now v a = (a, []) /\
     VariantA.onCodeScanned w now codes a = (a, [])) /\
    (VariantB.isProcessing b = true ->
     VariantB.handleBarcodeScanned now v b = (b, []) /\
     VariantB.onCodeScanned w os format now codes b = (b, [])) /\
    (Machine.focusWhenQuiet trace (Machine.start VariantA.initial) = true ->
     let reached := fst (Machine.run trace (Machine.start VariantA.initial)) in
     (List.length (Machine.inFlight reached) <= 1)%nat /\
     (Machine.inFlight reached <> [] ->
      VariantA.isProcessing (Machine.screen reached) = true)) /\
    (Machine.focusWhenQuiet trace (Machine.start VariantB.initial) = true ->
     let reached := fst (Machine.run trace (Machine.start VariantB.initial)) in
     (List.length (Machine.inFlight reached) <= 1)%nat /\
     (Machine.inFlight reached <> [] ->
      VariantB.isProcessing (Machine.screen reached) = true)).
Proof.
  intros num N a b now v w os format codes trace.
  assert (Hpending : forall (S : Type) (Sc : Machine.Screen S) (w' : Machine.world S),
             Machine.gated w' ->
             (List.length (Machine.inFlight w') <= 1)%nat /\
             (Machine.inFlight w' <> [] -> Machine.processing (Machine.screen w') = true)).
  { intros S Sc w' [Hle Hflag]. split; [lia|].
    intros Hne. apply Hflag.
    destruct (Machine.inFlight w') as [|x l]; [congruence|]. cbn [List.length] in *. lia. }
  split; [|split; [|split]].
  - intros Hp. split; [apply handleA_processing; assumption|].
    unfold VariantA.onCodeScanned.
    destruct (VariantA.frameFilter w codes); [|reflexivity].
    apply handleA_processing. assumption.
  - intros Hp. split; [apply handleB_processing; assumption|].
    unfold VariantB.onCodeScanned.
    destruct (VariantB.frameFilter w os format codes); [|reflexivity].
    apply handleB_processing. assumption.
  - intros Hq. cbv zeta.
    apply (Hpending _ Machine.ScreenA).
    apply run_gated; try assumption.
    + intros; apply handleA_processing; assumption.
    + intros; apply handleA_calls.
    + intros; apply timerA_keeps.
    + reflexivity.
    + apply start_gated.
  - intros Hq. cbv zeta.
    apply (Hpending _ Machine.ScreenB).
    apply run_gated; try assumption.
    + intros; apply handleB_processing; assumption.
    + intros; apply handleB_calls.
    + intros; split; reflexivity.
    + reflexivity.
    + apply start_gated.
Qed.

Lemma C9_flag_gates_scans_and_lookups_witness :
  let a := VariantA.mkState true false 0 2200 [] None in
  let b := VariantB.mkState true 2000 in
  let w := FrameSamples.window400 in
  let codes := [FrameSamples.code FrameSamples.boxOnWindow] in
  let trace := [Machine.EvScan 2000 "A"; Machine.EvSettle 0 (inl JS.OtherThrown);
                Machine.EvDismiss; Machine.EvScan 4000 "A"; Machine.EvScan 4600 "A";
                Machine.EvScan 5200 "A"]%string in
  (VariantA.handleBarcodeScanned 5000 "A" a = (a, []) /\
   VariantA.onCodeScanned w 5000 codes a = (a, [])) /\
  (VariantB.handleBarcodeScanned 5000 "A" b = (b, []) /\
   VariantB.onCodeScanned w VariantB.android None 5000 codes b = (b, [])) /\
  (let reached := fst (Machine.run trace (Machine.start VariantA.initial)) in
   (List.length (Machine.inFlight reached) <= 1)%nat /\
   (Machine.inFlight reached <> [] ->
    VariantA.isProcessing (Machine.screen reached) = true)) /\
  (let reached := fst (Machine.run trace (Machine.start VariantB.initial)) in
   (List.length (Machine.inFlight reached) <= 1)%nat /\
   (Machine.inFlight reached <> [] ->
    VariantB.isProcessing (Machine.screen reached) = true)).
Proof.
  cbv zeta.
  destruct (C9_flag_gates_scans_and_lookups PrimFloat.float Arith.DoubleNumber
              (VariantA.mkState true false 0 2200 [] None)
              (VariantB.mkState true 2000) 5000 "A"
              FrameSamples.window400 VariantB.android None
              [FrameSamples.code FrameSamples.boxOnWindow]
              [Machine.EvScan 2000 "A"; Machine.EvSettle 0 (inl JS.OtherThrown);
               Machine.EvDismiss; Machine.EvScan 4000 "A"; Machine.EvScan 4600 "A";
               Machine.EvScan 5200 "A"]%string)
    as (HA & HB & HtA & HtB).
  split; [apply HA; reflexivity|].
  split; [apply HB; reflexivity|].
  split; [apply HtA; reflexivity | apply HtB; reflexivity].
Defined.

(** ** The debounce gate of variant B *)

Lemma spacedBy_cons (gap t : Z) (times : list Z) :
  Machine.startsFrom (t + gap) times -> Spec.spacedBy gap times ->
  Spec.spacedBy gap (t :: times).
Proof.
  destruct times as [|t2 rest]; cbn; auto.
Qed.

(** Between focus changes, accepted scans lie at least SCAN_DEBOUNCE apart,
    the first of them at least SCAN_DEBOUNCE after the stored timestamp. *)
Lemma accepted_spaced (trace : list Machine.event) :
  forall w : Machine.world VariantB.state,
    forallb (fun e => negb (Machine.isFocusOrBlur e)) trace = true ->
    Spec.spacedBy VariantB.SCAN_DEBOUNCE
      (Machine.acceptedTimes (snd (Machine.run trace w))) /\
    Machine.startsFrom
      (VariantB.lastScanTime (Machine.screen w) + VariantB.SCAN_DEBOUNCE)
      (Machine.acceptedTimes (snd (Machine.run trace w))).
Proof.
  induction trace as [|e trace IH]; intros w Hq; [cbn; auto|].
  cbn [forallb] in Hq. apply andb_prop in Hq. destruct Hq as [He Hq].
  cbn [Machine.run].
  destruct e as [now b | | i outcome | | |]; try discriminate He;
    cbn [Machine.step Machine.scanned Machine.timerFired Machine.dismissed
         Machine.ScreenB].
  - destruct (VariantB.isProcessing (Machine.screen w)) eqn:Ep.
    + rewrite handleB_processing by exact Ep.
      specialize (IH (Machine.mkWorld (Machine.screen w)
                        (Machine.inFlight w ++ Machine.lookupsOf [])
                        (Machine.openAlerts w)) Hq).
      destruct (Machine.run trace _) as [w2 log]. cbn in *. exact IH.
    + destruct (Z.ltb_spec (now - VariantB.lastScanTime (Machine.screen w))
                  VariantB.SCAN_DEBOUNCE) as [Hd | Hd].
      * rewrite handleB_debounce by exact Hd.
        specialize (IH (Machine.mkWorld (Machine.screen w)
                          (Machine.inFlight w ++ Machine.lookupsOf [])
                          (Machine.openAlerts w)) Hq).
        destruct (Machine.run trace _) as [w2 log]. cbn in *. exact IH.
      * rewrite handleB_accepted by assumption.
        specialize (IH (Machine.mkWorld (VariantB.mkState true now)
                          (Machine.inFlight w ++ Machine.lookupsOf [Lookup b])
                          (Machine.openAlerts w)) Hq).
        destruct (Machine.run trace _) as [w2 log].
        cbn [snd Machine.acceptedTimes flat_map app Machine.screen
             VariantB.lastScanTime] in *.
        destruct IH as [Hs Hf]. split.
        -- apply spacedBy_cons; assumption.
        -- cbn. lia.
  - specialize (IH (Machine.mkWorld (Machine.screen w) (Machine.inFlight w)
                      (Machine.openAlerts w)) Hq).
    destruct (Machine.run trace _) as [w2 log]. cbn in *. exact IH.
  - destruct (nth_error (Machine.inFlight w) i) as [barcode|].
    + match goal with
      | |- context [Machine.run trace ?w1] => specialize (IH w1 Hq)
      end.
      destruct (Machine.run trace _) as [w2 log]. cbn in *. exact IH.
    + specialize (IH w Hq).
      destruct (Machine.run trace w) as [w2 log]. cbn in *. exact IH.
  - destruct (Machine.openAlerts w) as [|n].
    + specialize (IH w Hq).
      destruct (Machine.run trace w) as [w2 log]. cbn in *. exact IH.
    + match goal with
      | |- context [Machine.run trace ?w1] => specialize (IH w1 Hq)
      end.
      destruct (Machine.run trace _) as [w2 log]. cbn in *. exact IH.
Qed.

(** C4, the claim at concrete inputs.  With the processing flag set, a scan
    4000 ms after the last accepted one is rejected; and with a blur and a
    focus in between, two scans 100 ms apart are both accepted. *)
Lemma C4_debounce_gate_counterexample :
  (VariantB.SCAN_DEBOUNCE <= 5000 - VariantB.lastScanTime (VariantB.mkState true 1000) /\
   VariantB.handleBarcodeScanned 5000 "A" (VariantB.mkState true 1000)
     = (VariantB.mkState true 1000, [])) /\
  Machine.acceptedTimes
    (snd (Machine.run
            [Machine.EvScan 2000 "A"; Machine.EvBlur; Machine.EvFocus;
             Machine.EvScan 2100 "B"]%string
            (Machine.start VariantB.initial)))
    = [2000; 2100].
Proof.
  split; [split; [clock | reflexivity] | reflexivity].
Qed.

(** C4, amended. In variant B a filtered scan value is rejected, leaving the
    timestamp as it was, if fewer than SCAN_DEBOUNCE ms have elapsed since the
    stored timestamp of the last accepted scan; otherwise, when no lookup is
    being processed, it is accepted on that single read: the timestamp
    advances, the flag is set and the lookup is called.  In any run of scans,
    lookup completions and alert acknowledgements without blur or focus,
    whatever the read frequency, two successive accepted scans are at least
    SCAN_DEBOUNCE ms apart. *)
Theorem C4_debounce_gate :
  forall (st : VariantB.state) (now : Z) (v : string)
         (trace : list Machine.event) (w : Machine.world VariantB.state),
    (now - VariantB.lastScanTime st < VariantB.SCAN_DEBOUNCE ->
     VariantB.handleBarcodeScanned now v st = (st, [])) /\
    (VariantB.isProcessing st = false ->
     VariantB.SCAN_DEBOUNCE <= now - VariantB.lastScanTime st ->
     VariantB.handleBarcodeScanned now v st = (VariantB.mkState true now, [Lookup v])) /\
    (forallb (fun e => negb (Machine.isFocusOrBlur e)) trace = true ->
     Spec.spacedBy VariantB.SCAN_DEBOUNCE
       (Machine.acceptedTimes (snd (Machine.run trace w)))).
Proof.
  intros st now v trace w. repeat split.
  - apply handleB_debounce.
  - apply handleB_accepted.
  - intros Hq. apply accepted_spaced. exact Hq.
Qed.

Lemma C4_debounce_gate_witness :
  let trace := [Machine.EvScan 2000 "A"; Machine.EvScan 2100 "A";
                Machine.EvSettle 0 (inl JS.OtherThrown); Machine.EvDismiss;
                Machine.EvScan 3000 "A"; Machine.EvScan 3500 "B";
                Machine.EvScan 3600 "B"]%string in
  VariantB.handleBarcodeScanned 2100 "A" (VariantB.mkState false 2000)
    = (VariantB.mkState false 2000, []) /\
  VariantB.handleBarcodeScanned 3500 "A" (VariantB.mkState false 2000)
    = (VariantB.mkState true 3500, [Lookup "A"]) /\
  Spec.spacedBy VariantB.SCAN_DEBOUNCE
    (Machine.acceptedTimes
       (snd (Machine.run trace (Machine.start VariantB.initial)))).
Proof.
  cbv zeta.
  destruct (C4_debounce_gate (VariantB.mkState false 2000) 2100 "A"
              [Machine.EvScan 2000 "A"; Machine.EvScan 2100 "A";
               Machine.EvSettle 0 (inl JS.OtherThrown); Machine.EvDismiss;
               Machine.EvScan 3000 "A"; Machine.EvScan 3500 "B";
               Machine.EvScan 3600 "B"]%string
              (Machine.start VariantB.initial)) as (Hrej & _ & Hrun).
  destruct (C4_debounce_gate (VariantB.mkState false 2000) 3500 "A" []
              (Machine.start VariantB.initial)) as (_ & Hacc & _).
  split; [apply Hrej; clock|].
  split; [apply Hacc; clock|].
  apply Hrun. reflexivity.
Defined.

(** ** The lookup *)

Section Lookup.
Import JS Api.
Variable numberToString : Q -> string.

Lemma get_ok (base : value) (name : string) :
  nullish base = false -> get base name = inr (prop base name).
Proof.
  intros Hn. unfold get. rewrite Hn. reflexivity.
Qed.

Lemma mapM_ok {A B : Type} (f : A -> M B) (l : list A) :
  Forall (fun a => exists b, f a = inr b) l ->
  exists bs, mapM f l = inr bs /\ Forall2 (fun a b => f a = inr b) l bs.
Proof.
  induction 1 as [|a l [b Hb] _ [bs [Hbs Hall]]].
  - exists []. split; [reflexivity | constructor].
  - exists (b :: bs). cbn [mapM]. rewrite Hb. cbn [bind]. rewrite Hbs.
    split; [reflexivity | constructor; assumption].
Qed.

(** A printable value is converted to a string without a throw. *)
Lemma toString_ok :
  forall v : value,
    Spec.printable v = true -> exists s, toString numberToString v = inr s.
Proof.
  fix IH 1. intros [ | | [|] | q | s | items | props] Hp; cbn [toString];
    try (eexists; reflexivity).
  - cbn [Spec.printable] in Hp.
    induction items as [|e rest IHrest]; [eexists; reflexivity|].
    apply andb_prop in Hp. destruct Hp as [He Hrest].
    assert (Hfirst : exists first,
               match e with
               | VUndefined | VNull => ret EmptyString
               | _ => toString numberToString e
               end = inr first).
    { destruct (IH e He) as [se Hse].
      destruct e; try (eexists; exact Hse); eexists; reflexivity. }
    destruct Hfirst as [first ->]. cbn [bind].
    destruct rest as [|e' rest']; [eexists; reflexivity|].
    destruct (IHrest Hrest) as [tail ->]. cbn [bind ret]. eexists; reflexivity.
  - cbn [Spec.printable] in Hp. apply negb_true_iff in Hp. rewrite Hp.
    eexists; reflexivity.
Qed.


Lemma printable_or_zero (v : value) :
  Spec.printable v = true -> Spec.printable (or v (VNumber 0)) = true.
Proof.
  intros Hp. unfold or. destruct (truthy v); [exact Hp | reflexivity].
Qed.

Lemma formatStoreStock_ok (s : value) :
  nullish s = false ->
  Spec.printable (prop s "stock") = true ->
  exists r, formatStoreStock numberToString s = inr r.
Proof.
  intros Hn Hp. unfold formatStoreStock.
  rewrite !(get_ok s) by exact Hn. cbn [bind].
  destruct (toString_ok _ (printable_or_zero _ Hp)) as [stock Hstock].
  destruct (truthy (prop s "name")); cbn [bind ret]; rewrite Hstock;
    cbn [bind ret]; eexists; reflexivity.
Qed.

(** An entry that is not null, with no null among its store stocks and with
    printable texts, is formatted without a throw. *)
Lemma formatProduct_ok (product : value) :
  Spec.formattable product ->
  exists r, formatProduct numberToString product = inr r.
Proof.
  intros (Hn & Hcover & Hstocks). unfold formatProduct.
  rewrite !(get_ok product) by exact Hn. cbn [bind].
  unfold Spec.stockEntries in Hstocks. cbv zeta in Hstocks.
  assert (Hall : forall l,
             Forall (fun s => nullish s = false /\ Spec.printable (prop s "stock") = true) l ->
             exists rs, mapM (formatStoreStock numberToString) l = inr rs).
  { intros l Hl.
    destruct (mapM_ok (formatStoreStock numberToString) l) as (rs & Hrs & _).
    - revert Hl. apply Forall_impl. intros s [Hs Hp]. apply formatStoreStock_ok; assumption.
    - eauto. }
  assert (Hc : exists cover,
             (if truthy (prop product "coverUrlThumb")
              then bind (toString numberToString (prop product "coverUrlThumb"))
                        (fun path => ret ("https://nettechservis.com" ++ path)%string)
              else ret EmptyString) = inr cover).
  { destruct (truthy (prop product "coverUrlThumb")); [|eexists; reflexivity].
    destruct (toString_ok _ Hcover) as [path ->]. eexists; reflexivity. }
  destruct Hc as [cover Hc].
  destruct (truthy (prop product "storeStocks") && isArray (prop product "storeStocks")).
  - destruct (Hall _ Hstocks) as [rs ->]. cbn [bind ret]. rewrite Hc.
    cbn [bind ret]. eexists; reflexivity.
  - destruct (truthy (prop product "shelf") && isArray (prop product "shelf")).
    + destruct (Hall _ Hstocks) as [rs ->]. cbn [bind ret]. rewrite Hc.
      cbn [bind ret]. eexists; reflexivity.
    + cbn [bind ret]. rewrite Hc. cbn [bind ret]. eexists; reflexivity.
Qed.

Lemma hasVariations_object (apiResponse : value) :
  Spec.hasVariations apiResponse = true ->
  nullish apiResponse = false /\
  exists item items, prop apiResponse "variations" = VArray (item :: items).
Proof.
  unfold Spec.hasVariations.
  destruct apiResponse; cbn [prop nullish]; try discriminate; intros H.
  split; [reflexivity|].
  destruct (lookup "variations" props) as [| | | | |[|item items]|]; try discriminate H.
  eauto.
Qed.

Lemma selectProducts_variations (apiResponse : value) :
  Spec.hasVariations apiResponse = true ->
  selectProducts apiResponse = inr (objectValues (prop apiResponse "variations")).
Proof.
  intros H. destruct (hasVariations_object _ H) as (Hn & item & items & Hv).
  unfold selectProducts. rewrite get_ok by exact Hn. cbn [bind].
  rewrite Hv. reflexivity.
Qed.

Lemma selectProducts_nothing (apiResponse : value) :
  nullish apiResponse = false ->
  Spec.hasVariations apiResponse = false ->
  Spec.hasProduct apiResponse = false ->
  selectProducts apiResponse = inl (ErrorObject "Error" NO_PRODUCT_MESSAGE).
Proof.
  intros Hn Hv Hp. unfold selectProducts.
  rewrite !(get_ok apiResponse) by exact Hn. cbn [bind].
  unfold Spec.hasVariations in Hv. unfold Spec.hasProduct in Hp.
  assert (Hcond : truthy (prop apiResponse "variations")
                  && isArray (prop apiResponse "variations")
                  && (0 <? List.length (objectValues (prop apiResponse "variations")))%nat
                  = false).
  { revert Hv.
    destruct (prop apiResponse "variations") as [| | | | |[|item items]|];
      intros Hv; cbn; rewrite ?andb_false_r; try reflexivity.
    discriminate Hv. }
  rewrite Hcond.
  destruct (truthy (prop apiResponse "success")) eqn:Es; cbn [bind ret andb] in *.
  - rewrite Hp. reflexivity.
  - rewrite Es. reflexivity.
Qed.

(** A fetch that has not settled within 30 s is aborted, and the lookup
    answers with the timeout text. *)
Lemma findProductByBarcode_timeout (barcode : string) (token : option string)
      (f : Fetch) :
  TIMEOUT_MS <= settlesAfter f ->
  findProductByBarcode numberToString barcode (inr token) f =
    inr (mkApiResponse false None None (Some TIMEOUT_MESSAGE)).
Proof.
  intros Hlate. unfold findProductByBarcode, tryBlock, fetchWithAbort.
  destruct (Z.leb_spec TIMEOUT_MS (settlesAfter f)); [reflexivity | lia].
Qed.

(** The [try] block on a response that arrived in time, with an OK status
    and a body that parses. *)
Lemma tryBlock_parsed (f : Fetch) (response : Response) (apiResponse : value) :
  settlesAfter f < TIMEOUT_MS ->
  settlesWith f = inr response ->
  ok response = true ->
  json response = Some apiResponse ->
  tryBlock numberToString f =
    bind (selectProducts apiResponse) (fun productsArray =>
    bind (mapM (formatProduct numberToString) productsArray) (fun formattedProducts =>
    ret (mkApiResponse true (hd_error formattedProducts) (Some formattedProducts) None))).
Proof.
  intros Hfast Hresp Hok Hjson. unfold tryBlock, fetchWithAbort.
  destruct (Z.leb_spec TIMEOUT_MS (settlesAfter f)); [lia|].
  rewrite Hresp. cbn [bind]. rewrite Hok, Hjson. reflexivity.
Qed.

End Lookup.

(** C10, the claim at a concrete input: an OK response whose body parses to
    an object with the one-entry variations array [null].  [formatProduct]
    reads a property of null, the TypeError is caught, and the answer has
    success = false. *)
Lemma C10_variations_give_success_counterexample :
  let apiResponse := JS.VObject [("variations"%string, JS.VArray [JS.VNull])] in
  let f := Api.mkFetch 120 (inr (Api.mkResponse true 200 (Some apiResponse))) in
  Spec.hasVariations apiResponse = true /\
  Api.findProductByBarcode Spec.printInteger "8690000000017" (inr None) f =
    inr (Api.mkApiResponse false None None
           (Some "Cannot read property 'storeStocks' of null"%string)).
Proof.
  split; reflexivity.
Qed.

(** C10, next to the claim: an entry that is not null can still fail to
    format.  A cover link that parsed to an object with a [toString] property
    of its own has no primitive value; the template literal throws, the
    TypeError is caught, and the answer has success = false. *)
Lemma unprintable_cover_is_not_formatted :
  let apiResponse :=
    JS.VObject [("variations"%string,
                 JS.VArray [JS.VObject [("coverUrlThumb"%string,
                                         JS.VObject [("toString"%string, JS.VNumber 1)])]])] in
  let f := Api.mkFetch 120 (inr (Api.mkResponse true 200 (Some apiResponse))) in
  Spec.hasVariations apiResponse = true /\
  Forall (fun item => JS.nullish item = false)
         (JS.objectValues (JS.prop apiResponse "variations")) /\
  exists message,
    Api.findProductByBarcode Spec.printInteger "8690000000017" (inr None) f =
      inr (Api.mkApiResponse false None None (Some message)).
Proof.
  cbv zeta. split; [reflexivity|]. split; [repeat constructor|].
  eexists. reflexivity.
Qed.

(** C10, amended. For an OK response, received before the 30 s abort, whose
    body parses as JSON: if it carries a non-empty variations array each of
    whose entries is formattable (the entry is not null, none of its
    store-stock entries is null, and its cover link and the stock of each
    store-stock entry can be converted to a string, holding no object with a
    [toString] property of its own), the function returns success = true,
    data = the first formatted variation and variations = all formatted
    variations, in order; if it carries neither a non-empty variations array
    nor a truthy success with a truthy product, the function returns
    success = false with an error message and does not throw. *)
Theorem C10_lookup_result_shape :
  forall (numberToString : Q -> string) (barcode : string) (token : option string)
         (f : Api.Fetch) (response : Api.Response) (apiResponse : JS.value),
    Api.settlesAfter f < Api.TIMEOUT_MS ->
    Api.settlesWith f = inr response ->
    Api.ok response = true ->
    Api.json response = Some apiResponse ->
    (Spec.hasVariations apiResponse = true ->
     Forall Spec.formattable (JS.objectValues (JS.prop apiResponse "variations")) ->
     exists first rest,
       Forall2 (fun item p => Api.formatProduct numberToString item = inr p)
               (JS.objectValues (JS.prop apiResponse "variations")) (first :: rest) /\
       Api.findProductByBarcode numberToString barcode (inr token) f =
         inr (Api.mkApiResponse true (Some first) (Some (first :: rest)) None)) /\
    (Spec.hasVariations apiResponse = false ->
     Spec.hasProduct apiResponse = false ->
     exists message,
       Api.findProductByBarcode numberToString barcode (inr token) f =
         inr (Api.mkApiResponse false None None (Some message))).
Proof.
  intros nts barcode token f response apiResponse Hfast Hresp Hok Hjson.
  unfold Api.findProductByBarcode. cbn [JS.bind].
  rewrite (tryBlock_parsed nts f response apiResponse) by assumption.
  split.
  - intros Hv Hall.
    rewrite selectProducts_variations by exact Hv. cbn [JS.bind].
    destruct (mapM_ok (Api.formatProduct nts)
                (JS.objectValues (JS.prop apiResponse "variations")))
      as (ps & Hps & Hzip).
    { revert Hall. apply Forall_impl. intros item. apply formatProduct_ok. }
    rewrite Hps. cbn [JS.bind JS.ret JS.try_catch].
    destruct (hasVariations_object _ Hv) as (_ & item & items & Hitems).
    rewrite Hitems in Hzip. cbn [JS.objectValues] in Hzip.
    destruct ps as [|first rest]; [inversion Hzip|].
    exists first, rest. rewrite Hitems. cbn [JS.objectValues hd_error]. auto.
  - intros Hv Hp.
    destruct (JS.nullish apiResponse) eqn:Hn.
    + unfold Api.selectProducts, JS.get. rewrite Hn. cbn. eauto.
    + rewrite selectProducts_nothing by assumption. cbn. eauto.
Qed.

Lemma C10_lookup_result_shape_witness :
  (exists first rest,
      Forall2 (fun item p => Api.formatProduct Spec.printInteger item = inr p)
              (JS.objectValues (JS.prop Spec.sampleFound "variations")) (first :: rest) /\
      Api.findProductByBarcode Spec.printInteger "8690000000017" (inr None)
        (Api.mkFetch 120 (inr (Spec.answered Spec.sampleFound))) =
        inr (Api.mkApiResponse true (Some first) (Some (first :: rest)) None)) /\
  (exists message,
      Api.findProductByBarcode Spec.printInteger "8690000000017" (inr None)
        (Api.mkFetch 120 (inr (Spec.answered Spec.sampleEmpty))) =
        inr (Api.mkApiResponse false None None (Some message))).
Proof.
  split.
  - apply (proj1 (C10_lookup_result_shape Spec.printInteger "8690000000017" None
                    (Api.mkFetch 120 (inr (Spec.answered Spec.sampleFound)))
                    (Spec.answered Spec.sampleFound) Spec.sampleFound
                    eq_refl eq_refl eq_refl eq_refl)).
    + reflexivity.
    + repeat constructor.
  - apply (proj2 (C10_lookup_result_shape Spec.printInteger "8690000000017" None
                    (Api.mkFetch 120 (inr (Spec.answered Spec.sampleEmpty)))
                    (Spec.answered Spec.sampleEmpty) Spec.sampleEmpty
                    eq_refl eq_refl eq_refl eq_refl)); reflexivity.
Defined.

(** C6, at the failing input.  A lookup whose fetch has not settled after
    30 s is aborted and [findProductByBarcode] answers with its timeout text,
    which differs from its other error texts; the screen does not read that
    text: it shows the not-found alert, the very alert it shows for a barcode
    the catalogue does not have.  The processing flag is reset when that alert
    is acknowledged. *)
Theorem C6_timeout_is_shown_as_not_found :
  forall (numberToString : Q -> string) (barcode : string) (token : option string)
         (late : N) (answer : JS.M Api.Response)
         (a : VariantA.state) (b : VariantB.state),
    let slow := Api.mkFetch (Api.TIMEOUT_MS + Z.of_N late) answer in
    let unknown := Api.mkFetch 120 (inr (Spec.answered Spec.sampleEmpty)) in
    Api.findProductByBarcode numberToString barcode (inr token) slow =
      inr (Api.mkApiResponse false None None (Some Api.TIMEOUT_MESSAGE)) /\
    Api.findProductByBarcode numberToString barcode (inr token) unknown =
      inr (Api.mkApiResponse false None None (Some Api.NO_PRODUCT_MESSAGE)) /\
    Api.TIMEOUT_MESSAGE <> Api.NO_PRODUCT_MESSAGE /\
    Api.TIMEOUT_MESSAGE <> Api.NOT_FOUND_MESSAGE /\
    Dispatcher.lookupSettled barcode
      (Api.findProductByBarcode numberToString barcode (inr token) slow)
      = [AlertNotFound barcode] /\
    Dispatcher.lookupSettled barcode
      (Api.findProductByBarcode numberToString barcode (inr token) unknown)
      = [AlertNotFound barcode] /\
    VariantA.isProcessing (VariantA.alertDismissed a) = false /\
    VariantB.isProcessing (VariantB.alertDismissed b) = false.
Proof.
  intros nts barcode token late answer a b. cbv zeta.
  rewrite findProductByBarcode_timeout by (cbn [Api.settlesAfter]; lia).
  repeat split; discriminate.
Qed.

(* ===================================================================== *)
(** * Further properties of the code *)
(* ===================================================================== *)

(** ** The other endpoints of services/api *)

(** The formatters agree up to the text of the cover link: both build it
    the same way and fail the same way. *)
Ltac cover_cases :=
  cbn [JS.bind JS.ret];
  match goal with
  | |- context [JS.truthy (JS.prop ?p "coverUrlThumb")] =>
      destruct (JS.truthy (JS.prop p "coverUrlThumb"));
      [destruct (JS.toString _ (JS.prop p "coverUrlThumb"))|]; reflexivity
  end.

Section Endpoints.
Import JS Api Catalog.
Variable numberToString : Q -> string.

Lemma fetchJson_parsed (notJson : string) (f : Fetch) (response : Response)
      (apiResponse : value) :
  settlesAfter f < TIMEOUT_MS ->
  settlesWith f = inr response ->
  ok response = true ->
  json response = Some apiResponse ->
  fetchJson notJson f = inr apiResponse.
Proof.
  intros Hfast Hresp Hok Hjson. unfold fetchJson, fetchWithAbort.
  destruct (Z.leb_spec TIMEOUT_MS (settlesAfter f)); [lia|].
  rewrite Hresp. cbn [bind]. rewrite Hok, Hjson. reflexivity.
Qed.

Lemma fetchJson_late (notJson : string) (f : Fetch) :
  TIMEOUT_MS <= settlesAfter f ->
  fetchJson notJson f = inl (ErrorObject "AbortError" "Aborted").
Proof.
  intros Hlate. unfold fetchJson, fetchWithAbort.
  destruct (Z.leb_spec TIMEOUT_MS (settlesAfter f)); [reflexivity | lia].
Qed.

(** The two formatters on one payload entry. *)
Lemma formatSearchProduct_formatProduct (product : value) :
  formatSearchProduct numberToString product =
    bind (formatProduct numberToString product)
         (fun a => ret (withFeatures (searchFeatures product) a)).
Proof.
  destruct (nullish product) eqn:Hn.
  - destruct product; try discriminate Hn; reflexivity.
  - unfold formatSearchProduct, formatProduct, productFields, searchFeatures.
    rewrite !(get_ok product) by exact Hn. cbn [bind].
    assert (Hf : (if truthy (prop product "features") && isArray (prop product "features")
                  then objectValues (prop product "features") else [])
                 = match prop product "features" with
                   | VArray items => items
                   | _ => []
                   end).
    { destruct (prop product "features"); cbn; rewrite ?andb_false_r; reflexivity. }
    rewrite Hf.
    destruct (truthy (prop product "storeStocks") && isArray (prop product "storeStocks")).
    + destruct (mapM _ _); [reflexivity | cover_cases].
    + destruct (truthy (prop product "shelf") && isArray (prop product "shelf")).
      * destruct (mapM _ _); [reflexivity | cover_cases].
      * cover_cases.
Qed.

Lemma formatSearchProduct_ok (product : value) :
  Spec.formattable product ->
  exists r, formatSearchProduct numberToString product = inr r.
Proof.
  intros Hf. destruct (formatProduct_ok numberToString product Hf) as [a Ha].
  rewrite formatSearchProduct_formatProduct, Ha. cbn. eauto.
Qed.

Lemma arrayOf_spec (v : value) :
  arrayOf v = match v with VArray items => Some items | _ => None end.
Proof. destruct v; reflexivity. Qed.

Lemma selectList_total (key : string) (apiResponse : value) :
  nullish apiResponse = false -> exists items, selectList key apiResponse = inr items.
Proof.
  intros Hn. unfold selectList. rewrite !(get_ok apiResponse) by exact Hn. cbn [bind].
  destruct (arrayOf (prop apiResponse "data")); [eauto|].
  destruct (arrayOf (prop apiResponse key)); [eauto|].
  destruct apiResponse; try discriminate Hn; cbn [bind ret];
    try (destruct (arrayOf _); eauto); eauto.
Qed.

Lemma selectModels_total (apiResponse : value) :
  nullish apiResponse = false -> exists items, selectModels apiResponse = inr items.
Proof.
  intros Hn. unfold selectModels. rewrite !(get_ok apiResponse) by exact Hn. cbn [bind].
  destruct (arrayOf (prop apiResponse "data")); [eauto|].
  destruct apiResponse; try discriminate Hn; cbn [bind ret];
    try (destruct (arrayOf _); eauto); eauto.
Qed.

End Endpoints.

(** X1. On every payload entry the formatter of [searchProducts] builds what
    [formatProduct] of [findProductByBarcode] builds, or throws what it
    throws, except for the features: it keeps features given as an array and
    drops features given as an object, whose values [formatProduct] lists. *)
Theorem X1_search_formatter_agrees_except_features :
  forall (numberToString : Q -> string) (product : JS.value),
    Catalog.formatSearchProduct numberToString product =
      JS.bind (Api.formatProduct numberToString product)
              (fun a => JS.ret (Catalog.withFeatures (Catalog.searchFeatures product) a)) /\
    ((forall props, JS.prop product "features" <> JS.VObject props) ->
     Catalog.formatSearchProduct numberToString product =
       Api.formatProduct numberToString product).
Proof.
  intros nts product. split; [apply formatSearchProduct_formatProduct|].
  intros Hobj. rewrite formatSearchProduct_formatProduct.
  destruct (JS.nullish product) eqn:Hn.
  - destruct product; try discriminate Hn; reflexivity.
  - unfold Api.formatProduct, Catalog.searchFeatures, Catalog.withFeatures.
    rewrite !(get_ok product) by exact Hn. cbn [JS.bind].
    assert (Hf : (if JS.truthy (JS.prop product "features")
                  then if JS.isArray (JS.prop product "features")
                       then JS.objectValues (JS.prop product "features")
                       else if JS.typeofObject (JS.prop product "features")
                            then JS.objectValues (JS.prop product "features")
                            else []
                  else [])
                 = match JS.prop product "features" with
                   | JS.VArray items => items
                   | _ => []
                   end).
    { destruct (JS.prop product "features") eqn:Ef; cbn;
        try reflexivity; try (destruct (JS.truthy _); reflexivity).
      - destruct b; reflexivity.
      - destruct (negb _); reflexivity.
      - destruct (negb _); reflexivity.
      - exfalso. exact (Hobj _ eq_refl). }
    rewrite Hf.
    destruct (JS.truthy (JS.prop product "storeStocks")
              && JS.isArray (JS.prop product "storeStocks")).
    + destruct (JS.mapM _ _); [reflexivity | cover_cases].
    + destruct (JS.truthy (JS.prop product "shelf")
                && JS.isArray (JS.prop product "shelf")).
      * destruct (JS.mapM _ _); [reflexivity | cover_cases].
      * cover_cases.
Qed.

Lemma X1_search_formatter_agrees_except_features_witness :
  Catalog.formatSearchProduct Spec.printInteger Spec.sampleVariation =
    Api.formatProduct Spec.printInteger Spec.sampleVariation.
Proof.
  apply (proj2 (X1_search_formatter_agrees_except_features
                  Spec.printInteger Spec.sampleVariation)).
  intros props. discriminate.
Defined.

Lemma mapM_null_throws {B : Type} (g : JS.value -> JS.M B) (l : list JS.value) :
  (forall a, JS.nullish a = true -> exists e, g a = inl e) ->
  Exists (fun a => JS.nullish a = true) l ->
  exists e, JS.mapM g l = inl e.
Proof.
  intros Hg. induction 1 as [a l Ha | a l _ [e IH]]; cbn [JS.mapM].
  - destruct (Hg a Ha) as [e ->]. cbn [JS.bind]. eauto.
  - destruct (g a) as [e1|b]; cbn [JS.bind]; [eauto|]. rewrite IH. cbn [JS.bind]. eauto.
Qed.

(** X2. For an OK response, received in time, whose body parses to a
    value other than null, [searchProducts] reads the list
    [data || variations].  When that is not an array (also when a truthy
    [data] that is no array hides a [variations] array) the answer is success
    with the empty list.  When it is an array whose entries are all
    formattable (not null, no null store stock, printable cover link and
    stocks) the answer is success with one formatted record per entry, in
    order.  When the array holds a null entry the answer is success = false
    with an error text, and nothing is thrown. *)
Theorem X2_search_answers_success_with_formatted_list :
  forall (numberToString : Q -> string) (token : option string) (f : Api.Fetch)
         (response : Api.Response) (apiResponse : JS.value),
    Api.settlesAfter f < Api.TIMEOUT_MS ->
    Api.settlesWith f = inr response ->
    Api.ok response = true ->
    Api.json response = Some apiResponse ->
    JS.nullish apiResponse = false ->
    let chosen := JS.or (JS.prop apiResponse "data") (JS.prop apiResponse "variations") in
    (JS.isArray chosen = false ->
     Catalog.searchProducts numberToString (inr token) f =
       inr (Reply.mk true (Some []) None)) /\
    (forall items,
        chosen = JS.VArray items ->
        (Forall Spec.formattable items ->
         exists products,
           Forall2 (fun item p => Catalog.formatSearchProduct numberToString item = inr p)
                   items products /\
           Catalog.searchProducts numberToString (inr token) f =
             inr (Reply.mk true (Some products) None)) /\
        (Exists (fun item => JS.nullish item = true) items ->
         exists message,
           Catalog.searchProducts numberToString (inr token) f =
             inr (Reply.mk false None (Some message)))).
Proof.
  intros nts token f response apiResponse Hfast Hresp Hok Hjson Hn chosen.
  assert (Hrun : Catalog.searchProducts nts (inr token) f =
                 JS.try_catch
                   (JS.bind (if JS.truthy chosen && JS.isArray chosen
                             then JS.mapM (Catalog.formatSearchProduct nts)
                                          (JS.objectValues chosen)
                             else JS.ret [])
                            (fun products => JS.ret (Reply.mk true (Some products) None)))
                   (Catalog.catchWith Api.TIMEOUT_MESSAGE Catalog.SEARCH_FAILED_MESSAGE)).
  { unfold Catalog.searchProducts, Catalog.searchTryBlock. cbn [JS.bind].
    rewrite (fetchJson_parsed _ f response apiResponse) by assumption.
    cbn [JS.bind]. rewrite !(get_ok apiResponse) by exact Hn. cbn [JS.bind].
    unfold chosen, JS.or.
    destruct (JS.truthy (JS.prop apiResponse "data")); reflexivity. }
  rewrite Hrun. split.
  - intros Harr. rewrite Harr, andb_false_r. reflexivity.
  - intros items Hitems. rewrite Hitems.
    cbn [JS.truthy JS.isArray andb JS.objectValues]. split.
    + intros Hall.
      destruct (mapM_ok (Catalog.formatSearchProduct nts) items) as (ps & Hps & Hzip).
      { revert Hall. apply Forall_impl. intros item. apply formatSearchProduct_ok. }
      rewrite Hps. exists ps. split; [exact Hzip | reflexivity].
    + intros Hnull.
      destruct (mapM_null_throws (Catalog.formatSearchProduct nts) items) as [e ->];
        [|exact Hnull|].
      * intros a Ha. destruct a; try discriminate Ha; eexists; reflexivity.
      * cbn [JS.bind JS.try_catch]. unfold Catalog.catchWith.
        destruct e as [name message|]; [|eauto].
        destruct (String.eqb name "AbortError"); eauto.
Qed.

Lemma X2_search_answers_success_with_formatted_list_witness :
  Catalog.searchProducts Spec.printInteger (inr None)
    (Samples.quick Samples.hiddenVariations)
  = inr (Reply.mk true (Some []) None) /\
  (exists products,
    Forall2 (fun item p => Catalog.formatSearchProduct Spec.printInteger item = inr p)
            [Spec.sampleVariation; JS.VObject []] products /\
    Catalog.searchProducts Spec.printInteger (inr None) (Samples.quick Samples.dataList)
    = inr (Reply.mk true (Some products) None)) /\
  (exists message,
    Catalog.searchProducts Spec.printInteger (inr None) (Samples.quick Samples.nullEntry)
    = inr (Reply.mk false None (Some message))).
Proof.
  split; [|split].
  - apply (proj1 (X2_search_answers_success_with_formatted_list
                    Spec.printInteger None (Samples.quick Samples.hiddenVariations)
                    (Spec.answered Samples.hiddenVariations) Samples.hiddenVariations
                    eq_refl eq_refl eq_refl eq_refl eq_refl)).
    reflexivity.
  - apply (proj1 (proj2 (X2_search_answers_success_with_formatted_list
                    Spec.printInteger None (Samples.quick Samples.dataList)
                    (Spec.answered Samples.dataList) Samples.dataList
                    eq_refl eq_refl eq_refl eq_refl eq_refl)
                 [Spec.sampleVariation; JS.VObject []] eq_refl)).
    repeat constructor.
  - apply (proj2 (proj2 (X2_search_answers_success_with_formatted_list
                    Spec.printInteger None (Samples.quick Samples.nullEntry)
                    (Spec.answered Samples.nullEntry) Samples.nullEntry
                    eq_refl eq_refl eq_refl eq_refl eq_refl)
                 [JS.VNull] eq_refl)).
    constructor. reflexivity.
Defined.

(** X3. The request body of [searchProducts]: fifty items per page; a
    category, brand or model id is sent in the filters exactly when it is
    given and is not zero; the stock option is sent whenever it is given, the
    empty string included; the store-stock switch and limit default to false
    and 1. *)
Theorem X3_search_request_body :
  forall a : Catalog.SearchArgs,
    let body := Catalog.searchRequestBody a in
    let filters := JS.prop body "filters" in
    let sent (id : option Q) :=
      match id with
      | Some n => if Qeq_bool n 0 then JS.VUndefined else JS.VNumber n
      | None => JS.VUndefined
      end in
    JS.prop body "itemsPerPage" = JS.VNumber 50 /\
    JS.prop body "search" = JS.VString (Catalog.query a) /\
    JS.prop filters "category_id" = sent (Catalog.categoryId a) /\
    JS.prop filters "brand_id" = sent (Catalog.brandId a) /\
    JS.prop filters "model" = sent (Catalog.modelId a) /\
    JS.prop body "stock_option" =
      match Catalog.stockOption a with
      | Some s => JS.VString s
      | None => JS.VUndefined
      end /\
    JS.prop filters "by_store_stock" =
      JS.VBool (match Catalog.byStoreStock a with Some b => b | None => false end) /\
    JS.prop filters "store_stock_limit" =
      JS.VNumber (match Catalog.storeStockLimit a with Some n => n | None => 1%Q end).
Proof.
  intros [query page categoryId stockOption brandId modelId byStoreStock storeStockLimit].
  cbv zeta. unfold Catalog.searchRequestBody, Catalog.optionalId.
  cbn [Catalog.query Catalog.page Catalog.categoryId Catalog.stockOption
       Catalog.brandId Catalog.modelId Catalog.byStoreStock Catalog.storeStockLimit
       JS.truthy].
  destruct categoryId as [c|]; [destruct (Qeq_bool c 0)|];
    (destruct brandId as [b|]; [destruct (Qeq_bool b 0)|]);
    (destruct modelId as [m|]; [destruct (Qeq_bool m 0)|]);
    destruct stockOption; repeat split; reflexivity.
Qed.

(** X4. For an OK response, received in time, whose body parses to a
    value other than null, [getBrands], [getCategories] and [getDeviceModels]
    always answer success with a list; a [data] array in the body is returned
    as it is, whatever else the body holds, and a body that is itself an array
    is returned as it is.  No entry of the list is inspected. *)
Theorem X4_list_endpoints_answer :
  forall (key fallback keysMessage : string) (token : option string) (f : Api.Fetch)
         (response : Api.Response) (apiResponse : JS.value),
    Api.settlesAfter f < Api.TIMEOUT_MS ->
    Api.settlesWith f = inr response ->
    Api.ok response = true ->
    Api.json response = Some apiResponse ->
    JS.nullish apiResponse = false ->
    (exists items,
        Catalog.getList key fallback keysMessage (inr token) f =
          inr (Reply.mk true (Some items) None)) /\
    (exists items,
        Catalog.getDeviceModels (inr token) f = inr (Reply.mk true (Some items) None)) /\
    (forall items,
        JS.prop apiResponse "data" = JS.VArray items \/ apiResponse = JS.VArray items ->
        Catalog.getList key fallback keysMessage (inr token) f =
          inr (Reply.mk true (Some items) None) /\
        Catalog.getDeviceModels (inr token) f = inr (Reply.mk true (Some items) None)).
Proof.
  intros key fallback keysMessage token f response apiResponse Hfast Hresp Hok Hjson Hn.
  assert (HL : Catalog.getList key fallback keysMessage (inr token) f =
               JS.try_catch
                 (JS.bind (Catalog.selectList key apiResponse)
                    (fun items => JS.ret (Reply.mk true (Some items) None)))
                 (Catalog.catchWith Api.TIMEOUT_MESSAGE fallback)).
  { unfold Catalog.getList. cbn [JS.bind].
    rewrite (fetchJson_parsed _ f response apiResponse) by assumption.
    cbn [JS.bind]. unfold Catalog.objectKeysCheck. rewrite Hn. reflexivity. }
  assert (HM : Catalog.getDeviceModels (inr token) f =
               JS.try_catch
                 (JS.bind (Catalog.selectModels apiResponse)
                    (fun items => JS.ret (Reply.mk true (Some items) None)))
                 (Catalog.catchWith Catalog.TIMEOUT_MESSAGE_MODELS
                    Catalog.MODELS_FAILED_MESSAGE)).
  { unfold Catalog.getDeviceModels. cbn [JS.bind].
    rewrite (fetchJson_parsed _ f response apiResponse) by assumption.
    reflexivity. }
  rewrite HL, HM. split; [|split].
  - destruct (selectList_total key apiResponse Hn) as [items ->]. cbn. eauto.
  - destruct (selectModels_total apiResponse Hn) as [items ->]. cbn. eauto.
  - intros items [Hdata | Hself].
    + unfold Catalog.selectList, Catalog.selectModels.
      rewrite !(get_ok apiResponse) by exact Hn. cbn [JS.bind].
      rewrite Hdata. split; reflexivity.
    + subst apiResponse. split; reflexivity.
Qed.

Lemma X4_list_endpoints_answer_witness :
  Catalog.getBrands "Object.keys" (inr None)
    (Samples.quick (JS.VArray [JS.VNumber 1; JS.VNull]))
  = inr (Reply.mk true (Some [JS.VNumber 1; JS.VNull]) None) /\
  Catalog.getDeviceModels (inr None)
    (Samples.quick (JS.VArray [JS.VNumber 1; JS.VNull]))
  = inr (Reply.mk true (Some [JS.VNumber 1; JS.VNull]) None).
Proof.
  apply (proj2 (proj2 (X4_list_endpoints_answer
                         "brands" Catalog.BRANDS_FAILED_MESSAGE "Object.keys" None
                         (Samples.quick (JS.VArray [JS.VNumber 1; JS.VNull]))
                         (Spec.answered (JS.VArray [JS.VNumber 1; JS.VNull]))
                         (JS.VArray [JS.VNumber 1; JS.VNull])
                         eq_refl eq_refl eq_refl eq_refl eq_refl))).
  right. reflexivity.
Defined.

(** X5. [getDeviceModels] chooses its list as [getBrands] would with the key
    [models], on every body in which [result] is not an array: checking the
    body itself before or after the named key makes no difference, and
    [result] is the one place [getDeviceModels] does not look. *)
Theorem X5_models_selection_is_list_selection :
  forall apiResponse : JS.value,
    JS.isArray (JS.prop apiResponse "result") = false ->
    Catalog.selectModels apiResponse = Catalog.selectList "models" apiResponse.
Proof.
  intros apiResponse Hresult.
  destruct (JS.nullish apiResponse) eqn:Hn.
  - destruct apiResponse; try discriminate Hn; reflexivity.
  - unfold Catalog.selectModels, Catalog.selectList.
    rewrite !(get_ok apiResponse) by exact Hn. cbn [JS.bind].
    destruct (Catalog.arrayOf (JS.prop apiResponse "data")); [reflexivity|].
    assert (Hr : Catalog.arrayOf (JS.prop apiResponse "result") = None).
    { rewrite arrayOf_spec. destruct (JS.prop apiResponse "result");
        try reflexivity; discriminate Hresult. }
    destruct apiResponse; try discriminate Hn; cbn [JS.prop Catalog.arrayOf];
      try reflexivity.
    cbn [JS.prop] in Hr.
    destruct (Catalog.arrayOf (JS.lookup "models" props)); [reflexivity|].
    rewrite Hr. reflexivity.
Qed.

Lemma X5_models_selection_is_list_selection_witness :
  Catalog.selectModels (JS.VObject [("models"%string, JS.VArray [JS.VNumber 3])]) =
  Catalog.selectList "models" (JS.VObject [("models"%string, JS.VArray [JS.VNumber 3])]).
Proof.
  apply (X5_models_selection_is_list_selection
           (JS.VObject [("models"%string, JS.VArray [JS.VNumber 3])])).
  reflexivity.
Defined.

(** X6. Every endpoint with an abort timer answers a fetch that has not
    settled after 30 s with success = false and a timeout text, whatever the
    server would have sent: the text of [findProductByBarcode] for
    [searchProducts], [sendProductIdToService], [getBrands] and
    [getCategories], and a text of its own, without the seconds, for
    [getDeviceModels]. *)
Theorem X6_late_fetch_times_out_everywhere :
  forall (numberToString : Q -> string) (token : option string) (late : N)
         (answer : JS.M Api.Response) (keysMessage : string),
    let slow := Api.mkFetch (Api.TIMEOUT_MS + Z.of_N late) answer in
    Catalog.searchProducts numberToString (inr token) slow =
      inr (Reply.mk false None (Some Api.TIMEOUT_MESSAGE)) /\
    Catalog.sendProductIdToService numberToString (inr token) slow =
      inr (Api.mkApiResponse false None None (Some Api.TIMEOUT_MESSAGE)) /\
    Catalog.getBrands keysMessage (inr token) slow =
      inr (Reply.mk false None (Some Api.TIMEOUT_MESSAGE)) /\
    Catalog.getCategories keysMessage (inr token) slow =
      inr (Reply.mk false None (Some Api.TIMEOUT_MESSAGE)) /\
    Catalog.getDeviceModels (inr token) slow =
      inr (Reply.mk false None (Some Catalog.TIMEOUT_MESSAGE_MODELS)) /\
    Catalog.TIMEOUT_MESSAGE_MODELS <> Api.TIMEOUT_MESSAGE.
Proof.
  intros nts token late answer keysMessage slow.
  assert (Hlate : Api.TIMEOUT_MS <= Api.settlesAfter slow)
    by (unfold slow; cbn [Api.settlesAfter]; lia).
  unfold Catalog.searchProducts, Catalog.searchTryBlock,
    Catalog.sendProductIdToService, Catalog.serviceTryBlock,
    Catalog.getBrands, Catalog.getCategories, Catalog.getList, Catalog.getDeviceModels.
  cbn [JS.bind]. rewrite !(fetchJson_late _ slow Hlate).
  repeat split. discriminate.
Qed.

(** X7. [sendFeedback] never throws, whatever the token lookup and the
    fetch do.  It calls [fetch] only with a non-empty token and answers
    "Oturum bulunamadı" without one; it answers success exactly when it
    calls [fetch] and the fetch resolves with an OK status. *)
Theorem X7_send_feedback_outcomes :
  forall (token : JS.M (option string)) (fetched : JS.M Api.Response),
    exists reply,
      Catalog.sendFeedback token fetched = inr reply /\
      (Reply.success reply = true <->
       Catalog.feedbackFetches token = true /\
       exists response, fetched = inr response /\ Api.ok response = true) /\
      (forall tok, token = inr tok -> Catalog.feedbackFetches token = false ->
                   reply = Reply.mk false None (Some Catalog.NO_SESSION_MESSAGE)).
Proof.
  intros token fetched. unfold Catalog.sendFeedback, Catalog.feedbackFetches.
  destruct token as [e | [s|]].
  - destruct e; eexists; (split; [reflexivity|]); split;
      try (intros ? Heq; discriminate Heq);
      (split; [discriminate | intros [H _]; discriminate H]).
  - cbn [JS.bind JS.truthy].
    destruct (negb (s =? EmptyString)%string) eqn:Es.
    + destruct fetched as [e | response].
      * destruct e; eexists; (split; [reflexivity|]); split;
          try (intros ? _ Hf; discriminate Hf);
          (split; [discriminate | intros [_ (r & Hr & _)]; discriminate Hr]).
      * cbn [JS.bind]. destruct (Api.ok response) eqn:Eok; cbn [negb];
          eexists; (split; [reflexivity|]); split;
          try (intros ? _ Hf; discriminate Hf).
        -- split; [intros _; eauto | reflexivity].
        -- split; [discriminate|].
           intros [_ (r & Hr & Hok)]. injection Hr as <-. congruence.
    + eexists. split; [reflexivity|]. split.
      * split; [discriminate | intros [H _]; discriminate H].
      * reflexivity.
  - eexists. split; [reflexivity|]. split.
    + split; [discriminate | intros [H _]; discriminate H].
    + reflexivity.
Qed.

Section ServiceFacts.
Import JS Api Catalog.
Variable numberToString : Q -> string.







End ServiceFacts.



(** X9. On both camera screens the generic error alert ("Hata") is shown
    exactly when reading the token throws: [findProductByBarcode] catches
    every failure of the fetch, of the status check, of the parsing and of the
    formatting, so each of those ends in the not-found alert, and navigation
    happens exactly when the answer has success = true. *)
Theorem X9_error_alert_only_when_token_fails :
  forall (numberToString : Q -> string) (barcode : string)
         (token : JS.M (option string)) (f : Api.Fetch),
    let outcome := Api.findProductByBarcode numberToString barcode token f in
    (Dispatcher.lookupSettled barcode outcome = [AlertError] <->
     exists e, token = inl e) /\
    (Dispatcher.lookupSettled barcode outcome = [Navigate barcode] <->
     exists r, outcome = inr r /\ Api.success r = true) /\
    (Dispatcher.lookupSettled barcode outcome = [AlertNotFound barcode] <->
     exists r, outcome = inr r /\ Api.success r = false).
Proof.
  intros nts barcode token f outcome.
  assert (Hshape : (exists e, token = inl e /\ outcome = inl e) \/
                   (exists tok r, token = inr tok /\ outcome = inr r /\
                                  (Api.success r = true -> Api.data r <> None))).
  { unfold outcome, Api.findProductByBarcode.
    destruct token as [e | tok]; [left; eauto|]. right. cbn [JS.bind].
    unfold Api.tryBlock.
    destruct (Api.fetchWithAbort f) as [e | response]; cbn [JS.bind JS.try_catch JS.ret].
    { exists tok. destruct e as [n m|]; cbn; [destruct (n =? "AbortError")%string|];
        eexists; (split; [reflexivity|]); (split; [reflexivity|]); cbn; discriminate. }
    destruct (negb (Api.ok response)); cbn [JS.bind JS.try_catch JS.ret].
    { exists tok. cbn. eexists. split; [reflexivity|]. split; [reflexivity|].
      cbn. discriminate. }
    destruct (Api.json response) as [api|]; cbn [JS.bind JS.try_catch JS.ret].
    2:{ exists tok. cbn. eexists. split; [reflexivity|]. split; [reflexivity|].
        cbn. discriminate. }
    destruct (Api.selectProducts api) as [e | products] eqn:Esel; cbn [JS.bind JS.try_catch JS.ret].
    { exists tok. destruct e as [n m|]; cbn; [destruct (n =? "AbortError")%string|];
        eexists; (split; [reflexivity|]); (split; [reflexivity|]); cbn; discriminate. }
    destruct (JS.mapM (Api.formatProduct nts) products) as [e | formatted] eqn:Emap;
      cbn [JS.bind JS.try_catch JS.ret].
    { exists tok. destruct e as [n m|]; cbn; [destruct (n =? "AbortError")%string|];
        eexists; (split; [reflexivity|]); (split; [reflexivity|]); cbn; discriminate. }
    exists tok. eexists. split; [reflexivity|]. split; [reflexivity|].
    intros _. cbn [Api.data].
    assert (Hne : products <> []).
    { unfold Api.selectProducts in Esel.
      destruct (JS.get api "variations") as [e | v]; [discriminate Esel|].
      cbn [JS.bind] in Esel.
      destruct (JS.truthy v && JS.isArray v
                && (0 <? List.length (JS.objectValues v))%nat) eqn:Ec.
      - injection Esel as <-. apply andb_prop in Ec. destruct Ec as [_ Hlen].
        apply Nat.ltb_lt in Hlen. intros Hnil. rewrite Hnil in Hlen. cbn in Hlen. lia.
      - destruct (JS.get api "success") as [e | s]; [discriminate Esel|].
        cbn [JS.bind] in Esel.
        destruct (if JS.truthy s then JS.get api "product" else JS.ret s) as [e | p];
          [discriminate Esel|].
        cbn [JS.bind] in Esel. destruct (JS.truthy p); [|discriminate Esel].
        injection Esel as <-. discriminate. }
    destruct products as [|p ps]; [congruence|].
    cbn [JS.mapM] in Emap.
    destruct (Api.formatProduct nts p) as [e | a]; [discriminate Emap|].
    cbn [JS.bind] in Emap.
    destruct (JS.mapM (Api.formatProduct nts) ps) as [e | rest]; [discriminate Emap|].
    injection Emap as <-. discriminate. }
  unfold Dispatcher.lookupSettled.
  destruct Hshape as [(e & Ht & Ho) | (tok & r & Ht & Ho & Hdata)]; rewrite Ho.
  - split; [|split].
    + split; [eauto | reflexivity].
    + split; [discriminate | intros (r & Hr & _); discriminate Hr].
    + split; [discriminate | intros (r & Hr & _); discriminate Hr].
  - destruct (Api.success r) eqn:Es.
    + destruct (Api.data r) eqn:Ed; [|exfalso; apply (Hdata eq_refl); reflexivity].
      cbn [andb]. split; [|split].
      * split; [discriminate | intros (e & He); congruence].
      * split; [eauto | reflexivity].
      * split; [discriminate|]. intros (r' & Hr & Hs). injection Hr as <-. congruence.
    + cbn [andb]. split; [|split].
      * split; [discriminate | intros (e & He); congruence].
      * split; [discriminate|]. intros (r' & Hr & Hs). injection Hr as <-. congruence.
      * split; [eauto | reflexivity].
Qed.

Lemma X7_send_feedback_outcomes_witness :
  exists reply,
    Catalog.sendFeedback (inr (Some EmptyString)) (inr (Spec.answered Spec.sampleEmpty))
      = inr reply /\
    reply = Reply.mk false None (Some Catalog.NO_SESSION_MESSAGE).
Proof.
  destruct (X7_send_feedback_outcomes (inr (Some EmptyString))
              (inr (Spec.answered Spec.sampleEmpty))) as (reply & Hrun & _ & Hnone).
  exists reply. split; [exact Hrun|].
  apply (Hnone (Some EmptyString)); reflexivity.
Defined.

Lemma X9_error_alert_only_when_token_fails_witness :
  Dispatcher.lookupSettled "8690000000017"
    (Api.findProductByBarcode Spec.printInteger "8690000000017"
       (inl JS.OtherThrown) (Samples.quick Spec.sampleFound))
  = [AlertError].
Proof.
  apply (proj1 (X9_error_alert_only_when_token_fails Spec.printInteger "8690000000017"
                  (inl JS.OtherThrown) (Samples.quick Spec.sampleFound))).
  exists JS.OtherThrown. reflexivity.
Defined.

(** X10. The fallback of [findProductByBarcode]: an OK, parsed response
    without a non-empty variations array (an empty one included) but with a
    truthy [success] and a truthy [product] that is formattable (none of its
    store-stock entries is null, and its cover link and the stock of each
    store-stock entry hold no object with a [toString] property of its own)
    gives success = true, with the formatted product as [data] and as the
    only variation. *)
Theorem X10_old_format_fallback :
  forall (numberToString : Q -> string) (barcode : string) (token : option string)
         (f : Api.Fetch) (response : Api.Response) (apiResponse : JS.value),
    Api.settlesAfter f < Api.TIMEOUT_MS ->
    Api.settlesWith f = inr response ->
    Api.ok response = true ->
    Api.json response = Some apiResponse ->
    Spec.hasVariations apiResponse = false ->
    Spec.hasProduct apiResponse = true ->
    Spec.formattable (JS.prop apiResponse "product") ->
    exists p,
      Api.formatProduct numberToString (JS.prop apiResponse "product") = inr p /\
      Api.findProductByBarcode numberToString barcode (inr token) f =
        inr (Api.mkApiResponse true (Some p) (Some [p]) None).
Proof.
  intros nts barcode token f response apiResponse Hfast Hresp Hok Hjson Hv Hp Hfmt.
  destruct (formatProduct_ok nts _ Hfmt) as [p Hfp]. exists p. split; [exact Hfp|].
  unfold Api.findProductByBarcode. cbn [JS.bind].
  rewrite (tryBlock_parsed nts f response apiResponse) by assumption.
  assert (Hn : JS.nullish apiResponse = false).
  { destruct apiResponse; try reflexivity; discriminate Hp. }
  unfold Spec.hasProduct in Hp. apply andb_prop in Hp. destruct Hp as [Hs Hpr].
  unfold Api.selectProducts. rewrite !(get_ok apiResponse) by exact Hn. cbn [JS.bind].
  assert (Hcond : JS.truthy (JS.prop apiResponse "variations")
                  && JS.isArray (JS.prop apiResponse "variations")
                  && (0 <? List.length (JS.objectValues (JS.prop apiResponse "variations")))%nat
                  = false).
  { revert Hv. unfold Spec.hasVariations.
    destruct (JS.prop apiResponse "variations") as [| | | | |[|item items]|];
      intros Hv; cbn; rewrite ?andb_false_r; try reflexivity.
    discriminate Hv. }
  rewrite Hcond, Hs. cbn [JS.bind JS.ret]. rewrite Hpr.
  cbn [JS.bind JS.mapM JS.ret]. rewrite Hfp. reflexivity.
Qed.

Lemma X10_old_format_fallback_witness :
  exists p,
    Api.formatProduct Spec.printInteger Spec.sampleVariation = inr p /\
    Api.findProductByBarcode Spec.printInteger "8690000000017" (inr None)
      (Samples.quick Samples.oldFormat) =
      inr (Api.mkApiResponse true (Some p) (Some [p]) None).
Proof.
  apply (X10_old_format_fallback Spec.printInteger "8690000000017" None
           (Samples.quick Samples.oldFormat) (Spec.answered Samples.oldFormat)
           Samples.oldFormat eq_refl eq_refl eq_refl eq_refl eq_refl eq_refl).
  split; [reflexivity | repeat constructor].
Defined.

(** ** The camera screens, beyond the stated properties *)

Lemma inside_center (w : Scanner.Window Q) (cx cy : Q) :
  (0 <= Scanner.SCREEN_WIDTH w)%Q ->
  (cx == Scanner.SCREEN_WIDTH w / 2)%Q ->
  (cy == Scanner.SCREEN_HEIGHT w / 2)%Q ->
  Scanner.inside w cx cy = true.
Proof.
  destruct w as [W H]. cbn [Scanner.SCREEN_WIDTH Scanner.SCREEN_HEIGHT].
  intros HW Hx Hy. unfold Scanner.inside.
  unfold Scanner.SCAN_FRAME_RIGHT, Scanner.SCAN_FRAME_BOTTOM, Scanner.SCAN_FRAME_LEFT,
    Scanner.SCAN_FRAME_TOP, Scanner.FRAME_SIZE.
  cbn [Scanner.SCREEN_WIDTH Scanner.SCREEN_HEIGHT Arith.add Arith.sub Arith.mul
       Arith.div Arith.leb Arith.two Arith.seven_tenths Arith.ExactNumber].
  rewrite !andb_true_iff, !Qle_bool_iff.
  rewrite Hx, Hy. unfold Qdiv. change (/ 2)%Q with (1 # 2)%Q.
  repeat match goal with |- _ /\ _ => split end; lra.
Qed.

(** X12. In exact arithmetic, a code with a non-empty value whose
    screen-space centre is the centre of the window is accepted by the frame
    filter's predicate, in every window of non-negative width: in variant A
    and, off iOS, in variant B when its bounding box is centred on the window;
    on iOS with a camera format of positive edges when its bounding box is
    centred on the sensor. *)
Theorem X12_centred_code_is_accepted :
  forall (w : Scanner.Window Q) (v : string) (f : Scanner.Frame Q)
         (format : option (VariantB.Format Q)) (fmt : VariantB.Format Q),
    (0 <= Scanner.SCREEN_WIDTH w)%Q ->
    v <> EmptyString ->
    let code := Scanner.mkCode (Some v) (Some f) in
    ((Scanner.boxCenterX f == Scanner.SCREEN_WIDTH w / 2)%Q ->
     (Scanner.boxCenterY f == Scanner.SCREEN_HEIGHT w / 2)%Q ->
     VariantA.isValidCode w code = true /\
     VariantB.isValidCode w VariantB.android format code = true) /\
    ((0 < VariantB.videoWidth fmt)%Q ->
     (0 < VariantB.videoHeight fmt)%Q ->
     (Scanner.boxCenterX f
      == Arith.max (VariantB.videoWidth fmt) (VariantB.videoHeight fmt) / 2)%Q ->
     (Scanner.boxCenterY f
      == Arith.min (VariantB.videoWidth fmt) (VariantB.videoHeight fmt) / 2)%Q ->
     VariantB.isValidCode w VariantB.ios (Some fmt) code = true).
Proof.
  intros w v f format fmt HW Hv code.
  assert (Ht : Scanner.truthy_value (Some v) = true)
    by (apply truthy_value_spec; eauto).
  split.
  - intros Hx Hy. unfold VariantA.isValidCode, VariantB.isValidCode, code.
    cbn [Scanner.value Scanner.frame VariantB.screenCenter]. rewrite Ht. cbn [negb].
    split; apply inside_center; assumption.
  - intros Hvw Hvh Hx Hy. unfold VariantB.isValidCode, code.
    cbn [Scanner.value Scanner.frame VariantB.screenCenter]. rewrite Ht. cbn [negb].
    cbn [Arith.max Arith.min Arith.ExactNumber] in *.
    set (camLong := Arith.Exact.max (VariantB.videoWidth fmt) (VariantB.videoHeight fmt)) in *.
    set (camShort := Arith.Exact.min (VariantB.videoWidth fmt) (VariantB.videoHeight fmt)) in *.
    assert (HL : (0 < camLong)%Q).
    { unfold camLong, Arith.Exact.max.
      destruct (Qle_bool (VariantB.videoWidth fmt) (VariantB.videoHeight fmt)); assumption. }
    assert (HS : (0 < camShort)%Q).
    { unfold camShort, Arith.Exact.min.
      destruct (Qle_bool (VariantB.videoWidth fmt) (VariantB.videoHeight fmt)); assumption. }
    unfold Scanner.boxCenterX, Scanner.boxCenterY in Hx, Hy.
    cbn [Arith.add Arith.div Arith.mul Arith.two Arith.ExactNumber] in *.
    apply inside_center; [exact HW | rewrite Hy | rewrite Hx]; field;
      intros E; [rewrite E in HS; revert HS | rewrite E in HL; revert HL];
      apply Qlt_irrefl.
Qed.

(** The same in doubles, by computation, for the windows of whole width up
    to 800 and whole height up to 1400: a box centred on the window is
    accepted by variant A and, off iOS, by variant B, and a box centred on a
    1920x1080 sensor is accepted by variant B on iOS. *)
Lemma centred_code_is_accepted_in_doubles :
  FrameSamples.forWindows 800 1400 (fun w =>
    VariantA.isValidCode w (FrameSamples.code (FrameSamples.centredOn w))
    && VariantB.isValidCode w VariantB.android None
         (FrameSamples.code (FrameSamples.centredOn w))
    && VariantB.isValidCode w VariantB.ios (Some FrameSamples.format1080)
         (FrameSamples.code FrameSamples.boxOnSensor)) = true.
Proof.
  vm_compute. reflexivity.
Qed.

Lemma X12_centred_code_is_accepted_witness :
  let w := (Scanner.mkWindow 400 800)%Q in
  (VariantA.isValidCode w
     (Scanner.mkCode (Some "8690000000017"%string)
        (Some (Scanner.mkFrame 910 490 100 100)%Q)) = false) /\
  VariantB.isValidCode w VariantB.ios (Some (VariantB.mkFormat 1920 1080)%Q)
    (Scanner.mkCode (Some "8690000000017"%string)
       (Some (Scanner.mkFrame 910 490 100 100)%Q)) = true.
Proof.
  split; [reflexivity|].
  apply (proj2 (X12_centred_code_is_accepted (Scanner.mkWindow 400 800)%Q
                  "8690000000017" (Scanner.mkFrame 910 490 100 100)%Q None
                  (VariantB.mkFormat 1920 1080)%Q ltac:(vm_compute; discriminate)
                  ltac:(discriminate))); reflexivity.
Defined.

Lemma confirms_after_pair (pre : list string) (v : string) :
  VariantA.confirms (pre ++ [v; v]) v = true.
Proof.
  unfold VariantA.confirms. rewrite slice_last_rev, !rev_app_distr.
  cbn [rev app VariantA.CONFIRM_COUNT firstn forallb List.length Nat.leb].
  rewrite String.eqb_refl. reflexivity.
Qed.

(** X13. In variant A a read calls the lookup exactly when no lookup is
    being processed, the cooldown has passed and the two values buffered last
    both equal the value read, whatever lies before them in the buffer; the
    lookup is then called with the value read, and nothing else is ever
    called by a read. *)
Theorem X13_lookup_exactly_on_third_equal_value :
  forall (st : VariantA.state) (now : Z) (v : string),
    (snd (VariantA.handleBarcodeScanned now v st) = [Lookup v] <->
     VariantA.isProcessing st = false /\
     VariantA.SCAN_COOLDOWN <= now - VariantA.lastScanTime st /\
     exists pre, VariantA.barcodeBuffer st = pre ++ [v; v]) /\
    (snd (VariantA.handleBarcodeScanned now v st) = [] \/
     snd (VariantA.handleBarcodeScanned now v st) = [Lookup v]).
Proof.
  intros st now v. split.
  - destruct (VariantA.isProcessing st) eqn:Hp.
    { rewrite handleA_processing by exact Hp. cbn.
      split; [discriminate | intros [H _]; discriminate H]. }
    destruct (Z.lt_ge_cases (now - VariantA.lastScanTime st) VariantA.SCAN_COOLDOWN)
      as [Hc | Hc].
    { rewrite handleA_cooldown by exact Hc. cbn.
      split; [discriminate | intros (_ & H & _); lia]. }
    rewrite handleA_accepted by assumption.
    destruct (VariantA.confirms (VariantA.barcodeBuffer st) v) eqn:Ec; cbn [snd].
    + split; [|reflexivity]. intros _.
      split; [reflexivity|]. split; [exact Hc|].
      apply confirms_ends_with_pair. exact Ec.
    + split; [discriminate|]. intros (_ & _ & pre & Hpre).
      rewrite Hpre, confirms_after_pair in Ec. discriminate Ec.
  - destruct (handleA_calls now v st) as [H | [H _]]; auto.
Qed.

Lemma X13_lookup_exactly_on_third_equal_value_witness :
  snd (VariantA.handleBarcodeScanned 5000 "A"
         (VariantA.mkState false true 1 2200 ["B"; "A"; "A"]%string (Some 4700)))
  = [Lookup "A"].
Proof.
  apply (proj1 (X13_lookup_exactly_on_third_equal_value
                  (VariantA.mkState false true 1 2200 ["B"; "A"; "A"]%string (Some 4700))
                  5000 "A")).
  split; [reflexivity|]. split; [clock|]. exists ["B"%string]. reflexivity.
Defined.

Section Blocked.
Import Machine.
Context {S : Type} `{Screen S}.

Hypothesis scanned_gate :
  forall now b s, processing s = true -> scanned now b s = (s, []).
Hypothesis timer_keeps :
  forall s, processing (fst (timerFired s)) = processing s /\ snd (timerFired s) = [].
Hypothesis blur_keeps :
  forall s, processing (blurred s) = processing s.


End Blocked.



(** ** The product list screen *)

Section ListFacts.
Import ProductList ListSpec.

Lemma loadMore_open (st : state) :
  isLoadingMore st = false -> hasMore st = true -> isLoading st = false ->
  1 <= currentPage st ->
  loadMoreProducts st =
    (setCurrentPage (currentPage st + 1) (setIsLoadingMore true st),
     [Request (searchQuery st) (currentPage st + 1) (stockOption st)]).
Proof.
  intros Hm Hh Hl Hc. unfold loadMoreProducts, loadProductsStart.
  rewrite Hm, Hh, Hl. cbn [negb andb].
  destruct (Z.eqb_spec (currentPage st + 1) 1); [lia | reflexivity].
Qed.

Lemma loadMore_closed (st : state) :
  hasMore st = false -> loadMoreProducts st = (st, []).
Proof.
  intros Hh. unfold loadMoreProducts. rewrite Hh, andb_false_r. reflexivity.
Qed.

Lemma morePages_closed (outcomes : list (JS.M (Reply.t (list Product.t)))) (st : state) :
  hasMore st = false -> morePages outcomes st = (st, []).
Proof.
  intros Hh. induction outcomes as [|o rest IH]; [reflexivity|].
  cbn [morePages]. unfold morePage. rewrite loadMore_closed by exact Hh.
  rewrite IH. reflexivity.
Qed.

(** One round on an open list: the next page is requested and its answer
    applied. *)
Lemma morePage_open (outcome : JS.M (Reply.t (list Product.t))) (st : state) :
  isLoadingMore st = false -> hasMore st = true -> isLoading st = false ->
  1 <= currentPage st ->
  morePage outcome st =
    (mkState (match pageOf outcome with
              | Some d => products st ++ d
              | None => products st
              end)
             false (searchQuery st) (isSearching st) (stockOption st)
             (currentPage st + 1)
             (match pageOf outcome with
              | Some d => (List.length d =? PAGE_SIZE)%nat
              | None => false
              end)
             false (searchTimer st) (lastScrollY st),
     [Request (searchQuery st) (currentPage st + 1) (stockOption st)]).
Proof.
  intros Hm Hh Hl Hc. unfold morePage. rewrite loadMore_open by assumption.
  unfold loadMoreSettled, loadProductsSettled, pageOf.
  destruct (Z.eqb_spec (currentPage st + 1) 1); [lia|].
  destruct outcome as [e | [success data error]];
    [|destruct success, data];
    cbn [Reply.success Reply.data];
    unfold setIsLoadingMore, setHasMore, setProducts, setCurrentPage, setIsLoading;
    cbn [products isLoading searchQuery isSearching stockOption currentPage hasMore
         isLoadingMore searchTimer lastScrollY];
    rewrite Hl; reflexivity.
Qed.

End ListFacts.

(** X15. Infinite scroll on the product list.  From a list that is not
    loading, has more to load and stands at page c >= 1, a run of rounds in
    which the end of the list is reached and the requested page arrives, every
    page but the last being full (50 records), requests the pages c+1, c+2,
    ... in order, each with the query and stock option then held, and leaves
    the list holding the old products followed by the pages in the order they
    were requested. *)
Theorem X15_pages_are_appended_in_order :
  forall (pages : list (list Product.t)) (st : ProductList.state),
    ProductList.isLoadingMore st = false ->
    ProductList.hasMore st = true ->
    ProductList.isLoading st = false ->
    1 <= ProductList.currentPage st ->
    Forall (fun d => List.length d = ProductList.PAGE_SIZE) (removelast pages) ->
    let run := ProductList.morePages (map ListSpec.page pages) st in
    ProductList.products (fst run) = ProductList.products st ++ List.concat pages /\
    ProductList.currentPage (fst run)
      = ProductList.currentPage st + Z.of_nat (List.length pages) /\
    snd run = ListSpec.requests (ProductList.searchQuery st) (ProductList.stockOption st)
                (ProductList.currentPage st) (List.length pages) /\
    ProductList.isLoadingMore (fst run) = false.
Proof.
  induction pages as [|d pages IH]; intros st Hm Hh Hl Hc Hfull; cbv zeta.
  - cbn. rewrite app_nil_r, Z.add_0_r. auto.
  - cbn [map ProductList.morePages].
    rewrite (morePage_open (ListSpec.page d) st) by assumption.
    cbn [ListSpec.pageOf ListSpec.page Reply.success Reply.data].
    destruct pages as [|d2 pages].
    + cbn. rewrite app_nil_r. repeat split; reflexivity.
    + assert (Hd : List.length d = ProductList.PAGE_SIZE).
      { cbn [removelast] in Hfull. inversion Hfull. assumption. }
      assert (Hrest : Forall (fun d => List.length d = ProductList.PAGE_SIZE)
                             (removelast (d2 :: pages))).
      { cbn [removelast] in Hfull. inversion Hfull. assumption. }
      rewrite Hd, Nat.eqb_refl.
      match goal with
      | |- context [ProductList.morePages _ ?s] =>
          specialize (IH s eq_refl eq_refl eq_refl)
      end.
      cbn [ProductList.currentPage ProductList.products ProductList.searchQuery
           ProductList.stockOption] in IH.
      specialize (IH ltac:(lia) Hrest). cbv zeta in IH.
      destruct (ProductList.morePages _ _) as [st2 effs2]. cbn [fst snd] in *.
      destruct IH as (Hp & Hcp & He & Hlm).
      rewrite Hp, Hcp, He. cbn [List.concat List.length ListSpec.requests app].
      rewrite <- app_assoc. repeat split; try reflexivity; try assumption. lia.
Qed.

Lemma X15_pages_are_appended_in_order_witness :
  let run := ProductList.morePages
               (map ListSpec.page [repeat ListSamples.product 50; [ListSamples.product]])
               ListSamples.loaded in
  ProductList.products (fst run)
    = ProductList.products ListSamples.loaded
      ++ List.concat [repeat ListSamples.product 50; [ListSamples.product]] /\
  ProductList.currentPage (fst run) = ProductList.currentPage ListSamples.loaded + Z.of_nat 2 /\
  snd run = ListSpec.requests (ProductList.searchQuery ListSamples.loaded)
              (ProductList.stockOption ListSamples.loaded)
              (ProductList.currentPage ListSamples.loaded) 2 /\
  ProductList.isLoadingMore (fst run) = false.
Proof.
  apply (X15_pages_are_appended_in_order
           [repeat ListSamples.product 50; [ListSamples.product]] ListSamples.loaded);
    try reflexivity.
  repeat constructor.
Defined.

(** X16. The end of the infinite scroll.  When the page requested by
    reaching the end of the list fails (a thrown error, success = false or no
    data) the products already loaded stay in place; when it fails or arrives
    with other than 50 records, [hasMore] is switched off, and from then on
    reaching the end of the list requests nothing, however often it happens
    and whatever would be answered. *)
Theorem X16_short_or_failed_page_ends_the_scroll :
  forall (outcome : JS.M (Reply.t (list Product.t)))
         (later : list (JS.M (Reply.t (list Product.t)))) (st : ProductList.state),
    ProductList.isLoadingMore st = false ->
    ProductList.hasMore st = true ->
    ProductList.isLoading st = false ->
    1 <= ProductList.currentPage st ->
    (forall d, ListSpec.pageOf outcome = Some d -> List.length d <> ProductList.PAGE_SIZE) ->
    let st' := fst (ProductList.morePage outcome st) in
    ProductList.hasMore st' = false /\
    (ListSpec.pageOf outcome = None ->
     ProductList.products st' = ProductList.products st) /\
    ProductList.morePages later st' = (st', []).
Proof.
  intros outcome later st Hm Hh Hl Hc Hshort. cbv zeta.
  rewrite (morePage_open outcome st) by assumption. cbn [fst].
  assert (Hclosed : match ListSpec.pageOf outcome with
                    | Some d => (List.length d =? ProductList.PAGE_SIZE)%nat
                    | None => false
                    end = false).
  { destruct (ListSpec.pageOf outcome) as [d|]; [|reflexivity].
    apply Nat.eqb_neq. apply Hshort. reflexivity. }
  rewrite Hclosed. split; [reflexivity|]. split.
  - intros ->. reflexivity.
  - apply morePages_closed. reflexivity.
Qed.

Lemma X16_short_or_failed_page_ends_the_scroll_witness :
  let st' := fst (ProductList.morePage (inl JS.OtherThrown) ListSamples.loaded) in
  ProductList.hasMore st' = false /\
  (ListSpec.pageOf (inl JS.OtherThrown) = None ->
   ProductList.products st' = ProductList.products ListSamples.loaded) /\
  ProductList.morePages [ListSpec.page [ListSamples.product]] st' = (st', []).
Proof.
  apply (X16_short_or_failed_page_ends_the_scroll (inl JS.OtherThrown)
           [ListSpec.page [ListSamples.product]] ListSamples.loaded);
    try reflexivity.
  intros d Hd. discriminate Hd.
Defined.

Lemma last_cons_default {A : Type} (l : list A) :
  forall x d : A, List.last (x :: l) d = List.last l x.
Proof.
  induction l as [|y l IH]; intros x d; [reflexivity|].
  change (List.last (x :: y :: l) d) with (List.last (y :: l) d).
  rewrite (IH y d), (IH y x). reflexivity.
Qed.

Section SearchFacts.
Import ProductList ListSpec.

Lemma eqb_refl_js (q : JSString.t) : JSString.eqb q q = true.
Proof.
  induction q as [|u q IH]; [reflexivity|].
  cbn. rewrite N.eqb_refl. exact IH.
Qed.

(** A change to a long text while no timer is due: the pending timer is
    replaced, nothing is requested. *)
Lemma typed_long (st : state) (t : Z) (q : JSString.t) :
  match searchTimer st with
  | Some (due, _, _) => t < due
  | None => True
  end ->
  JSString.eqb q (searchQuery st) = false ->
  (2 <= List.length (JSString.trim q))%nat ->
  typed (t, q) st =
    (mkState (products st) (isLoading st) q true (stockOption st) (currentPage st)
             (hasMore st) (isLoadingMore st)
             (Some (t + SEARCH_DEBOUNCE, q, stockOption st)) (lastScrollY st),
     []).
Proof.
  intros Hpending Hne Hlen. unfold typed, expire. cbn [fst snd].
  assert (Hexp : match searchTimer st with
                 | Some (due, _, _) => if due <=? t then searchTimerFired st else (st, [])
                 | None => (st, [])
                 end = (st, [])).
  { destruct (searchTimer st) as [[[due q0] o0]|]; [|reflexivity].
    destruct (Z.leb_spec due t); [lia | reflexivity]. }
  rewrite Hexp. unfold onChangeText. rewrite Hne. unfold searchEffect.
  cbn [searchQuery setSearchTimer setSearchQuery stockOption].
  destruct (Nat.ltb_spec (List.length (JSString.trim q)) 2); [lia|].
  reflexivity.
Qed.

(** The state a burst leaves behind. *)
Lemma burst_pending (changes : list (Z * JSString.t)) :
  forall (st : state) (t : Z) (q : JSString.t),
    searchTimer st = Some (t + SEARCH_DEBOUNCE, q, stockOption st) ->
    searchQuery st = q ->
    isSearching st = true ->
    burst t q changes ->
    snd (typedAll changes st) = [] /\
    let '(tn, qn) := List.last changes (t, q) in
    fst (typedAll changes st) =
      mkState (products st) (isLoading st) qn true (stockOption st) (currentPage st)
              (hasMore st) (isLoadingMore st)
              (Some (tn + SEARCH_DEBOUNCE, qn, stockOption st)) (lastScrollY st).
Proof.
  induction changes as [|[t2 q2] rest IH]; intros st t q Ht Hq Hs Hb.
  - cbn. split; [reflexivity|]. destruct st; cbn in *. subst. reflexivity.
  - cbn [burst] in Hb. destruct Hb as (Hgap & Hne & Hlen & Hrest).
    cbn [typedAll].
    rewrite (typed_long st t2 q2);
      [| rewrite Ht; unfold SEARCH_DEBOUNCE in *; lia | rewrite Hq; exact Hne | exact Hlen].
    match goal with
    | |- context [typedAll rest ?s] => specialize (IH s t2 q2 eq_refl eq_refl eq_refl Hrest)
    end.
    destruct (typedAll rest _) as [st2 effs2]. cbn [fst snd] in *.
    destruct IH as [He Hst]. split; [rewrite He; reflexivity|].
    replace (List.last ((t2, q2) :: rest) (t, q)) with (List.last rest (t2, q2)).
    + exact Hst.
    + symmetry. apply last_cons_default.
Qed.

End SearchFacts.

Section SearchFacts2.
Import ProductList ListSpec.

Lemma typed_short (st : state) (t : Z) (q : JSString.t) :
  match searchTimer st with
  | Some (due, _, _) => t < due
  | None => True
  end ->
  JSString.eqb q (searchQuery st) = false ->
  (List.length (JSString.trim q) < 2)%nat ->
  typed (t, q) st =
    (mkState (products st) true q (isSearching st) (stockOption st) 1 true
             (isLoadingMore st) None (lastScrollY st),
     [Request [] 1 (stockOption st)]).
Proof.
  intros Hpending Hne Hlen. unfold typed, expire. cbn [fst snd].
  assert (Hexp : match searchTimer st with
                 | Some (due, _, _) => if due <=? t then searchTimerFired st else (st, [])
                 | None => (st, [])
                 end = (st, [])).
  { destruct (searchTimer st) as [[[due q0] o0]|]; [|reflexivity].
    destruct (Z.leb_spec due t); [lia | reflexivity]. }
  rewrite Hexp. unfold onChangeText. rewrite Hne. unfold searchEffect.
  cbn [searchQuery setSearchTimer setSearchQuery stockOption].
  destruct (Nat.ltb_spec (List.length (JSString.trim q)) 2); [|lia].
  reflexivity.
Qed.

End SearchFacts2.

(** X17. The search box debounces.  A first change to a text of at least
    two characters (trimmed), followed by a burst of further changes, each to
    a different such text and each less than 500 ms after the one before,
    requests nothing while it lasts; 500 ms after the last change the timer
    requests page 1 once, for the last text, untrimmed, with the stock option
    held, and switches the search indicator off.  The texts in between are
    never requested. *)
Theorem X17_debounce_requests_last_text_once :
  forall (st : ProductList.state) (t1 : Z) (q1 : JSString.t)
         (rest : list (Z * JSString.t)),
    match ProductList.searchTimer st with
    | Some (due, _, _) => t1 < due
    | None => True
    end ->
    JSString.eqb q1 (ProductList.searchQuery st) = false ->
    (2 <= List.length (JSString.trim q1))%nat ->
    ListSpec.burst t1 q1 rest ->
    let run := ProductList.typedAll ((t1, q1) :: rest) st in
    let tn := fst (List.last rest (t1, q1)) in
    let qn := snd (List.last rest (t1, q1)) in
    snd run = [] /\
    ProductList.searchQuery (fst run) = qn /\
    ProductList.isSearching (fst run) = true /\
    (forall now, now < tn + ProductList.SEARCH_DEBOUNCE ->
                 ProductList.expire now (fst run) = (fst run, [])) /\
    (forall now, tn + ProductList.SEARCH_DEBOUNCE <= now ->
                 snd (ProductList.expire now (fst run))
                   = [ProductList.Request qn 1 (ProductList.stockOption st)] /\
                 ProductList.isSearching (fst (ProductList.expire now (fst run))) = false /\
                 ProductList.searchTimer (fst (ProductList.expire now (fst run))) = None /\
                 ProductList.currentPage (fst (ProductList.expire now (fst run))) = 1).
Proof.
  intros st t1 q1 rest Hpending Hne Hlen Hburst. cbv zeta.
  cbn [ProductList.typedAll]. rewrite (typed_long st t1 q1) by assumption.
  match goal with
  | |- context [ProductList.typedAll rest ?s] =>
      destruct (burst_pending rest s t1 q1 eq_refl eq_refl eq_refl Hburst) as [He Hst]
  end.
  destruct (ProductList.typedAll rest _) as [st2 effs2]. cbn [fst snd] in *.
  destruct (List.last rest (t1, q1)) as [tn qn]. cbn [fst snd].
  subst effs2 st2.
  cbn [ProductList.products ProductList.isLoading ProductList.stockOption
       ProductList.currentPage ProductList.hasMore ProductList.isLoadingMore
       ProductList.lastScrollY ProductList.searchQuery ProductList.isSearching].
  split; [reflexivity|]. split; [reflexivity|]. split; [reflexivity|]. split.
  - intros now Hnow. unfold ProductList.expire. cbn [ProductList.searchTimer].
    destruct (Z.leb_spec (tn + ProductList.SEARCH_DEBOUNCE) now); [lia | reflexivity].
  - intros now Hnow. unfold ProductList.expire. cbn [ProductList.searchTimer].
    destruct (Z.leb_spec (tn + ProductList.SEARCH_DEBOUNCE) now); [|lia].
    repeat split.
Qed.

Lemma X17_debounce_requests_last_text_once_witness :
  let run := ProductList.typedAll [(1000, ListSamples.ka); (1300, ListSamples.kab)]
               ListSamples.loaded in
  snd run = [] /\
  ProductList.searchQuery (fst run) = ListSamples.kab /\
  ProductList.isSearching (fst run) = true /\
  (forall now, now < 1300 + ProductList.SEARCH_DEBOUNCE ->
               ProductList.expire now (fst run) = (fst run, [])) /\
  (forall now, 1300 + ProductList.SEARCH_DEBOUNCE <= now ->
               snd (ProductList.expire now (fst run))
                 = [ProductList.Request ListSamples.kab 1 EmptyString] /\
               ProductList.isSearching (fst (ProductList.expire now (fst run))) = false /\
               ProductList.searchTimer (fst (ProductList.expire now (fst run))) = None /\
               ProductList.currentPage (fst (ProductList.expire now (fst run))) = 1).
Proof.
  apply (X17_debounce_requests_last_text_once ListSamples.loaded 1000 ListSamples.ka
           [(1300, ListSamples.kab)]).
  - exact I.
  - reflexivity.
  - cbn. lia.
  - cbn. repeat split; try reflexivity; lia.
Defined.

(** X18. A change to a text of fewer than two characters (trimmed) is not
    debounced: it cancels the pending timer and at once requests page 1 with
    the empty query, not with the text typed.  The search indicator is left as
    it was: after a long text followed within 500 ms by a short one, the long
    text is never requested, the indicator stays on and no timer is left to
    switch it off. *)
Theorem X18_short_text_loads_at_once_and_leaves_indicator :
  forall (st : ProductList.state) (t1 t2 : Z) (q1 q2 : JSString.t),
    match ProductList.searchTimer st with
    | Some (due, _, _) => t1 < due
    | None => True
    end ->
    JSString.eqb q1 (ProductList.searchQuery st) = false ->
    (2 <= List.length (JSString.trim q1))%nat ->
    t2 - t1 < ProductList.SEARCH_DEBOUNCE ->
    JSString.eqb q2 q1 = false ->
    (List.length (JSString.trim q2) < 2)%nat ->
    let run := ProductList.typedAll [(t1, q1); (t2, q2)] st in
    snd run = [ProductList.Request [] 1 (ProductList.stockOption st)] /\
    ProductList.searchQuery (fst run) = q2 /\
    ProductList.isSearching (fst run) = true /\
    ProductList.searchTimer (fst run) = None /\
    (forall now, ProductList.expire now (fst run) = (fst run, [])).
Proof.
  intros st t1 t2 q1 q2 Hpending Hne1 Hlen1 Hgap Hne2 Hlen2. cbv zeta.
  cbn [ProductList.typedAll]. rewrite (typed_long st t1 q1) by assumption.
  rewrite typed_short;
    [| cbn [ProductList.searchTimer]; lia | exact Hne2 | exact Hlen2].
  cbn. repeat split.
Qed.

Lemma X18_short_text_loads_at_once_and_leaves_indicator_witness :
  let run := ProductList.typedAll [(1000, ListSamples.ka); (1300, ListSamples.k)]
               ListSamples.loaded in
  snd run = [ProductList.Request [] 1 EmptyString] /\
  ProductList.searchQuery (fst run) = ListSamples.k /\
  ProductList.isSearching (fst run) = true /\
  ProductList.searchTimer (fst run) = None /\
  (forall now, ProductList.expire now (fst run) = (fst run, [])).
Proof.
  apply (X18_short_text_loads_at_once_and_leaves_indicator
           ListSamples.loaded 1000 1300 ListSamples.ka ListSamples.k).
  - exact I.
  - reflexivity.
  - cbn. lia.
  - reflexivity.
  - reflexivity.
  - cbn. lia.
Defined.

Section ScrollFacts.
Import ProductList ListSpec.

Lemma handleScroll_small (y : Q) (st : state) :
  (-5 <= y - lastScrollY st)%Q -> (y - lastScrollY st <= 5)%Q ->
  handleScroll y st = (setLastScrollY y st, []).
Proof.
  intros Hlo Hhi. unfold handleScroll. cbv zeta.
  assert (Habs : Qle_bool (if Qle_bool 0 (y - lastScrollY st)
                           then (y - lastScrollY st)%Q
                           else (- (y - lastScrollY st))%Q) 5 = true).
  { destruct (Qle_bool 0 (y - lastScrollY st)); apply Qle_bool_iff; lra. }
  rewrite Habs. reflexivity.
Qed.

End ScrollFacts.

(** X19. The tab bar follows the scroll only in steps of more than 5: the
    offset of every scroll event replaces the one remembered, so a scroll
    made of events that each move at most 5 from the event before never hides
    or shows the tab bar, however far it goes; and the bar is hidden only by
    an event that moved down by more than 5 to an offset above 50, shown only
    by an event that moved up by more than 5. *)
Theorem X19_slow_scroll_never_toggles_tab_bar :
  forall (offsets : list Q) (st : ProductList.state) (y : Q),
    (ListSpec.smallSteps (ProductList.lastScrollY st) offsets ->
     snd (ProductList.scrollAll offsets st) = [] /\
     ProductList.lastScrollY (fst (ProductList.scrollAll offsets st))
       = List.last offsets (ProductList.lastScrollY st)) /\
    (In ProductList.HideTabBar (snd (ProductList.handleScroll y st)) ->
     (5 < y - ProductList.lastScrollY st)%Q /\ (50 < y)%Q) /\
    (In ProductList.ShowTabBar (snd (ProductList.handleScroll y st)) ->
     (y - ProductList.lastScrollY st < -5)%Q).
Proof.
  intros offsets st y. split; [|split].
  - revert st. induction offsets as [|o offsets IH]; intros st Hsmall.
    + cbn. auto.
    + cbn [ListSpec.smallSteps] in Hsmall. destruct Hsmall as [[Hlo Hhi] Hrest].
      cbn [ProductList.scrollAll]. rewrite handleScroll_small by assumption.
      specialize (IH (ProductList.setLastScrollY o st) Hrest).
      destruct (ProductList.scrollAll offsets _) as [st2 effs2]. cbn [fst snd] in *.
      destruct IH as [He Hl]. split; [rewrite He; reflexivity|].
      rewrite Hl. cbn [ProductList.setLastScrollY ProductList.lastScrollY].
      symmetry. apply last_cons_default.
  - unfold ProductList.handleScroll. cbv zeta. cbn [snd].
    set (d := (y - ProductList.lastScrollY st)%Q).
    destruct (Qle_bool (if Qle_bool 0 d then d else (- d)%Q) 5) eqn:Eabs; cbn [negb];
      [intros []|].
    destruct (Qle_bool d 0) eqn:Ed; cbn [negb andb].
    + destruct (Qle_bool 0 d); cbn [negb]; intros Hin; cbn in Hin;
        [destruct Hin | destruct Hin as [Hin | []]; discriminate Hin].
    + destruct (Qle_bool y 50) eqn:Ey; cbn [negb].
      * destruct (Qle_bool 0 d); cbn [negb]; intros Hin; cbn in Hin;
          [destruct Hin | destruct Hin as [Hin | []]; discriminate Hin].
      * intros _.
        assert (Hd : (0 < d)%Q).
        { apply Qnot_le_lt. intros Hle. apply Qle_bool_iff in Hle. congruence. }
        assert (Hpos : Qle_bool 0 d = true) by (apply Qle_bool_iff; lra).
        rewrite Hpos in Eabs. split.
        -- apply Qnot_le_lt. intros Hle. apply Qle_bool_iff in Hle. congruence.
        -- apply Qnot_le_lt. intros Hle. apply Qle_bool_iff in Hle. congruence.
  - unfold ProductList.handleScroll. cbv zeta. cbn [snd].
    set (d := (y - ProductList.lastScrollY st)%Q).
    destruct (Qle_bool (if Qle_bool 0 d then d else (- d)%Q) 5) eqn:Eabs; cbn [negb];
      [intros []|].
    destruct (negb (Qle_bool d 0) && negb (Qle_bool y 50)).
    + intros Hin. cbn in Hin. destruct Hin as [Hin | []]. discriminate Hin.
    + destruct (Qle_bool 0 d) eqn:Epos; cbn [negb]; [intros []|]. intros _.
      assert (Hneg : (d < 0)%Q).
      { apply Qnot_le_lt. intros Hle. apply Qle_bool_iff in Hle. congruence. }
      assert (Habs : ~ (- d <= 5)%Q).
      { intros Hle. apply Qle_bool_iff in Hle. congruence. }
      apply Qnot_le_lt. intros Hle. apply Habs. lra.
Qed.

Lemma X19_slow_scroll_never_toggles_tab_bar_witness :
  snd (ProductList.scrollAll [5; 10; 15; 20; 25; 30; 35; 40; 45; 50; 55; 60]%Q
         ListSamples.loaded) = [] /\
  ProductList.lastScrollY
    (fst (ProductList.scrollAll [5; 10; 15; 20; 25; 30; 35; 40; 45; 50; 55; 60]%Q
            ListSamples.loaded))
  = List.last [5; 10; 15; 20; 25; 30; 35; 40; 45; 50; 55; 60]%Q
      (ProductList.lastScrollY ListSamples.loaded).
Proof.
  apply (proj1 (X19_slow_scroll_never_toggles_tab_bar
                  [5; 10; 15; 20; 25; 30; 35; 40; 45; 50; 55; 60]%Q
                  ListSamples.loaded 0)).
  cbn [ListSpec.smallSteps ListSamples.loaded ProductList.lastScrollY].
  repeat match goal with
         | |- _ /\ _ => split
         | |- (_ <= _)%Q => apply Qle_bool_iff; reflexivity
         | |- True => exact I
         end.
Defined.

(** X20. The title of the product list is never empty: it is the category
    and the brand joined by " - " when both are given and not empty, the one
    that is given and not empty otherwise, and "Ürün Listesi" when neither
    is; an empty name counts as not given. *)
Theorem X20_list_title_is_never_empty :
  forall categoryName brandName : option string,
    let given (s : option string) :=
      match s with Some n => n <> EmptyString | None => False end in
    let text (s : option string) :=
      match s with Some n => n | None => EmptyString end in
    ProductList.getTitle categoryName brandName <> EmptyString /\
    (given categoryName -> given brandName ->
     ProductList.getTitle categoryName brandName
       = (text categoryName ++ " - " ++ text brandName)%string) /\
    (given categoryName -> ~ given brandName ->
     ProductList.getTitle categoryName brandName = text categoryName) /\
    (~ given categoryName -> given brandName ->
     ProductList.getTitle categoryName brandName = text brandName) /\
    (~ given categoryName -> ~ given brandName ->
     ProductList.getTitle categoryName brandName = "Ürün Listesi"%string).
Proof.
  intros categoryName brandName. cbv zeta. unfold ProductList.getTitle.
  assert (Htruthy : forall s : option string,
             match s with Some n => negb (n =? EmptyString)%string | None => false end = true
             <-> match s with Some n => n <> EmptyString | None => False end).
  { intros [n|]; [|split; [discriminate | intros []]].
    rewrite negb_true_iff, String.eqb_neq. reflexivity. }
  pose proof (Htruthy categoryName) as Hc. pose proof (Htruthy brandName) as Hb.
  destruct (match categoryName with
            | Some n => negb (n =? EmptyString)%string | None => false end) eqn:Ec;
    destruct (match brandName with
              | Some n => negb (n =? EmptyString)%string | None => false end) eqn:Eb;
    cbn [andb].
  - assert (Hgc := proj1 Hc eq_refl). assert (Hgb := proj1 Hb eq_refl).
    split; [|repeat split; try reflexivity; intros; tauto].
    destruct categoryName as [[|c n]|]; try tauto. discriminate.
  - assert (Hgc := proj1 Hc eq_refl).
    assert (Hgb : ~ match brandName with Some n => n <> EmptyString | None => False end)
      by (intros H; apply Hb in H; discriminate H).
    split; [|repeat split; try reflexivity; intros; tauto].
    destruct categoryName as [n|]; tauto.
  - assert (Hgb := proj1 Hb eq_refl).
    assert (Hgc : ~ match categoryName with Some n => n <> EmptyString | None => False end)
      by (intros H; apply Hc in H; discriminate H).
    split; [|repeat split; try reflexivity; intros; tauto].
    destruct brandName as [n|]; tauto.
  - assert (Hgc : ~ match categoryName with Some n => n <> EmptyString | None => False end)
      by (intros H; apply Hc in H; discriminate H).
    assert (Hgb : ~ match brandName with Some n => n <> EmptyString | None => False end)
      by (intros H; apply Hb in H; discriminate H).
    split; [discriminate|]. repeat split; try reflexivity; intros; tauto.
Qed.

Lemma X20_list_title_is_never_empty_witness :
  ProductList.getTitle (Some "Kablo"%string) (Some EmptyString) = "Kablo"%string.
Proof.
  apply (proj1 (proj2 (proj2 (X20_list_title_is_never_empty
                                (Some "Kablo"%string) (Some EmptyString))))).
  - discriminate.
  - intros H. apply H. reflexivity.
Defined.

(** X21. The first render of the product list issues two page-1 requests:
    the initial load asks for the initial query at once, and the search effect
    asks again, at once with the empty query when the initial query has fewer
    than two characters (trimmed), and through the 500 ms timer with the same
    query otherwise. *)
Theorem X21_first_render_requests_twice :
  forall (now : Z) (initialSearchQuery : option JSString.t),
    let query := match initialSearchQuery with Some q => q | None => [] end in
    let run := ListSpec.mount now initialSearchQuery in
    ((List.length (JSString.trim query) < 2)%nat ->
     snd run = [ProductList.Request query 1 EmptyString;
                ProductList.Request [] 1 EmptyString] /\
     ProductList.searchTimer (fst run) = None) /\
    ((2 <= List.length (JSString.trim query))%nat ->
     snd run = [ProductList.Request query 1 EmptyString] /\
     ProductList.isSearching (fst run) = true /\
     snd (ProductList.expire (now + ProductList.SEARCH_DEBOUNCE) (fst run))
       = [ProductList.Request query 1 EmptyString]).
Proof.
  intros now initialSearchQuery. cbv zeta.
  assert (Hinit : ProductList.initial initialSearchQuery =
                  ProductList.mkState [] true
                    (match initialSearchQuery with Some q => q | None => [] end)
                    false EmptyString 1 true false None 0).
  { destruct initialSearchQuery as [[|u q]|]; reflexivity. }
  unfold ListSpec.mount. rewrite Hinit.
  set (query := match initialSearchQuery with Some q => q | None => [] end).
  unfold ProductList.loadProductsStart, ProductList.searchEffect.
  cbn [Z.eqb Pos.eqb ProductList.setIsLoading ProductList.setSearchTimer
       ProductList.searchQuery ProductList.stockOption ProductList.products
       ProductList.isLoading ProductList.isSearching ProductList.currentPage
       ProductList.hasMore ProductList.isLoadingMore ProductList.searchTimer
       ProductList.lastScrollY].
  split; intros Hlen.
  - destruct (Nat.ltb_spec (List.length (JSString.trim query)) 2); [|lia].
    cbn. auto.
  - destruct (Nat.ltb_spec (List.length (JSString.trim query)) 2); [lia|].
    cbn [fst snd app]. split; [reflexivity|]. split; [reflexivity|].
    unfold ProductList.expire. cbn [ProductList.searchTimer ProductList.setSearchTimer
                                    ProductList.setIsSearching].
    rewrite Z.leb_refl. reflexivity.
Qed.

Lemma X21_first_render_requests_twice_witness :
  snd (ListSpec.mount 1000 None)
  = [ProductList.Request [] 1 EmptyString; ProductList.Request [] 1 EmptyString] /\
  ProductList.searchTimer (fst (ListSpec.mount 1000 None)) = None.
Proof.
  apply (proj1 (X21_first_render_requests_twice 1000 None)).
  cbn. lia.
Defined.

(** ** The stock limit of the filter sheet *)

Section LimitFacts.
Import StockLimit LimitSpec.

Lemma keepDigits_allDigits (text : string) : allDigits (keepDigits text) = true.
Proof.
  induction text as [|c rest IH]; [reflexivity|].
  cbn [keepDigits]. destruct (isDigit c) eqn:Ec; [|exact IH].
  cbn [allDigits]. rewrite Ec, IH. reflexivity.
Qed.

Lemma keepDigits_length (text : string) :
  (String.length (keepDigits text) <= String.length text)%nat.
Proof.
  induction text as [|c rest IH]; [cbn; lia|].
  cbn [keepDigits]. destruct (isDigit c); cbn [String.length]; lia.
Qed.

Lemma digit_value (c : ascii) :
  isDigit c = true -> 0 <= Z.of_nat (nat_of_ascii c - 48) <= 9.
Proof.
  unfold isDigit. intros H. apply andb_prop in H. destruct H as [Hlo Hhi].
  apply Nat.leb_le in Hlo, Hhi. lia.
Qed.

Lemma digit_not_space (c : ascii) : isDigit c = true -> isAsciiSpace c = false.
Proof.
  unfold isDigit, isAsciiSpace. intros H. apply andb_prop in H. destruct H as [Hlo Hhi].
  apply Nat.leb_le in Hlo, Hhi.
  destruct (Nat.leb_spec (nat_of_ascii c) 13); [lia|].
  destruct (Nat.eqb_spec (nat_of_ascii c) 32); [lia|].
  rewrite andb_false_r. reflexivity.
Qed.

Lemma digit_not_sign (c : ascii) :
  isDigit c = true -> Ascii.eqb c "-" = false /\ Ascii.eqb c "+" = false.
Proof.
  intros H. split; apply Ascii.eqb_neq; intros ->; discriminate H.
Qed.

(** The digits of an all-digit text read as a number, from an accumulator
    [a] on. *)
Lemma leadingDigits_bounds (s : string) :
  forall a : Z,
    0 <= a ->
    allDigits s = true ->
    exists r,
      leadingDigits (Some a) s = Some r /\
      a * 10 ^ Z.of_nat (String.length s) <= r
        < (a + 1) * 10 ^ Z.of_nat (String.length s).
Proof.
  induction s as [|c rest IH]; intros a Ha Hall.
  - exists a. cbn. split; [reflexivity | lia].
  - cbn [allDigits] in Hall. apply andb_prop in Hall. destruct Hall as [Hc Hrest].
    pose proof (digit_value c Hc) as Hd.
    cbn [leadingDigits]. rewrite Hc.
    destruct (IH (10 * a + Z.of_nat (nat_of_ascii c - 48)) ltac:(lia) Hrest)
      as (r & Hr & Hlo & Hhi).
    exists r. split; [exact Hr|].
    cbn [String.length]. rewrite Nat2Z.inj_succ, Z.pow_succ_r by lia.
    assert (Hpow : 0 < 10 ^ Z.of_nat (String.length rest)) by (apply Z.pow_pos_nonneg; lia).
    nia.
Qed.

Lemma parseInt10_unsigned (s : string) :
  allDigits s = true ->
  parseInt10 s = match leadingDigits None s with
                 | Some n => toNumber n
                 | None => NaN
                 end.
Proof.
  destruct s as [|c rest]; [reflexivity|]. intros Hall.
  cbn [allDigits] in Hall. apply andb_prop in Hall. destruct Hall as [Hc _].
  unfold parseInt10. cbn [skipSpaces]. rewrite (digit_not_space c Hc).
  destruct (digit_not_sign c Hc) as [-> ->]. reflexivity.
Qed.

Lemma parseInt10_digits (s : string) :
  s <> EmptyString ->
  allDigits s = true ->
  exists n, leadingDigits None s = Some n /\ parseInt10 s = toNumber n /\
            0 <= n < 10 ^ Z.of_nat (String.length s).
Proof.
  intros Hne Hall. rewrite (parseInt10_unsigned s Hall).
  destruct s as [|c rest]; [congruence|].
  pose proof Hall as Hall'. cbn [allDigits] in Hall'.
  apply andb_prop in Hall'. destruct Hall' as [Hc Hrest].
  cbn [leadingDigits]. rewrite Hc.
  pose proof (digit_value c Hc) as Hd.
  destruct (leadingDigits_bounds rest (10 * 0 + Z.of_nat (nat_of_ascii c - 48))
              ltac:(lia) Hrest) as (r & Hr & Hlo & Hhi).
  exists r. rewrite Hr. split; [reflexivity|]. split; [reflexivity|].
  cbn [String.length]. rewrite Nat2Z.inj_succ, Z.pow_succ_r by lia.
  assert (Hpow : 0 < 10 ^ Z.of_nat (String.length rest)) by (apply Z.pow_pos_nonneg; lia).
  nia.
Qed.

(** Fifteen digits stay below 2^53. *)
Lemma fifteen_digits_exact (len : nat) (n : Z) :
  (len <= 15)%nat -> 0 <= n < 10 ^ Z.of_nat len -> toNumber n = Int n.
Proof.
  intros Hlen Hn. unfold toNumber, MAX_EXACT.
  assert (Hpow : 10 ^ Z.of_nat len <= 10 ^ 15) by (apply Z.pow_le_mono_r; lia).
  assert (H53 : 10 ^ 15 <= 2 ^ 53) by (vm_compute; discriminate).
  destruct (Z.leb_spec (Z.abs n) (2 ^ 53)); [reflexivity | lia].
Qed.

End LimitFacts.

(** X22. Whatever is typed into the stock-limit box, the text stored is
    not empty and holds digits only, no more of them than the text typed is
    long, so applying the filter never meets NaN: with n the integer the
    stored digits spell, the limit applied is the number [parseInt] makes of
    max(1, n).  With at most fifteen digits stored (the box admits four
    characters) that number is the integer itself: the limit is at least 1 and
    below 10 to the number of digits stored.  The sanitising is what keeps
    the limit positive: applied to a minus sign followed by digits that
    [parseInt] reads as n > 0, the same expression yields -n. *)
Theorem X22_applied_stock_limit_is_positive :
  forall text : string,
    let stored := StockLimit.onChangeLimitText text in
    stored <> EmptyString /\
    LimitSpec.allDigits stored = true /\
    (String.length stored <= Nat.max 1 (String.length text))%nat /\
    (exists n, 0 <= n < 10 ^ Z.of_nat (String.length stored) /\
               StockLimit.parseInt10 stored = StockLimit.toNumber n /\
               StockLimit.appliedLimit stored = StockLimit.toNumber (Z.max 1 n)) /\
    ((String.length stored <= 15)%nat ->
     exists n, 1 <= n < 10 ^ Z.of_nat (String.length stored) /\
               StockLimit.appliedLimit stored = StockLimit.Int n) /\
    (forall n, LimitSpec.allDigits text = true ->
               StockLimit.parseInt10 text = StockLimit.Int n -> 0 < n ->
               StockLimit.appliedLimit (String "-" text) = StockLimit.Int (- n)).
Proof.
  intros text. cbv zeta.
  assert (Hsigned : forall n, LimitSpec.allDigits text = true ->
               StockLimit.parseInt10 text = StockLimit.Int n -> 0 < n ->
               StockLimit.appliedLimit (String "-" text) = StockLimit.Int (- n)).
  { intros n Hall Hn Hpos. rewrite (parseInt10_unsigned text Hall) in Hn.
    unfold StockLimit.appliedLimit, StockLimit.parseInt10.
    cbn [StockLimit.skipSpaces].
    change (StockLimit.isAsciiSpace "-") with false. cbv iota.
    change (Ascii.eqb "-" "-") with true. cbv iota.
    destruct (StockLimit.leadingDigits None text) as [m|]; [|discriminate Hn].
    unfold StockLimit.toNumber in *. rewrite Z.abs_opp.
    destruct (Z.abs m <=? StockLimit.MAX_EXACT); [|discriminate Hn].
    injection Hn as ->.
    destruct (Z.eqb_spec (- n) 0); [lia | reflexivity]. }
  assert (Happlied : forall s n,
             0 <= n -> StockLimit.parseInt10 s = StockLimit.toNumber n ->
             StockLimit.appliedLimit s = StockLimit.toNumber (Z.max 1 n)).
  { intros s n Hn Hs. unfold StockLimit.appliedLimit. rewrite Hs.
    unfold StockLimit.toNumber, StockLimit.MAX_EXACT.
    assert (H53 : 1 <= 2 ^ 53) by (vm_compute; discriminate).
    destruct (Z.leb_spec (Z.abs n) (2 ^ 53)); destruct (Z.leb_spec (Z.abs (Z.max 1 n)) (2 ^ 53));
      try lia.
    - destruct (Z.eqb_spec n 0).
      + subst n. reflexivity.
      + f_equal. lia.
    - f_equal. lia. }
  unfold StockLimit.onChangeLimitText.
  pose proof (keepDigits_allDigits text) as Hall.
  pose proof (keepDigits_length text) as Hlen.
  destruct (String.eqb_spec (StockLimit.keepDigits text) EmptyString) as [He | Hne].
  - split; [discriminate|]. split; [reflexivity|].
    split; [cbn [String.length]; lia|]. split; [|split; [|exact Hsigned]].
    + exists 1. split; [cbn; lia|]. split; reflexivity.
    + intros _. exists 1. split; [cbn; lia | reflexivity].
  - split; [exact Hne|]. split; [exact Hall|]. split; [lia|].
    destruct (parseInt10_digits _ Hne Hall) as (n & _ & Hn & Hlo & Hhi).
    pose proof (Happlied _ n Hlo Hn) as Happ.
    assert (Hone : 1 < 10 ^ Z.of_nat (String.length (StockLimit.keepDigits text))).
    { destruct (StockLimit.keepDigits text) as [|c rest]; [congruence|].
      cbn [String.length]. rewrite Nat2Z.inj_succ, Z.pow_succ_r by lia.
      assert (0 < 10 ^ Z.of_nat (String.length rest)) by (apply Z.pow_pos_nonneg; lia).
      lia. }
    split; [exists n; auto|]. split; [|exact Hsigned].
    intros Hfew. exists (Z.max 1 n). split; [lia|].
    rewrite Happ. apply (fifteen_digits_exact _ _ Hfew). lia.
Qed.

Lemma X22_applied_stock_limit_is_positive_witness :
  (exists n, 1 <= n < 10 ^ Z.of_nat (String.length (StockLimit.onChangeLimitText "-0a12")) /\
             StockLimit.appliedLimit (StockLimit.onChangeLimitText "-0a12")
             = StockLimit.Int n) /\
  StockLimit.appliedLimit "-0412" = StockLimit.Int (- 412).
Proof.
  split.
  - apply (proj1 (proj2 (proj2 (proj2 (proj2
             (X22_applied_stock_limit_is_positive "-0a12")))))).
    vm_compute. lia.
  - apply (proj2 (proj2 (proj2 (proj2 (proj2
             (X22_applied_stock_limit_is_positive "0412")))))
             412 eq_refl eq_refl eq_refl).
Defined.

(** X23. The dashboard hands a message of the web view to [setAuthToken]
    exactly when the message parses to a value other than null whose [type]
    is the string AUTH_TOKEN and whose [token] and [user] are both truthy, and
    then with that token and that user; a token without a user is dropped.
    The handler itself never rejects, whatever the message and whatever
    [setAuthToken] does. *)
Theorem X23_dashboard_accepts_token_only_with_user :
  forall (parsed : option JS.value) (stored : JS.M unit) (token user : JS.value),
    Dashboard.handleWebViewMessage parsed stored = inr tt /\
    (Dashboard.setAuthTokenCalledWith parsed = Some (token, user) <->
     exists data,
       parsed = Some data /\
       JS.nullish data = false /\
       JS.prop data "type" = JS.VString "AUTH_TOKEN" /\
       JS.prop data "token" = token /\ JS.truthy token = true /\
       JS.prop data "user" = user /\ JS.truthy user = true).
Proof.
  intros parsed stored token user. split.
  - unfold Dashboard.handleWebViewMessage.
    destruct (Dashboard.authCall parsed) as [e | [call|]]; cbn; try reflexivity.
    destruct stored as [e | []]; reflexivity.
  - unfold Dashboard.setAuthTokenCalledWith, Dashboard.authCall.
    destruct parsed as [data|]; cbn [JS.bind JS.ret JS.throw].
    2:{ split; [discriminate | intros (d & Hd & _); discriminate Hd]. }
    destruct (JS.nullish data) eqn:Hn.
    { unfold JS.get. rewrite Hn. cbn.
      split; [discriminate|]. intros (d & Hd & Hnd & _). injection Hd as <-. congruence. }
    rewrite !(get_ok data) by exact Hn. cbn [JS.bind].
    destruct (JS.prop data "type") as [| | | |t| |] eqn:Et;
      try (split; [discriminate|];
           intros (d & Hd & _ & Hty & _); injection Hd as <-; congruence).
    destruct (String.eqb_spec t "AUTH_TOKEN") as [-> | Hne].
    2:{ split; [discriminate|].
        intros (d & Hd & _ & Hty & _). injection Hd as <-. congruence. }
    destruct (JS.truthy (JS.prop data "token")) eqn:Htok.
    2:{ cbn. split; [discriminate|].
        intros (d & Hd & _ & _ & Ht & Htt & _). injection Hd as <-. congruence. }
    cbn [JS.bind].
    destruct (JS.truthy (JS.prop data "user")) eqn:Hus; cbn [JS.ret].
    2:{ split; [discriminate|].
        intros (d & Hd & _ & _ & _ & _ & Hu & Hut). injection Hd as <-. congruence. }
    split.
    + intros Heq. injection Heq as <- <-. exists data. repeat split; assumption.
    + intros (d & Hd & _ & _ & Ht & _ & Hu & _). injection Hd as <-. subst. reflexivity.
Qed.

Lemma X23_dashboard_accepts_token_only_with_user_witness :
  Dashboard.setAuthTokenCalledWith
    (Some (JS.VObject [("type", JS.VString "AUTH_TOKEN"); ("token", JS.VString "t");
                       ("user", JS.VObject [])]%string))
  = Some (JS.VString "t", JS.VObject []).
Proof.
  apply (proj2 (X23_dashboard_accepts_token_only_with_user
                  (Some (JS.VObject [("type", JS.VString "AUTH_TOKEN");
                                     ("token", JS.VString "t");
                                     ("user", JS.VObject [])]%string))
                  (inr tt) (JS.VString "t") (JS.VObject []))).
  eexists. repeat split; reflexivity.
Defined.
